(** * Threshold EdDSA: coordinator and party-agent plumbing

    A shallow embedding of the TypeScript sources
      - [utils/validation.ts]       (validateThreshold, validateSigningParties)
      - [utils/serialization.ts]    (byte and message normalisation)
      - [client/mpc_client.ts]      (MPCClient, the stateless wrapper of the
                                     native threshold-signature module)
      - [services/coordinator_service.ts] (CoordinatorService)
      - [services/mpc_service.ts]   (MPCService)

    Conventions.
      - A JavaScript [number] that the code uses as a count or an index is a
        [Z].
      - A JavaScript string is a Rocq [string]: the sequence of its bytes in
        UTF-8, so that [Buffer.from(s)] is the list of its characters' codes.
        The default [Array.prototype.sort] compares UTF-16 code units;
        [stringSortCompare] computes that order from the bytes.
      - Methods of a class read and write the fields of [this]; they are
        functions from the object's state to an [Outcome], which carries the
        state left behind both when the method returns and when it throws.
      - What the platform provides and the repository does not define
        ([String.prototype.localeCompare], SHA-256, the native module
        [multi-party-eddsa-node]) is a variable of the section that embeds
        the code using it. *)

From Stdlib Require Import List String Ascii ZArith Lia Bool.
From Stdlib Require Import Permutation Sorted DecimalString.
Import ListNotations.
Local Open Scope Z_scope.

(** ** Errors ([errors/index.ts]) *)

(** The subclasses of [MPCError], plus the two built-in classes the code can
    raise: a plain [Error] and the [TypeError] of a property read on
    [undefined]. [NativeError] stands for whatever the native module throws. *)
Inductive ErrorClass : Type :=
| ValidationError
| SessionError
| ServiceError
| PartyError
| StateError
| PlainError
| TypeError
| NativeError.

(** The message texts, one constructor per template literal of the source. *)
Inductive ErrorMessage : Type :=
| ThresholdTooSmall (threshold : Z)
| ThresholdAboveTotal (threshold totalParties : Z)
| NeedAtLeastSigners (threshold signingPartiesCount : Z)
| MoreSignersThanParties (signingPartiesCount totalParties : Z)
| NoSharedKeysProvided
| SessionNotInitialized
| KeyGenerationNotCompleted
| PartyNotFound (partyId : string)
| RequiredStateNotInitialized
| NoEphemeralSharedKeys
| AggregateRNotFound
| ServiceNotInitialized
| UndefinedProperty
| NativeMessage (text : string).

Record MPCError : Type := mkError { errClass : ErrorClass; errMessage : ErrorMessage }.

(** A call that either returns or throws, without touching any state. *)
Inductive Result (A : Type) : Type :=
| Ok (a : A)
| Fail (e : MPCError).
Arguments Ok {A} a.
Arguments Fail {A} e.

(** A method call on an object of state [S]. *)
Inductive Outcome (S A : Type) : Type :=
| Returned (a : A) (s : S)
| Thrown (e : MPCError) (s : S).
Arguments Returned {S A} a s.
Arguments Thrown {S A} e s.

Definition Method (S A : Type) : Type := S -> Outcome S A.

Definition ret {S A} (a : A) : Method S A := fun s => Returned a s.

Definition throw {S A} (c : ErrorClass) (m : ErrorMessage) : Method S A :=
  fun s => Thrown (mkError c m) s.

Definition bind {S A B} (c : Method S A) (k : A -> Method S B) : Method S B :=
  fun s => match c s with
           | Returned a s' => k a s'
           | Thrown e s' => Thrown e s'
           end.

Definition this {S} : Method S S := fun s => Returned s s.

Definition assign {S} (f : S -> S) : Method S unit := fun s => Returned tt (f s).

Definition call {S A} (r : Result A) : Method S A :=
  fun s => match r with
           | Ok a => Returned a s
           | Fail e => Thrown e s
           end.

Declare Scope method_scope.
Delimit Scope method_scope with method.
Notation "x <- c ;; k" := (bind c (fun x => k))
  (at level 61, c at next level, right associativity) : method_scope.
Notation "c ;;; k" := (bind c (fun _ => k))
  (at level 61, right associativity) : method_scope.

(** [Array.prototype.map] with a callback that may throw: the first throw
    ends the traversal. *)
Fixpoint mapResult {A B} (f : A -> Result B) (l : list A) : Result (list B) :=
  match l with
  | [] => Ok []
  | x :: xs =>
      match f x with
      | Fail e => Fail e
      | Ok y =>
          match mapResult f xs with
          | Fail e => Fail e
          | Ok ys => Ok (y :: ys)
          end
      end
  end.

Definition returned {S A} (o : Outcome S A) : bool :=
  match o with Returned _ _ => true | Thrown _ _ => false end.

Definition stateAfter {S A} (o : Outcome S A) : S :=
  match o with Returned _ s => s | Thrown _ s => s end.

(** ** Arrays *)

(** [Array.prototype.sort(compareFn)]. The language requires the sort to be
    stable; for a comparator that is a consistent ordering the result of a
    stable sort is unique, and it is the one this insertion sort computes.
    [compareFn a b <= 0] keeps [a] before [b]. *)
Fixpoint sortInsert {A} (compareFn : A -> A -> Z) (x : A) (l : list A) : list A :=
  match l with
  | [] => [x]
  | y :: ys =>
      if compareFn x y <=? 0 then x :: y :: ys
      else y :: sortInsert compareFn x ys
  end.

Definition Array_sort {A} (compareFn : A -> A -> Z) (l : list A) : list A :=
  fold_right (sortInsert compareFn) [] l.

(** A string is held as the bytes of its UTF-8 form; JavaScript compares
    strings by their UTF-16 code units. On UTF-8 the order of the code
    units is the order of the bytes except in one place: a character
    beyond U+FFFF, whose first code unit is a surrogate in D800..DBFF,
    comes before the characters U+E000..U+FFFF. The former have the lead
    bytes F0..F4, the latter the lead bytes EE and EF. [codeUnitRank]
    exchanges the two groups and leaves every other byte in its place, so
    that comparing the ranks of the bytes compares the code units. *)
Definition codeUnitRank (b : N) : N :=
  if ((240 <=? b) && (b <=? 244))%N then (b - 2)%N
  else if ((238 <=? b) && (b <=? 239))%N then (b + 5)%N
  else b.

Fixpoint codeUnitKey (s : string) : list N :=
  match s with
  | EmptyString => []
  | String c s' => codeUnitRank (N_of_ascii c) :: codeUnitKey s'
  end.

(** The comparison of two sequences of numbers from their first elements
    on, a proper prefix before what it is a prefix of. *)
Fixpoint compareUnits (x y : list N) : comparison :=
  match x, y with
  | [], [] => Eq
  | [], _ :: _ => Lt
  | _ :: _, [] => Gt
  | a :: x', b :: y' =>
      match (a ?= b)%N with
      | Eq => compareUnits x' y'
      | Lt => Lt
      | Gt => Gt
      end
  end.

(** The comparison of [sort()] called without a comparator: the elements are
    converted to strings and compared by code units. *)
Definition stringSortCompare (x y : string) : Z :=
  match compareUnits (codeUnitKey x) (codeUnitKey y) with
  | Lt => -1
  | Eq => 0
  | Gt => 1
  end.

(** What [codeUnitRank] is measured against: the UTF-8 bytes and the
    UTF-16 code units of a code point, for the code points that are
    Unicode scalar values (no surrogates), and the string a sequence of
    code points is held as. *)
Definition utf8Bytes (cp : N) : list N :=
  (if cp <? 128 then [cp]
   else if cp <? 2048 then [192 + cp / 64; 128 + cp mod 64]
   else if cp <? 65536 then [224 + cp / 4096; 128 + (cp / 64) mod 64; 128 + cp mod 64]
   else [240 + cp / 262144; 128 + (cp / 4096) mod 64; 128 + (cp / 64) mod 64;
         128 + cp mod 64])%N.

Definition utf16Units (cp : N) : list N :=
  (if cp <? 65536 then [cp]
   else [55296 + (cp - 65536) / 1024; 56320 + (cp - 65536) mod 1024])%N.

Definition scalarValue (cp : N) : Prop := (cp < 55296 \/ 57344 <= cp < 1114112)%N.

Fixpoint stringOfBytes (l : list N) : string :=
  match l with
  | [] => EmptyString
  | b :: l' => String (ascii_of_N b) (stringOfBytes l')
  end.

Definition utf8String (codePoints : list N) : string :=
  stringOfBytes (flat_map utf8Bytes codePoints).

(** The place of a code point in the order of the code units: the
    characters beyond U+FFFF between U+D7FF and U+E000. *)
Definition unitOrderKey (cp : N) : N :=
  (if cp <? 55296 then cp
   else if cp <? 65536 then cp + 1048576
   else cp - 65536 + 55296)%N.

(** The ranks of the UTF-8 bytes of a code point, written out. *)
Definition rankedUtf8 (cp : N) : list N :=
  (if cp <? 128 then [cp]
   else if cp <? 2048 then [192 + cp / 64; 128 + cp mod 64]
   else if cp <? 57344 then [224 + cp / 4096; 128 + (cp / 64) mod 64; 128 + cp mod 64]
   else if cp <? 65536 then [229 + cp / 4096; 128 + (cp / 64) mod 64; 128 + cp mod 64]
   else [238 + cp / 262144; 128 + (cp / 4096) mod 64; 128 + (cp / 64) mod 64;
         128 + cp mod 64])%N.

(** [String(n)] for an integer in the range where JavaScript prints all the
    digits (array indices are in it). *)
Definition numberToString (n : Z) : string := NilZero.string_of_int (Z.to_int n).

Definition defaultSortStrings (l : list string) : list string :=
  Array_sort stringSortCompare l.

Definition defaultSortNumbers (l : list Z) : list Z :=
  Array_sort (fun x y => stringSortCompare (numberToString x) (numberToString y)) l.

(** ** Byte containers ([types/index.ts], [utils/serialization.ts]) *)

(** [bytes: number[] | Buffer]. *)
Inductive ByteData : Type :=
| ArrayBytes (l : list Z)
| BufferBytes (l : list Z).

(** [SerializableBigInt], [PublicKey], [Commitment], [BlindFactor] and
    [SecretShare] are the same interface. *)
Record SerializableBigInt : Type := mkBytes { bytes : ByteData }.
Definition PublicKey : Type := SerializableBigInt.

(** [Buffer.from(array)]: every entry is reduced to a byte. *)
Definition Buffer_from (l : list Z) : list Z := map (fun b => Z.land b 255) l.

Definition isBuffer (d : ByteData) : bool :=
  match d with BufferBytes _ => true | ArrayBytes _ => false end.

Definition isArray (d : ByteData) : bool :=
  match d with ArrayBytes _ => true | BufferBytes _ => false end.

(** [Array.from(bytes)]. *)
Definition Array_from (d : ByteData) : list Z :=
  match d with ArrayBytes l => l | BufferBytes l => l end.

(** [Buffer.from(bytes)] for either representation. *)
Definition toBuffer (d : ByteData) : list Z :=
  match d with ArrayBytes l => Buffer_from l | BufferBytes l => l end.

(** The three functions below start with a guard that hands back an
    argument that is missing or has no [bytes]; the interface
    [SerializableBigInt] has the field, and an optional object is an
    [option] at the call site. *)
Definition normalizeBytesForRust (obj : SerializableBigInt) : SerializableBigInt :=
  mkBytes (ArrayBytes (if isArray (bytes obj) then Array_from (bytes obj)
                       else Array_from (bytes obj))).

Definition normalizeBytesToBuffer (obj : SerializableBigInt) : SerializableBigInt :=
  mkBytes (BufferBytes (if isBuffer (bytes obj) then Array_from (bytes obj)
                        else toBuffer (bytes obj))).

Definition serializeForHttp (obj : SerializableBigInt) : SerializableBigInt :=
  mkBytes (ArrayBytes (if isArray (bytes obj) then Array_from (bytes obj)
                       else Array_from (bytes obj))).

Definition hexDigit (n : Z) : ascii :=
  nth (Z.to_nat n) (list_ascii_of_string "0123456789abcdef") "0"%char.

Definition hexByte (b : Z) : string :=
  String (hexDigit (b / 16)) (String (hexDigit (b mod 16)) EmptyString).

(** [Buffer.from(bytes).toString("hex")]. *)
Definition toHex (d : ByteData) : string :=
  String.concat EmptyString (map hexByte (toBuffer d)).

(** [message: Buffer | number[] | string]. *)
Inductive Message : Type :=
| MsgBuffer (b : list Z)
| MsgArray (a : list Z)
| MsgString (s : string).

(** [Buffer.from(s)] for a string: its UTF-8 bytes. *)
Definition Buffer_from_string (s : string) : list Z :=
  map (fun c => Z.of_nat (nat_of_ascii c)) (list_ascii_of_string s).

(** [message || 'default']: the empty string is falsy. *)
Definition orDefault (s : string) : string :=
  match s with
  | EmptyString => "default"%string
  | String _ _ => s
  end.

(** Returns the bytes of the resulting [Buffer]. *)
Definition normalizeMessage (message : Message) : list Z :=
  match message with
  | MsgBuffer b => b
  | MsgArray a => Buffer_from a
  | MsgString s => Buffer_from_string (orDefault s)
  end.

(** Returns the resulting array. *)
Definition messageToArray (message : Message) : list Z :=
  match message with
  | MsgArray a => a
  | MsgBuffer b => b
  | MsgString s => Buffer_from_string (orDefault s)
  end.

(** ** Validation ([utils/validation.ts]) *)

Definition validateThreshold (threshold : Z) (totalParties : option Z) : Result unit :=
  if threshold <? 2 then
    Fail (mkError ValidationError (ThresholdTooSmall threshold))
  else
    match totalParties with
    | Some n =>
        if threshold >? n then
          Fail (mkError ValidationError (ThresholdAboveTotal threshold n))
        else Ok tt
    | None => Ok tt
    end.

Definition validateSigningParties (signingPartiesCount threshold : Z)
    (totalParties : option Z) : Result unit :=
  if signingPartiesCount <? threshold then
    Fail (mkError ValidationError (NeedAtLeastSigners threshold signingPartiesCount))
  else
    match totalParties with
    | Some n =>
        if signingPartiesCount >? n then
          Fail (mkError ValidationError (MoreSignersThanParties signingPartiesCount n))
        else Ok tt
    | None => Ok tt
    end.

(** ** Protocol data ([types/index.ts]) *)

Record SharedKey : Type := mkSharedKey {
  y : SerializableBigInt;
  xI : SerializableBigInt;
  prefix : option SerializableBigInt
}.

(** The native module names the aggregate nonce [r], the HTTP form names it
    [R]; the code reads [r || R], so either may be missing. *)
Record EphemeralSharedKey : Type := mkEphemeralSharedKey {
  eph_r : option SerializableBigInt;
  eph_R : option SerializableBigInt;
  rI : SerializableBigInt
}.

Record LocalSignature : Type := mkLocalSignature {
  gammaI : SerializableBigInt;
  k : SerializableBigInt
}.

Record Signature : Type := mkSignature {
  sig_r : option SerializableBigInt;
  sig_R : option SerializableBigInt;
  sig_s : option SerializableBigInt;
  sig_S : option SerializableBigInt
}.

Record Party : Type := mkParty {
  partyId : string;
  publicKey : SerializableBigInt;
  partyIndex : Z;
  protocolIndex : option Z
}.

(** [phase] is the constant ['keygen'], respectively ['signing']. *)
Record KeyGenSession : Type := mkKeyGenSession {
  threshold : Z;
  totalParties : Z
}.

Record SigningSession : Type := mkSigningSession {
  message : list Z;
  signingParties : list string
}.

Record PartyRegistrationResponse : Type := mkPartyRegistrationResponse {
  reg_partyIndex : Z;
  reg_totalParties : nat
}.

Record AggregateKeyResult : Type := mkAggregateKeyResult {
  agg_aggregatePublicKey : PublicKey;
  agg_sharedKeys : list SharedKey
}.

Record SharedKeysResponse : Type := mkSharedKeysResponse {
  skr_aggregatePublicKey : SerializableBigInt;
  skr_aggregatePublicKeyHex : string;
  skr_sharedKeys : list SharedKey
}.

Record SigningResponse : Type := mkSigningResponse {
  sr_message : list Z;
  sr_signingParties : list Z
}.

Record SignaturePair : Type := mkSignaturePair {
  pair_r : SerializableBigInt;
  pair_s : SerializableBigInt
}.

Record SignatureResult : Type := mkSignatureResult {
  res_signature : SignaturePair;
  res_signatureHex : string;
  res_aggregatePublicKey : SerializableBigInt;
  res_aggregatePublicKeyHex : string;
  isValid : bool
}.

Record RegistrationResult : Type := mkRegistrationResult {
  rr_partyId : string;
  rr_publicKey : SerializableBigInt;
  rr_publicKeyHex : string
}.

Record KeyGenResult : Type := mkKeyGenResult {
  kg_keyId : string;
  kg_publicKey : PublicKey
}.

Record EphemeralKeyResult : Type := mkEphemeralKeyResult {
  ephKeyId : string;
  ephR : SerializableBigInt
}.

(** ** The stateless client ([client/mpc_client.ts]) *)

Section MPCClient.

(** A VSS scheme is an open-ended object that this code only hands on; the
    value [vssSum] returned by the native verification is typed [any]. *)
Variables VSSScheme VssSum : Type.

(** The native module keeps the keys it creates in a store of its own,
    addressed by the identifiers it returns. *)
Variable KeyStore : Type.

(** [thresholdSig.*] of [multi-party-eddsa-node]. *)
Variable thresholdSig_phase1Create : Z -> KeyStore -> Result (string * KeyStore).
Variable thresholdSig_getPublicKey : string -> KeyStore -> Result PublicKey.
Variable thresholdSig_ephemeralKeyCreate :
  string -> list Z -> Z -> KeyStore -> Result (string * KeyStore).
Variable thresholdSig_getEphemeralR : string -> KeyStore -> Result SerializableBigInt.
Variable thresholdSig_verifyLocalSigs :
  list LocalSignature -> list Z -> list VSSScheme -> list VSSScheme -> Result VssSum.
Variable thresholdSig_generateSignature :
  VssSum -> list LocalSignature -> list Z -> SerializableBigInt -> Result Signature.
Variable thresholdSig_verifySignature :
  SignaturePair -> list Z -> PublicKey -> Result bool.

(** [bytes: Array.isArray(x.bytes) ? x.bytes : Array.from(x.bytes)]. *)
Definition rustBytes (x : SerializableBigInt) : SerializableBigInt :=
  mkBytes (ArrayBytes (if isArray (bytes x) then Array_from (bytes x)
                       else Array_from (bytes x))).

Definition MPCClient_createPubKey (partyIndex : Z) : Method KeyStore KeyGenResult :=
  fun store =>
    match thresholdSig_phase1Create partyIndex store with
    | Fail e => Thrown e store
    | Ok (keyId, store') =>
        match thresholdSig_getPublicKey keyId store' with
        | Fail e => Thrown e store'
        | Ok publicKey => Returned (mkKeyGenResult keyId publicKey) store'
        end
    end.

Definition MPCClient_aggregateKey (sharedKeys : list SharedKey) : Result AggregateKeyResult :=
  match sharedKeys with
  | [] => Fail (mkError ValidationError NoSharedKeysProvided)
  | first :: _ => Ok (mkAggregateKeyResult (y first) sharedKeys)
  end.

(** The message has already been turned into an array by the caller. *)
Definition MPCClient_createEphemeralKey (keyId : string) (messageArray : list Z)
    (partyIndex : Z) : Method KeyStore EphemeralKeyResult :=
  fun store =>
    match thresholdSig_ephemeralKeyCreate keyId messageArray partyIndex store with
    | Fail e => Thrown e store
    | Ok (ephKeyId, store') =>
        match thresholdSig_getEphemeralR ephKeyId store' with
        | Fail e => Thrown e store'
        | Ok ephR => Returned (mkEphemeralKeyResult ephKeyId ephR) store'
        end
    end.

Definition localSigRust (sig : LocalSignature) : LocalSignature :=
  mkLocalSignature (rustBytes (gammaI sig)) (rustBytes (k sig)).

Definition MPCClient_verifyLocalSignatures (localSigs : list LocalSignature)
    (signingParties : list Z) (keyGenVssSchemes ephVssSchemes : list VSSScheme)
    : Result VssSum :=
  thresholdSig_verifyLocalSigs (map localSigRust localSigs) signingParties
    keyGenVssSchemes ephVssSchemes.

Definition MPCClient_aggregateSignature (vssSum : VssSum)
    (localSigs : list LocalSignature) (signingParties : list Z)
    (aggregateR : SerializableBigInt) : Result Signature :=
  thresholdSig_generateSignature vssSum (map localSigRust localSigs) signingParties
    (rustBytes aggregateR).

(** [signature.r.bytes] and [signature.s.bytes] are read without a
    fallback to [R] and [S]: a missing field is a [TypeError]. *)
Definition MPCClient_verifySignature (signature : Signature) (messageArray : list Z)
    (aggregatePublicKey : PublicKey) : Result bool :=
  match sig_r signature, sig_s signature with
  | Some r, Some s =>
      thresholdSig_verifySignature (mkSignaturePair (rustBytes r) (rustBytes s))
        messageArray (rustBytes aggregatePublicKey)
  | _, _ => Fail (mkError TypeError UndefinedProperty)
  end.

End MPCClient.

(** ** The coordinator ([services/coordinator_service.ts]) *)

Record PartySharedKey : Type := mkPartySharedKey {
  psk_partyId : string;
  psk_sharedKey : SharedKey
}.

Record PartyLocalSig : Type := mkPartyLocalSig {
  pls_partyId : string;
  pls_localSig : LocalSignature
}.

(** [a || b] on two possibly missing objects. *)
Definition orElse {A} (a b : option A) : option A :=
  match a with Some _ => a | None => b end.

Section CoordinatorService.

Variables VSSScheme VssSum : Type.

(** [String.prototype.localeCompare]: negative, zero or positive. *)
Variable localeCompare : string -> string -> Z.

(** [crypto.createHash("sha256").update(s).digest().readUInt16BE(0)]. *)
Variable sha256_readUInt16BE : string -> Z.

Variable thresholdSig_verifyLocalSigs :
  list LocalSignature -> list Z -> list VSSScheme -> list VSSScheme -> Result VssSum.
Variable thresholdSig_generateSignature :
  VssSum -> list LocalSignature -> list Z -> SerializableBigInt -> Result Signature.
Variable thresholdSig_verifySignature :
  SignaturePair -> list Z -> PublicKey -> Result bool.

(** The private fields of the class. A field declared with [?] starts
    [undefined]. *)
Record Coordinator : Type := mkCoordinator {
  session : option KeyGenSession;
  parties : list Party;
  commitments : list SerializableBigInt;
  blindFactors : list SerializableBigInt;
  allVssSchemes : list VSSScheme;
  allSecretShares : list (list SerializableBigInt);
  sharedKeys : list SharedKey;
  signingSession : option SigningSession;
  signingPartyIndices : option (list Z);
  ephRPoints : option (list SerializableBigInt);
  ephCommitments : option (list SerializableBigInt);
  ephBlindFactors : option (list SerializableBigInt);
  allEphVssSchemes : option (list VSSScheme);
  allEphSecretShares : option (list (list SerializableBigInt));
  ephSharedKeys : option (list EphemeralSharedKey);
  aggregatePublicKey : option PublicKey
}.

(** [new CoordinatorService()]. *)
Definition newCoordinator : Coordinator :=
  mkCoordinator None [] [] [] [] [] [] None None None None None None None None None.

(** The seven assignments at the start of a key generation. *)
Definition resetForKeyGeneration (s : KeyGenSession) (c : Coordinator) : Coordinator :=
  mkCoordinator (Some s) [] [] [] [] [] []
    (signingSession c) (signingPartyIndices c) (ephRPoints c) (ephCommitments c)
    (ephBlindFactors c) (allEphVssSchemes c) (allEphSecretShares c)
    (ephSharedKeys c) (aggregatePublicKey c).

Definition set_parties (f : list Party -> list Party) (c : Coordinator) : Coordinator :=
  mkCoordinator (session c) (f (parties c)) (commitments c) (blindFactors c)
    (allVssSchemes c) (allSecretShares c) (sharedKeys c)
    (signingSession c) (signingPartyIndices c) (ephRPoints c) (ephCommitments c)
    (ephBlindFactors c) (allEphVssSchemes c) (allEphSecretShares c)
    (ephSharedKeys c) (aggregatePublicKey c).

Definition set_sharedKeys (v : list SharedKey) (c : Coordinator) : Coordinator :=
  mkCoordinator (session c) (parties c) (commitments c) (blindFactors c)
    (allVssSchemes c) (allSecretShares c) v
    (signingSession c) (signingPartyIndices c) (ephRPoints c) (ephCommitments c)
    (ephBlindFactors c) (allEphVssSchemes c) (allEphSecretShares c)
    (ephSharedKeys c) (aggregatePublicKey c).

Definition set_signingSession (v : SigningSession) (c : Coordinator) : Coordinator :=
  mkCoordinator (session c) (parties c) (commitments c) (blindFactors c)
    (allVssSchemes c) (allSecretShares c) (sharedKeys c)
    (Some v) (signingPartyIndices c) (ephRPoints c) (ephCommitments c)
    (ephBlindFactors c) (allEphVssSchemes c) (allEphSecretShares c)
    (ephSharedKeys c) (aggregatePublicKey c).

Definition set_signingPartyIndices (v : list Z) (c : Coordinator) : Coordinator :=
  mkCoordinator (session c) (parties c) (commitments c) (blindFactors c)
    (allVssSchemes c) (allSecretShares c) (sharedKeys c)
    (signingSession c) (Some v) (ephRPoints c) (ephCommitments c)
    (ephBlindFactors c) (allEphVssSchemes c) (allEphSecretShares c)
    (ephSharedKeys c) (aggregatePublicKey c).

Definition set_ephSharedKeys (v : list EphemeralSharedKey) (c : Coordinator) : Coordinator :=
  mkCoordinator (session c) (parties c) (commitments c) (blindFactors c)
    (allVssSchemes c) (allSecretShares c) (sharedKeys c)
    (signingSession c) (signingPartyIndices c) (ephRPoints c) (ephCommitments c)
    (ephBlindFactors c) (allEphVssSchemes c) (allEphSecretShares c)
    (Some v) (aggregatePublicKey c).

Definition set_aggregatePublicKey (v : PublicKey) (c : Coordinator) : Coordinator :=
  mkCoordinator (session c) (parties c) (commitments c) (blindFactors c)
    (allVssSchemes c) (allSecretShares c) (sharedKeys c)
    (signingSession c) (signingPartyIndices c) (ephRPoints c) (ephCommitments c)
    (ephBlindFactors c) (allEphVssSchemes c) (allEphSecretShares c)
    (ephSharedKeys c) (Some v).

Definition startKeyGeneration (threshold totalParties : Z)
    : Method Coordinator KeyGenSession :=
  (call (validateThreshold threshold (Some totalParties)) ;;;
   let s := mkKeyGenSession threshold totalParties in
   assign (resetForKeyGeneration s) ;;;
   ret s)%method.

Definition getPartyIndexFromId (partyId : string) : Z := sha256_readUInt16BE partyId.

(** [(a, b) => a.partyId.localeCompare(b.partyId)]. *)
Definition byPartyId {A} (id : A -> string) (a b : A) : Z := localeCompare (id a) (id b).

Definition withProtocolIndex (idx : Z) (p : Party) : Party :=
  mkParty (partyId p) (publicKey p) (partyIndex p) (Some idx).

(** [forEach((p, idx) => { p.protocolIndex = idx; })], counting from [idx]. *)
Fixpoint assignProtocolIndex (idx : Z) (ps : list Party) : list Party :=
  match ps with
  | [] => []
  | p :: rest => withProtocolIndex idx p :: assignProtocolIndex (idx + 1) rest
  end.

(** [parties.find((p) => p.partyId === pid)]. *)
Definition findParty (pid : string) (ps : list Party) : option Party :=
  find (fun p => String.eqb (partyId p) pid) ps.

Definition compareParties : Party -> Party -> Z := byPartyId partyId.

Definition registerParty (partyId : string) (publicKey : SerializableBigInt)
    : Method Coordinator PartyRegistrationResponse :=
  (c <- this ;;
   match session c with
   | None => throw SessionError SessionNotInitialized
   | Some _ =>
       let normalizedPublicKey := normalizeBytesToBuffer publicKey in
       let partyIndex := getPartyIndexFromId partyId in
       assign (set_parties (fun ps =>
         ps ++ [mkParty partyId normalizedPublicKey partyIndex None])) ;;;
       assign (set_parties (Array_sort compareParties)) ;;;
       assign (set_parties (assignProtocolIndex 0)) ;;;
       c' <- this ;;
       match findParty partyId (parties c') with
       | Some party =>
           match protocolIndex party with
           | Some idx =>
               ret (mkPartyRegistrationResponse idx (List.length (parties c')))
           | None => throw PartyError (PartyNotFound partyId)
           end
       | None => throw PartyError (PartyNotFound partyId)
       end
   end)%method.

Definition normalizeSharedKey (sk : SharedKey) : SharedKey :=
  mkSharedKey (normalizeBytesToBuffer (y sk)) (normalizeBytesToBuffer (xI sk))
    (option_map normalizeBytesToBuffer (prefix sk)).

Definition serializeSharedKey (sk : SharedKey) : SharedKey :=
  mkSharedKey (serializeForHttp (y sk)) (serializeForHttp (xI sk))
    (option_map serializeForHttp (prefix sk)).

Definition collectSharedKeys (partySharedKeys : list PartySharedKey)
    : Method Coordinator SharedKeysResponse :=
  (assign (set_sharedKeys []) ;;;
   let sorted := Array_sort (byPartyId psk_partyId) partySharedKeys in
   assign (set_sharedKeys (map (fun sk => normalizeSharedKey (psk_sharedKey sk)) sorted)) ;;;
   c <- this ;;
   agg <- call (MPCClient_aggregateKey (sharedKeys c)) ;;
   let aggregatePublicKey := agg_aggregatePublicKey agg in
   let aggregatePublicKeyHex := toHex (bytes aggregatePublicKey) in
   assign (set_aggregatePublicKey aggregatePublicKey) ;;;
   ret (mkSharedKeysResponse (serializeForHttp aggregatePublicKey)
          aggregatePublicKeyHex (map serializeSharedKey (sharedKeys c))))%method.

(** The callback of the [map] in [startSigning]. *)
Definition protocolIndexOf (ps : list Party) (pid : string) : Result Z :=
  match findParty pid ps with
  | Some party =>
      match protocolIndex party with
      | Some idx => Ok idx
      | None => Fail (mkError PlainError (PartyNotFound pid))
      end
  | None => Fail (mkError PlainError (PartyNotFound pid))
  end.

(** [signingParties.sort()] sorts the caller's array in place, so the
    [map] that follows runs over the sorted identifiers. *)
Definition startSigning (message : Message) (signingParties : list string)
    : Method Coordinator SigningResponse :=
  (c <- this ;;
   match session c with
   | None => throw StateError KeyGenerationNotCompleted
   | Some s =>
       (if Z.of_nat (List.length signingParties) <? threshold s then
          call (validateSigningParties (Z.of_nat (List.length signingParties))
                  (threshold s) (Some (totalParties s)))
        else ret tt) ;;;
       let messageBuffer := normalizeMessage message in
       let sortedIds := defaultSortStrings signingParties in
       assign (set_signingSession (mkSigningSession messageBuffer sortedIds)) ;;;
       indices <- call (mapResult (protocolIndexOf (parties c)) sortedIds) ;;
       let signingPartyIndices := defaultSortNumbers indices in
       assign (set_signingPartyIndices signingPartyIndices) ;;;
       ret (mkSigningResponse messageBuffer signingPartyIndices)
   end)%method.

(** The block that rewrites the [bytes] of the first ephemeral key's
    aggregate nonce as an array, on the object [r || R] refers to. *)
Definition normalizeAggregateR (key : EphemeralSharedKey) : EphemeralSharedKey :=
  match eph_r key, eph_R key with
  | Some r, _ =>
      mkEphemeralSharedKey (Some (mkBytes (ArrayBytes (Array_from (bytes r)))))
        (eph_R key) (rI key)
  | None, Some R =>
      mkEphemeralSharedKey None (Some (mkBytes (ArrayBytes (Array_from (bytes R)))))
        (rI key)
  | None, None => key
  end.

Definition normalizeFirstAggregateR (keys : list EphemeralSharedKey)
    : list EphemeralSharedKey :=
  match keys with
  | [] => []
  | firstKey :: rest => normalizeAggregateR firstKey :: rest
  end.

(** [allVssSchemes] is always an array, so its test in the guard for the
    required state never fails; the elements of [ephSharedKeys] are
    objects. *)
Definition collectLocalSignatures (partyLocalSigs : list PartyLocalSig)
    : Method Coordinator SignatureResult :=
  (let sorted := Array_sort (byPartyId pls_partyId) partyLocalSigs in
   let localSigs := map (fun sig =>
       mkLocalSignature (normalizeBytesForRust (gammaI (pls_localSig sig)))
                        (normalizeBytesForRust (k (pls_localSig sig)))) sorted in
   c <- this ;;
   match signingPartyIndices c, signingSession c, allEphVssSchemes c,
         ephSharedKeys c, aggregatePublicKey c with
   | Some indices, Some signing, Some ephVssSchemes, Some ephKeys, Some aggregateKey =>
       assign (set_ephSharedKeys (normalizeFirstAggregateR ephKeys)) ;;;
       vssSum <- call (MPCClient_verifyLocalSignatures VSSScheme VssSum
                         thresholdSig_verifyLocalSigs
                         localSigs indices (allVssSchemes c) ephVssSchemes) ;;
       match normalizeFirstAggregateR ephKeys with
       | [] => throw StateError NoEphemeralSharedKeys
       | firstEphKey :: _ =>
           match orElse (eph_r firstEphKey) (eph_R firstEphKey) with
           | None => throw StateError AggregateRNotFound
           | Some aggregateR =>
               signature <- call (MPCClient_aggregateSignature VssSum
                                    thresholdSig_generateSignature
                                    vssSum localSigs indices aggregateR) ;;
               let messageArray := messageToArray (MsgBuffer (message signing)) in
               let aggregatePublicKeyArray :=
                 mkBytes (ArrayBytes (if isArray (bytes aggregateKey)
                                      then Array_from (bytes aggregateKey)
                                      else Array_from (bytes aggregateKey))) in
               valid <- call (MPCClient_verifySignature thresholdSig_verifySignature
                                signature messageArray aggregatePublicKeyArray) ;;
               match orElse (sig_r signature) (sig_R signature),
                     orElse (sig_s signature) (sig_S signature) with
               | Some sigR, Some sigS =>
                   ret (mkSignatureResult
                          (mkSignaturePair (serializeForHttp sigR) (serializeForHttp sigS))
                          (String.append (toHex (bytes sigR)) (toHex (bytes sigS)))
                          (serializeForHttp aggregateKey)
                          (toHex (bytes aggregateKey))
                          valid)
               | _, _ => throw TypeError UndefinedProperty
               end
           end
       end
   | _, _, _, _, _ => throw StateError RequiredStateNotInitialized
   end)%method.

(** The party list a registration leaves behind: the three assignments to
    [this.parties] in [registerParty]. *)
Definition registrationStep (pid : string) (pk : SerializableBigInt)
    (ps : list Party) : list Party :=
  assignProtocolIndex 0
    (Array_sort compareParties
       (ps ++ [mkParty pid (normalizeBytesToBuffer pk) (getPartyIndexFromId pid) None])).

(** A run of registrations, in their order of arrival. *)
Fixpoint registerAll (registrations : list (string * SerializableBigInt))
    : Method Coordinator unit :=
  match registrations with
  | [] => ret tt
  | (pid, pk) :: rest => (registerParty pid pk ;;; registerAll rest)%method
  end.

(** The protocol index the coordinator holds for a party identifier. *)
Definition assignedIndex (c : Coordinator) (pid : string) : option Z :=
  match findParty pid (parties c) with
  | Some party => protocolIndex party
  | None => None
  end.

(** The rank of an identifier among [ids]: how many of them sort strictly
    before it. *)
Definition rank (pid : string) (ids : list string) : Z :=
  Z.of_nat (List.length (filter (fun x => localeCompare x pid <? 0) ids)).

(** Every party of the list carries a protocol index. *)
Definition allIndexed (ps : list Party) : Prop :=
  Forall (fun p => protocolIndex p <> None) ps.

Definition registered (c : Coordinator) (pid : string) : Prop :=
  In pid (map partyId (parties c)).

End CoordinatorService.

Arguments session {VSSScheme} c.
Arguments parties {VSSScheme} c.
Arguments commitments {VSSScheme} c.
Arguments blindFactors {VSSScheme} c.
Arguments allVssSchemes {VSSScheme} c.
Arguments allSecretShares {VSSScheme} c.
Arguments sharedKeys {VSSScheme} c.
Arguments signingSession {VSSScheme} c.
Arguments signingPartyIndices {VSSScheme} c.
Arguments ephRPoints {VSSScheme} c.
Arguments ephCommitments {VSSScheme} c.
Arguments ephBlindFactors {VSSScheme} c.
Arguments allEphVssSchemes {VSSScheme} c.
Arguments allEphSecretShares {VSSScheme} c.
Arguments ephSharedKeys {VSSScheme} c.
Arguments aggregatePublicKey {VSSScheme} c.
Arguments mkCoordinator {VSSScheme}.
Arguments resetForKeyGeneration {VSSScheme} s c.
Arguments set_parties {VSSScheme} f c.
Arguments set_sharedKeys {VSSScheme} v c.
Arguments set_signingSession {VSSScheme} v c.
Arguments set_signingPartyIndices {VSSScheme} v c.
Arguments set_ephSharedKeys {VSSScheme} v c.
Arguments set_aggregatePublicKey {VSSScheme} v c.
Arguments startKeyGeneration {VSSScheme} threshold totalParties _.
Arguments registerParty {VSSScheme} localeCompare sha256_readUInt16BE partyId publicKey _.
Arguments registerAll {VSSScheme} localeCompare sha256_readUInt16BE registrations _.
Arguments collectSharedKeys {VSSScheme} localeCompare partySharedKeys _.
Arguments startSigning {VSSScheme} message signingParties _.
Arguments collectLocalSignatures {VSSScheme VssSum} localeCompare
  thresholdSig_verifyLocalSigs thresholdSig_generateSignature
  thresholdSig_verifySignature partyLocalSigs _.
Arguments assignedIndex {VSSScheme} c pid.
Arguments registered {VSSScheme} c pid.

(** ** The party agent ([services/mpc_service.ts]) *)

(** [!this.keyId]: the field is [null] or the empty string. *)
Definition missingKeyId (keyId : option string) : bool :=
  match keyId with
  | Some (String _ _) => false
  | _ => true
  end.

Definition keyIdText (keyId : option string) : string :=
  match keyId with Some s => s | None => EmptyString end.

Section MPCService.

Variable KeyStore : Type.
Variable sha256_readUInt16BE : string -> Z.
Variable thresholdSig_phase1Create : Z -> KeyStore -> Result (string * KeyStore).
Variable thresholdSig_getPublicKey : string -> KeyStore -> Result PublicKey.
Variable thresholdSig_ephemeralKeyCreate :
  string -> list Z -> Z -> KeyStore -> Result (string * KeyStore).
Variable thresholdSig_getEphemeralR : string -> KeyStore -> Result SerializableBigInt.

Record MPCService : Type := mkMPCService {
  svc_partyId : string;
  keyId : option string;
  sharedKey : option SharedKey
}.

(** [new MPCService(partyId)]. *)
Definition newMPCService (partyId : string) : MPCService :=
  mkMPCService partyId None None.

Definition set_keyId (v : string) (svc : MPCService) : MPCService :=
  mkMPCService (svc_partyId svc) (Some v) (sharedKey svc).

(** A method of the service acts on its own fields and, through
    [MPCClient], on the store of the native module. *)
Definition Agent : Type := (MPCService * KeyStore)%type.

Definition onStore {A} (m : Method KeyStore A) : Method Agent A :=
  fun a =>
    match m (snd a) with
    | Returned r store' => Returned r (fst a, store')
    | Thrown e store' => Thrown e (fst a, store')
    end.

Definition onService (f : MPCService -> MPCService) : Method Agent unit :=
  assign (fun a => (f (fst a), snd a)).

Definition getPartyIndex (svc : MPCService) : Z :=
  sha256_readUInt16BE (svc_partyId svc).

Definition MPCService_initialize : Method Agent RegistrationResult :=
  (a <- this ;;
   created <- onStore (MPCClient_createPubKey KeyStore thresholdSig_phase1Create
                         thresholdSig_getPublicKey (getPartyIndex (fst a))) ;;
   onService (set_keyId (kg_keyId created)) ;;;
   ret (mkRegistrationResult (svc_partyId (fst a))
          (serializeForHttp (kg_publicKey created))
          (toHex (bytes (kg_publicKey created)))))%method.

Definition MPCService_register : Method Agent RegistrationResult :=
  MPCService_initialize.

Definition MPCService_createEphemeralKey (message : Message) (partyIndex : Z)
    : Method Agent EphemeralKeyResult :=
  (a <- this ;;
   if missingKeyId (keyId (fst a)) then throw ServiceError ServiceNotInitialized
   else
     let messageNormalized := normalizeMessage message in
     let messageArray := Array_from (BufferBytes messageNormalized) in
     ephData <- onStore (MPCClient_createEphemeralKey KeyStore
                           thresholdSig_ephemeralKeyCreate thresholdSig_getEphemeralR
                           (keyIdText (keyId (fst a))) messageArray partyIndex) ;;
     ret (mkEphemeralKeyResult (ephKeyId ephData) (ephR ephData)))%method.

End MPCService.

Arguments MPCService_initialize {KeyStore} sha256_readUInt16BE
  thresholdSig_phase1Create thresholdSig_getPublicKey _.
Arguments MPCService_register {KeyStore} sha256_readUInt16BE
  thresholdSig_phase1Create thresholdSig_getPublicKey _.
Arguments MPCService_createEphemeralKey {KeyStore} thresholdSig_ephemeralKeyCreate
  thresholdSig_getEphemeralR message partyIndex _.
Arguments MPCClient_createPubKey {KeyStore} thresholdSig_phase1Create
  thresholdSig_getPublicKey partyIndex _.
Arguments MPCClient_createEphemeralKey {KeyStore} thresholdSig_ephemeralKeyCreate
  thresholdSig_getEphemeralR keyId messageArray partyIndex _.
Arguments MPCClient_verifyLocalSignatures {VSSScheme VssSum}.
Arguments MPCClient_aggregateSignature {VssSum}.

(** ** Further helpers of [utils/serialization.ts] *)

Definition normalize2DArrayForRust (arr : list (list SerializableBigInt))
    : list (list SerializableBigInt) :=
  map (fun row => map normalizeBytesForRust row) arr.

Definition serialize2DArrayForHttp (arr : list (list SerializableBigInt))
    : list (list SerializableBigInt) :=
  map (fun row => map serializeForHttp row) arr.

(** Returns [{ r, rI }]: the native spelling of the aggregate nonce, taken
    from [r || R]. The guard of [normalizeBytesForRust] hands a missing
    nonce back as it is. *)
Definition normalizeEphSharedKey (ephSharedKey : EphemeralSharedKey) : EphemeralSharedKey :=
  mkEphemeralSharedKey
    (option_map normalizeBytesForRust (orElse (eph_r ephSharedKey) (eph_R ephSharedKey)))
    None
    (normalizeBytesForRust (rI ephSharedKey)).

(** Returns [{ R, rI }]: the HTTP spelling. *)
Definition serializeEphSharedKey (ephSharedKey : EphemeralSharedKey) : EphemeralSharedKey :=
  mkEphemeralSharedKey
    None
    (option_map serializeForHttp (orElse (eph_r ephSharedKey) (eph_R ephSharedKey)))
    (serializeForHttp (rI ephSharedKey)).

(** [a[i]] for a number [i]: [undefined] outside the array. *)
Definition arrayAt {A} (a : list A) (i : Z) : option A :=
  if i <? 0 then None else nth_error a (Z.to_nat i).

(** An error whose message is given by its text. *)
Definition messageText (text : string) : ErrorMessage := NativeMessage text.

Definition undefinedProperty : MPCError := mkError TypeError UndefinedProperty.

(** ** VSS schemes ([types/index.ts])

    [VSSScheme] is an open-ended object. The code reads and writes the two
    spellings of the share count and the commitments; of any other field
    it only asks whether its value is an object with [bytes]. *)

Section VssSchemes.

Variable Opaque : Type.

Inductive VssField : Type :=
| BytesField (b : SerializableBigInt)
| OpaqueField (o : Opaque).

Record VssObject : Type := mkVssObject {
  share_count : option Z;
  shareCount : option Z;
  vss_commitments : option (list SerializableBigInt);
  vss_fields : list (string * VssField)
}.

(** [if (vss.share_count !== undefined && vss.shareCount === undefined)
    vss.shareCount = vss.share_count]. *)
Definition normalizeShareCount (vss : VssObject) : VssObject :=
  match share_count vss, shareCount vss with
  | Some n, None => mkVssObject (Some n) (Some n) (vss_commitments vss) (vss_fields vss)
  | _, _ => vss
  end.

Definition serializeField (v : VssField) : VssField :=
  match v with
  | BytesField b => BytesField (serializeForHttp b)
  | OpaqueField o => OpaqueField o
  end.

(** The loop over the keys skips the share counts, which are numbers, and
    the commitments, an array without [bytes]. *)
Definition serializeVss (vss : VssObject) : VssObject :=
  mkVssObject (share_count vss) (shareCount vss)
    (option_map (map serializeForHttp) (vss_commitments vss))
    (map (fun kv => (fst kv, serializeField (snd kv))) (vss_fields vss)).

End VssSchemes.

Arguments BytesField {Opaque} b.
Arguments OpaqueField {Opaque} o.
Arguments mkVssObject {Opaque}.
Arguments share_count {Opaque} v.
Arguments shareCount {Opaque} v.
Arguments vss_commitments {Opaque} v.
Arguments vss_fields {Opaque} v.
Arguments normalizeShareCount {Opaque} vss.
Arguments serializeField {Opaque} v.
Arguments serializeVss {Opaque} vss.

(** ** The rounds of the stateless client ([client/mpc_client.ts]) *)

Record CommitmentResult : Type := mkCommitmentResult {
  commitment : SerializableBigInt;
  blindFactor : SerializableBigInt
}.

(** What the native broadcast returns. *)
Record Broadcast : Type := mkBroadcast {
  bc_commitment : SerializableBigInt;
  blind_factor : SerializableBigInt
}.

Definition adjustThresholdForRust (userThreshold : Z) : Result Z :=
  if userThreshold <? 2 then
    Fail (mkError ValidationError (ThresholdTooSmall userThreshold))
  else Ok (userThreshold - 1).

(** [Array.from({ length: shareCount }, (_, i) => i + 1)]. *)
Definition oneIndexedParties (shareCount : Z) : list Z :=
  map (fun i => Z.of_nat i + 1) (seq 0 (Z.to_nat shareCount)).

(** The loop [for (j = 0; j < count; j++) shares.push(all[j][partyIndex])]:
    a missing row is a [TypeError], a missing entry is pushed as
    [undefined]. *)
Definition sharesForParty (all : list (list SerializableBigInt)) (partyIndex : Z)
    (count : nat) : Result (list (option SerializableBigInt)) :=
  mapResult (fun j =>
      match nth_error all j with
      | None => Fail undefinedProperty
      | Some row => Ok (arrayAt row partyIndex)
      end)
    (seq 0 count).

(** [shares.map((share) => ({ bytes: ... share.bytes ... }))]. *)
Definition sharesToRust (shares : list (option SerializableBigInt))
    : Result (list SerializableBigInt) :=
  mapResult (fun share =>
      match share with
      | None => Fail undefinedProperty
      | Some s => Ok (rustBytes s)
      end)
    shares.

Section MPCClientRounds.

Variable Opaque : Type.
Variable KeyStore : Type.

Record DistributeResult : Type := mkDistributeResult {
  vss : VssObject Opaque;
  secret_shares : list SerializableBigInt
}.

Record ShareDistributionResult : Type := mkShareDistributionResult {
  sd_vss : VssObject Opaque;
  secretShares : list SerializableBigInt
}.

Variable thresholdSig_phase1Broadcast : string -> KeyStore -> Result (Broadcast * KeyStore).
Variable thresholdSig_phase1VerifyComPhase2Distribute :
  string -> Z -> Z -> list SerializableBigInt -> list SerializableBigInt ->
  list SerializableBigInt -> list Z -> KeyStore -> Result (DistributeResult * KeyStore).
Variable thresholdSig_phase2VerifyVssConstructKeypair :
  string -> Z -> Z -> list SerializableBigInt -> list SerializableBigInt ->
  list (VssObject Opaque) -> Z -> KeyStore -> Result (SharedKey * KeyStore).
Variable thresholdSig_ephemeralPhase1Broadcast :
  string -> KeyStore -> Result (Broadcast * KeyStore).
Variable thresholdSig_ephemeralPhase1VerifyComPhase2Distribute :
  string -> Z -> Z -> list SerializableBigInt -> list SerializableBigInt ->
  list SerializableBigInt -> list Z -> KeyStore -> Result (DistributeResult * KeyStore).
Variable thresholdSig_ephemeralPhase2VerifyVssConstructKeypair :
  string -> Z -> Z -> list SerializableBigInt -> list SerializableBigInt ->
  list (VssObject Opaque) -> Z -> KeyStore -> Result (EphemeralSharedKey * KeyStore).
Variable thresholdSig_computeLocalSig :
  list Z -> EphemeralSharedKey -> SharedKey -> Result LocalSignature.

(** A native call on the store, after which [k] shapes the result. *)
Definition nativeCall {A B} (r : KeyStore -> Result (A * KeyStore)) (k : A -> B)
    : Method KeyStore B :=
  fun store =>
    match r store with
    | Fail e => Thrown e store
    | Ok (a, store') => Returned (k a) store'
    end.

Definition MPCClient_generateCommitment (keyId : string)
    : Method KeyStore CommitmentResult :=
  nativeCall (thresholdSig_phase1Broadcast keyId)
    (fun broadcast => mkCommitmentResult (bc_commitment broadcast) (blind_factor broadcast)).

Definition MPCClient_distributeShares (keyId : string) (threshold shareCount : Z)
    (blindFactors publicKeys commitments : list SerializableBigInt) (_partyIndex : Z)
    : Method KeyStore ShareDistributionResult :=
  (rustThreshold <- call (adjustThresholdForRust threshold) ;;
   let parties := oneIndexedParties shareCount in
   nativeCall
     (thresholdSig_phase1VerifyComPhase2Distribute keyId rustThreshold shareCount
        (map rustBytes blindFactors) (map rustBytes publicKeys)
        (map rustBytes commitments) parties)
     (fun result =>
        mkShareDistributionResult (normalizeShareCount (vss result))
          (secret_shares result)))%method.

Definition MPCClient_constructKeypair (keyId : string) (threshold shareCount : Z)
    (publicKeys : list SerializableBigInt)
    (allSecretShares : list (list SerializableBigInt))
    (allVssSchemes : list (VssObject Opaque)) (partyIndex : Z)
    : Method KeyStore SharedKey :=
  (rustThreshold <- call (adjustThresholdForRust threshold) ;;
   partySecretShares <-
     call (sharesForParty allSecretShares partyIndex (Z.to_nat shareCount)) ;;
   let vssPartyIndex := partyIndex + 1 in
   partySecretSharesArray <- call (sharesToRust partySecretShares) ;;
   nativeCall
     (thresholdSig_phase2VerifyVssConstructKeypair keyId rustThreshold shareCount
        (map rustBytes publicKeys) partySecretSharesArray allVssSchemes vssPartyIndex)
     (fun sharedKey => sharedKey))%method.

Definition MPCClient_generateEphemeralCommitment (ephKeyId : string)
    : Method KeyStore CommitmentResult :=
  nativeCall (thresholdSig_ephemeralPhase1Broadcast ephKeyId)
    (fun broadcast => mkCommitmentResult (bc_commitment broadcast) (blind_factor broadcast)).

Definition MPCClient_distributeEphemeralShares (ephKeyId : string)
    (threshold shareCount : Z)
    (ephBlindFactors ephRPoints ephCommitments : list SerializableBigInt)
    (signingParties : list Z) : Method KeyStore ShareDistributionResult :=
  (rustThreshold <- call (adjustThresholdForRust threshold) ;;
   let signingPartiesVSS := map (fun p => p + 1) signingParties in
   nativeCall
     (thresholdSig_ephemeralPhase1VerifyComPhase2Distribute ephKeyId rustThreshold
        shareCount (map rustBytes ephBlindFactors) (map rustBytes ephRPoints)
        (map rustBytes ephCommitments) signingPartiesVSS)
     (fun ephResult =>
        mkShareDistributionResult (normalizeShareCount (vss ephResult))
          (secret_shares ephResult)))%method.

(** [signingParties.indexOf(partyIndex) === -1]. The position found is not
    used further: the shares are read at [partyIndex]. *)
Definition MPCClient_constructEphemeralKeypair (ephKeyId : string)
    (threshold shareCount : Z) (ephRPoints : list SerializableBigInt)
    (allEphSecretShares : list (list SerializableBigInt))
    (allEphVssSchemes : list (VssObject Opaque)) (partyIndex : Z)
    (signingParties : list Z) : Method KeyStore EphemeralSharedKey :=
  (rustThreshold <- call (adjustThresholdForRust threshold) ;;
   if negb (existsb (Z.eqb partyIndex) signingParties) then
     throw ValidationError
       (messageText (String.append "Party "
                       (String.append (numberToString partyIndex)
                          " is not in the signing parties list")))
   else
     partyEphSecretShares <-
       call (sharesForParty allEphSecretShares partyIndex (List.length signingParties)) ;;
     let vssPartyIndex := partyIndex + 1 in
     partyEphSecretSharesArray <- call (sharesToRust partyEphSecretShares) ;;
     nativeCall
       (thresholdSig_ephemeralPhase2VerifyVssConstructKeypair ephKeyId rustThreshold
          shareCount (map rustBytes ephRPoints) partyEphSecretSharesArray
          allEphVssSchemes vssPartyIndex)
       (fun ephSharedKey => ephSharedKey))%method.

(** [ephSharedKey.r.bytes] is read without a fallback to [R]. The message
    is the array the bytes of the caller's [Buffer] or array give. *)
Definition MPCClient_computeLocalSignature (messageArray : list Z)
    (ephSharedKey : EphemeralSharedKey) (sharedKey : SharedKey)
    : Result LocalSignature :=
  match eph_r ephSharedKey with
  | None => Fail undefinedProperty
  | Some r =>
      let ephSharedKeyRust :=
        mkEphemeralSharedKey (Some (rustBytes r)) None (rustBytes (rI ephSharedKey)) in
      let sharedKeyRust :=
        mkSharedKey (rustBytes (y sharedKey)) (rustBytes (xI sharedKey))
          (option_map rustBytes (prefix sharedKey)) in
      thresholdSig_computeLocalSig messageArray ephSharedKeyRust sharedKeyRust
  end.

End MPCClientRounds.

Arguments vss {Opaque} d.
Arguments secret_shares {Opaque} d.
Arguments mkDistributeResult {Opaque}.
Arguments sd_vss {Opaque} s.
Arguments secretShares {Opaque} s.
Arguments mkShareDistributionResult {Opaque}.
Arguments nativeCall {KeyStore A B} r k _.
Arguments MPCClient_generateCommitment {KeyStore} thresholdSig_phase1Broadcast keyId _.
Arguments MPCClient_distributeShares {Opaque KeyStore}
  thresholdSig_phase1VerifyComPhase2Distribute keyId threshold shareCount
  blindFactors publicKeys commitments _partyIndex _.
Arguments MPCClient_constructKeypair {Opaque KeyStore}
  thresholdSig_phase2VerifyVssConstructKeypair keyId threshold shareCount publicKeys
  allSecretShares allVssSchemes partyIndex _.
Arguments MPCClient_generateEphemeralCommitment {KeyStore}
  thresholdSig_ephemeralPhase1Broadcast ephKeyId _.
Arguments MPCClient_distributeEphemeralShares {Opaque KeyStore}
  thresholdSig_ephemeralPhase1VerifyComPhase2Distribute ephKeyId threshold shareCount
  ephBlindFactors ephRPoints ephCommitments signingParties _.
Arguments MPCClient_constructEphemeralKeypair {Opaque KeyStore}
  thresholdSig_ephemeralPhase2VerifyVssConstructKeypair ephKeyId threshold shareCount
  ephRPoints allEphSecretShares allEphVssSchemes partyIndex signingParties _.

(** ** The rounds of the party agent ([services/mpc_service.ts]) *)

Record StartEphemeralResult : Type := mkStartEphemeralResult {
  se_ephKeyId : string;
  se_ephR : SerializableBigInt;
  se_commitment : SerializableBigInt;
  se_blindFactor : SerializableBigInt
}.

Definition set_sharedKey (v : SharedKey) (svc : MPCService) : MPCService :=
  mkMPCService (svc_partyId svc) (keyId svc) (Some v).

Definition sharedKeyForHttp (sk : SharedKey) : SharedKey :=
  mkSharedKey (serializeForHttp (y sk)) (serializeForHttp (xI sk))
    (option_map serializeForHttp (prefix sk)).

Section MPCServiceRounds.

Variable Opaque : Type.
Variable KeyStore : Type.

Variable thresholdSig_phase1Broadcast : string -> KeyStore -> Result (Broadcast * KeyStore).
Variable thresholdSig_phase1VerifyComPhase2Distribute :
  string -> Z -> Z -> list SerializableBigInt -> list SerializableBigInt ->
  list SerializableBigInt -> list Z -> KeyStore ->
  Result (DistributeResult Opaque * KeyStore).
Variable thresholdSig_phase2VerifyVssConstructKeypair :
  string -> Z -> Z -> list SerializableBigInt -> list SerializableBigInt ->
  list (VssObject Opaque) -> Z -> KeyStore -> Result (SharedKey * KeyStore).
Variable thresholdSig_ephemeralKeyCreate :
  string -> list Z -> Z -> KeyStore -> Result (string * KeyStore).
Variable thresholdSig_getEphemeralR : string -> KeyStore -> Result SerializableBigInt.
Variable thresholdSig_ephemeralPhase1Broadcast :
  string -> KeyStore -> Result (Broadcast * KeyStore).
Variable thresholdSig_ephemeralPhase1VerifyComPhase2Distribute :
  string -> Z -> Z -> list SerializableBigInt -> list SerializableBigInt ->
  list SerializableBigInt -> list Z -> KeyStore ->
  Result (DistributeResult Opaque * KeyStore).
Variable thresholdSig_ephemeralPhase2VerifyVssConstructKeypair :
  string -> Z -> Z -> list SerializableBigInt -> list SerializableBigInt ->
  list (VssObject Opaque) -> Z -> KeyStore -> Result (EphemeralSharedKey * KeyStore).
Variable thresholdSig_computeLocalSig :
  list Z -> EphemeralSharedKey -> SharedKey -> Result LocalSignature.

Definition MPCService_generateCommitment : Method (Agent KeyStore) CommitmentResult :=
  (a <- this ;;
   if missingKeyId (keyId (fst a)) then throw ServiceError ServiceNotInitialized
   else
     commit <- onStore KeyStore
                 (MPCClient_generateCommitment thresholdSig_phase1Broadcast
                    (keyIdText (keyId (fst a)))) ;;
     ret (mkCommitmentResult (serializeForHttp (commitment commit))
            (serializeForHttp (blindFactor commit))))%method.

Definition MPCService_distributeShares (threshold shareCount : Z)
    (blindFactors publicKeys commitments : list SerializableBigInt) (partyIndex : Z)
    : Method (Agent KeyStore) (ShareDistributionResult Opaque) :=
  (a <- this ;;
   if missingKeyId (keyId (fst a)) then throw ServiceError ServiceNotInitialized
   else
     let blindFactorsRust := map normalizeBytesForRust blindFactors in
     let publicKeysRust := map normalizeBytesForRust publicKeys in
     let commitmentsRust := map normalizeBytesForRust commitments in
     result <- onStore KeyStore
                 (MPCClient_distributeShares thresholdSig_phase1VerifyComPhase2Distribute
                    (keyIdText (keyId (fst a))) threshold shareCount
                    blindFactorsRust publicKeysRust commitmentsRust partyIndex) ;;
     ret (mkShareDistributionResult (serializeVss (sd_vss result))
            (map serializeForHttp (secretShares result))))%method.

(** The test of [this.sharedKey] after the assignment is a test of an
    object, which never fails. *)
Definition MPCService_constructKeypair (threshold shareCount : Z)
    (publicKeys : list SerializableBigInt)
    (allSecretShares : list (list SerializableBigInt))
    (allVssSchemes : list (VssObject Opaque)) (partyIndex : Z)
    : Method (Agent KeyStore) SharedKey :=
  (a <- this ;;
   if missingKeyId (keyId (fst a)) then throw ServiceError ServiceNotInitialized
   else
     let publicKeysRust := map normalizeBytesForRust publicKeys in
     let allSecretSharesRust := normalize2DArrayForRust allSecretShares in
     constructed <- onStore KeyStore
                      (MPCClient_constructKeypair
                         thresholdSig_phase2VerifyVssConstructKeypair
                         (keyIdText (keyId (fst a))) threshold shareCount publicKeysRust
                         allSecretSharesRust allVssSchemes partyIndex) ;;
     onService KeyStore (set_sharedKey constructed) ;;;
     ret (sharedKeyForHttp constructed))%method.

Definition MPCService_startEphemeralKeyGeneration (message : Message) (partyIndex : Z)
    : Method (Agent KeyStore) StartEphemeralResult :=
  (a <- this ;;
   if missingKeyId (keyId (fst a)) then throw ServiceError ServiceNotInitialized
   else
     let messageBuffer := normalizeMessage message in
     let messageArray := Array_from (BufferBytes messageBuffer) in
     ephData <- onStore KeyStore
                  (MPCClient_createEphemeralKey thresholdSig_ephemeralKeyCreate
                     thresholdSig_getEphemeralR (keyIdText (keyId (fst a)))
                     messageArray partyIndex) ;;
     commit <- onStore KeyStore
                 (MPCClient_generateEphemeralCommitment
                    thresholdSig_ephemeralPhase1Broadcast (ephKeyId ephData)) ;;
     ret (mkStartEphemeralResult (ephKeyId ephData) (serializeForHttp (ephR ephData))
            (serializeForHttp (commitment commit))
            (serializeForHttp (blindFactor commit))))%method.

Definition MPCService_generateEphemeralCommitment (ephKeyId : string)
    : Method (Agent KeyStore) CommitmentResult :=
  (commit <- onStore KeyStore
               (MPCClient_generateEphemeralCommitment
                  thresholdSig_ephemeralPhase1Broadcast ephKeyId) ;;
   ret (mkCommitmentResult (commitment commit) (blindFactor commit)))%method.

Definition MPCService_distributeEphemeralShares (ephKeyId : string)
    (threshold shareCount : Z)
    (ephBlindFactors ephRPoints ephCommitments : list SerializableBigInt)
    (signingParties : list Z)
    : Method (Agent KeyStore) (ShareDistributionResult Opaque) :=
  (let ephBlindFactorsRust := map normalizeBytesForRust ephBlindFactors in
   let ephRPointsRust := map normalizeBytesForRust ephRPoints in
   let ephCommitmentsRust := map normalizeBytesForRust ephCommitments in
   result <- onStore KeyStore
               (MPCClient_distributeEphemeralShares
                  thresholdSig_ephemeralPhase1VerifyComPhase2Distribute ephKeyId
                  threshold shareCount ephBlindFactorsRust ephRPointsRust
                  ephCommitmentsRust signingParties) ;;
   ret (mkShareDistributionResult (serializeVss (sd_vss result))
          (map serializeForHttp (secretShares result))))%method.

Definition MPCService_constructEphemeralKeypair (ephKeyId : string)
    (threshold shareCount : Z) (ephRPoints : list SerializableBigInt)
    (allEphSecretShares : list (list SerializableBigInt))
    (allEphVssSchemes : list (VssObject Opaque)) (partyIndex : Z)
    (signingParties : list Z) : Method (Agent KeyStore) EphemeralSharedKey :=
  (let ephRPointsRust := map normalizeBytesForRust ephRPoints in
   let allEphSecretSharesRust := normalize2DArrayForRust allEphSecretShares in
   ephSharedKey <- onStore KeyStore
                     (MPCClient_constructEphemeralKeypair
                        thresholdSig_ephemeralPhase2VerifyVssConstructKeypair ephKeyId
                        threshold shareCount ephRPointsRust allEphSecretSharesRust
                        allEphVssSchemes partyIndex signingParties) ;;
   ret (serializeEphSharedKey ephSharedKey))%method.

Definition MPCService_computeLocalSignature (message : Message)
    (ephSharedKey : EphemeralSharedKey) : Method (Agent KeyStore) LocalSignature :=
  (a <- this ;;
   match sharedKey (fst a) with
   | None => throw ServiceError (messageText "Shared key not constructed")
   | Some key =>
       let messageBuffer := normalizeMessage message in
       let ephSharedKeyRust := normalizeEphSharedKey ephSharedKey in
       localSig <- call (MPCClient_computeLocalSignature thresholdSig_computeLocalSig
                           (Array_from (BufferBytes messageBuffer)) ephSharedKeyRust key) ;;
       ret (mkLocalSignature (serializeForHttp (gammaI localSig))
              (serializeForHttp (k localSig)))
   end)%method.

End MPCServiceRounds.

Arguments MPCService_generateCommitment {KeyStore} thresholdSig_phase1Broadcast _.
Arguments MPCService_distributeShares {Opaque KeyStore}
  thresholdSig_phase1VerifyComPhase2Distribute threshold shareCount blindFactors
  publicKeys commitments partyIndex _.
Arguments MPCService_constructKeypair {Opaque KeyStore}
  thresholdSig_phase2VerifyVssConstructKeypair threshold shareCount publicKeys
  allSecretShares allVssSchemes partyIndex _.
Arguments MPCService_startEphemeralKeyGeneration {KeyStore}
  thresholdSig_ephemeralKeyCreate thresholdSig_getEphemeralR
  thresholdSig_ephemeralPhase1Broadcast message partyIndex _.
Arguments MPCService_generateEphemeralCommitment {KeyStore}
  thresholdSig_ephemeralPhase1Broadcast ephKeyId _.
Arguments MPCService_distributeEphemeralShares {Opaque KeyStore}
  thresholdSig_ephemeralPhase1VerifyComPhase2Distribute ephKeyId threshold shareCount
  ephBlindFactors ephRPoints ephCommitments signingParties _.
Arguments MPCService_constructEphemeralKeypair {Opaque KeyStore}
  thresholdSig_ephemeralPhase2VerifyVssConstructKeypair ephKeyId threshold shareCount
  ephRPoints allEphSecretShares allEphVssSchemes partyIndex signingParties _.
Arguments MPCService_computeLocalSignature {KeyStore} thresholdSig_computeLocalSig
  message ephSharedKey _.

(** ** The collectors of the coordinator ([services/coordinator_service.ts]) *)

(** A JavaScript object literal [{}] used as a map from party identifiers,
    held as the list of the assignments [obj[key] = value] made to it,
    an assignment to a key that is present replacing its value. The order
    of enumeration is not read off this model. *)
Definition ObjectMap (V : Type) : Type := list (string * V).

Fixpoint objectSet {V} (key : string) (v : V) (obj : ObjectMap V) : ObjectMap V :=
  match obj with
  | [] => [(key, v)]
  | (key', v') :: rest =>
      if String.eqb key' key then (key, v) :: rest
      else (key', v') :: objectSet key v rest
  end.

(** The value assigned under a key, which is what [obj[key]] reads for a
    key that was assigned. That holds for the key [__proto__] as well:
    assigning an object under it replaces the prototype of [obj], and
    reading it returns that object. *)
Fixpoint objectGet {V} (key : string) (obj : ObjectMap V) : option V :=
  match obj with
  | [] => None
  | (key', v') :: rest => if String.eqb key' key then Some v' else objectGet key rest
  end.

(** What [obj[key]] reads for any key. A key that was not assigned is
    looked for along the prototype chain: in the entry assigned under
    [__proto__], if there is one, whose properties are the fields of
    an entry, and in [Object.prototype], which has [toString],
    [constructor] and more. What is found there is not a value of the
    map; the model records only that something is found. *)
Inductive PropertyRead (V : Type) : Type :=
| ReadEntry (v : V)
| ReadInherited
| ReadUndefined.

Arguments ReadEntry {V} v.
Arguments ReadInherited {V}.
Arguments ReadUndefined {V}.

Definition objectRead {V} (onObjectPrototype : string -> bool) (fieldNames : list string)
    (key : string) (obj : ObjectMap V) : PropertyRead V :=
  match objectGet key obj with
  | Some v => ReadEntry v
  | None =>
      match objectGet "__proto__" obj with
      | Some _ =>
          if existsb (String.eqb key) fieldNames then ReadInherited
          else if onObjectPrototype key then ReadInherited
          else ReadUndefined
      | None => if onObjectPrototype key then ReadInherited else ReadUndefined
      end
  end.

(** The property names of the entries of [ShareData] and of
    [EphemeralShareData]. *)
Definition shareEntryFields : list string :=
  ["threshold"; "shareCount"; "publicKeys"; "allSecretShares"; "allVssSchemes";
   "partyIndex"]%string.

Definition ephShareEntryFields : list string :=
  ["threshold"; "shareCount"; "ephRPoints"; "allEphSecretShares"; "allEphVssSchemes";
   "partyIndex"; "signingParties"]%string.

Record PartyCommitment : Type := mkPartyCommitment {
  pc_partyId : string;
  pc_commitment : SerializableBigInt;
  pc_blindFactor : SerializableBigInt
}.

Record CommitData : Type := mkCommitData {
  cd_threshold : Z;
  cd_shareCount : Z;
  cd_blindFactors : list SerializableBigInt;
  cd_publicKeys : list SerializableBigInt;
  cd_commitments : list SerializableBigInt;
  cd_parties : list Z
}.

Record PartyEphKey : Type := mkPartyEphKey {
  pek_partyId : string;
  pek_ephR : SerializableBigInt
}.

Record PartyEphData : Type := mkPartyEphData {
  ped_partyId : string;
  ped_ephR : SerializableBigInt;
  ped_commitment : SerializableBigInt;
  ped_blindFactor : SerializableBigInt
}.

Record EphemeralKeysResponse : Type := mkEphemeralKeysResponse {
  ekr_ephRPoints : list SerializableBigInt;
  ekr_signingPartyIndices : list Z
}.

Record EphemeralCommitmentsResponse : Type := mkEphemeralCommitmentsResponse {
  ecr_ephCommitments : list SerializableBigInt;
  ecr_ephBlindFactors : list SerializableBigInt;
  ecr_ephRPoints : list SerializableBigInt
}.

Record EphemeralCommitData : Type := mkEphemeralCommitData {
  ecd_ephRPoints : list SerializableBigInt;
  ecd_ephCommitments : list SerializableBigInt;
  ecd_ephBlindFactors : list SerializableBigInt;
  ecd_signingPartyIndices : list Z
}.

(** [p.protocolIndex || 0]. *)
Definition protocolIndexOrZero (p : Party) : Z :=
  match protocolIndex p with Some idx => idx | None => 0 end.

(** [xs || []]. *)
Definition orEmpty {A} (xs : option (list A)) : list A :=
  match xs with Some l => l | None => [] end.

Section CoordinatorCollectors.

Variable VSSScheme : Type.
Variable localeCompare : string -> string -> Z.

Record PartyShares : Type := mkPartyShares {
  ps_partyId : string;
  ps_vss : VSSScheme;
  ps_secretShares : list SerializableBigInt
}.

Record ShareEntry : Type := mkShareEntry {
  se_threshold : Z;
  se_shareCount : nat;
  se_publicKeys : list SerializableBigInt;
  se_allSecretShares : list (list SerializableBigInt);
  se_allVssSchemes : list VSSScheme;
  se_partyIndex : Z
}.

Record EphShareEntry : Type := mkEphShareEntry {
  ese_threshold : Z;
  ese_shareCount : nat;
  ese_ephRPoints : list SerializableBigInt;
  ese_allEphSecretShares : list (list SerializableBigInt);
  ese_allEphVssSchemes : list VSSScheme;
  ese_partyIndex : Z;
  ese_signingParties : list Z
}.

Definition set_commitments (v : list SerializableBigInt) (c : Coordinator VSSScheme)
    : Coordinator VSSScheme :=
  mkCoordinator (session c) (parties c) v (blindFactors c)
    (allVssSchemes c) (allSecretShares c) (sharedKeys c)
    (signingSession c) (signingPartyIndices c) (ephRPoints c) (ephCommitments c)
    (ephBlindFactors c) (allEphVssSchemes c) (allEphSecretShares c)
    (ephSharedKeys c) (aggregatePublicKey c).

Definition set_blindFactors (v : list SerializableBigInt) (c : Coordinator VSSScheme)
    : Coordinator VSSScheme :=
  mkCoordinator (session c) (parties c) (commitments c) v
    (allVssSchemes c) (allSecretShares c) (sharedKeys c)
    (signingSession c) (signingPartyIndices c) (ephRPoints c) (ephCommitments c)
    (ephBlindFactors c) (allEphVssSchemes c) (allEphSecretShares c)
    (ephSharedKeys c) (aggregatePublicKey c).

Definition set_allVssSchemes (v : list VSSScheme) (c : Coordinator VSSScheme)
    : Coordinator VSSScheme :=
  mkCoordinator (session c) (parties c) (commitments c) (blindFactors c)
    v (allSecretShares c) (sharedKeys c)
    (signingSession c) (signingPartyIndices c) (ephRPoints c) (ephCommitments c)
    (ephBlindFactors c) (allEphVssSchemes c) (allEphSecretShares c)
    (ephSharedKeys c) (aggregatePublicKey c).

Definition set_allSecretShares (v : list (list SerializableBigInt))
    (c : Coordinator VSSScheme) : Coordinator VSSScheme :=
  mkCoordinator (session c) (parties c) (commitments c) (blindFactors c)
    (allVssSchemes c) v (sharedKeys c)
    (signingSession c) (signingPartyIndices c) (ephRPoints c) (ephCommitments c)
    (ephBlindFactors c) (allEphVssSchemes c) (allEphSecretShares c)
    (ephSharedKeys c) (aggregatePublicKey c).

Definition set_ephRPoints (v : list SerializableBigInt) (c : Coordinator VSSScheme)
    : Coordinator VSSScheme :=
  mkCoordinator (session c) (parties c) (commitments c) (blindFactors c)
    (allVssSchemes c) (allSecretShares c) (sharedKeys c)
    (signingSession c) (signingPartyIndices c) (Some v) (ephCommitments c)
    (ephBlindFactors c) (allEphVssSchemes c) (allEphSecretShares c)
    (ephSharedKeys c) (aggregatePublicKey c).

Definition set_ephCommitments (v : list SerializableBigInt) (c : Coordinator VSSScheme)
    : Coordinator VSSScheme :=
  mkCoordinator (session c) (parties c) (commitments c) (blindFactors c)
    (allVssSchemes c) (allSecretShares c) (sharedKeys c)
    (signingSession c) (signingPartyIndices c) (ephRPoints c) (Some v)
    (ephBlindFactors c) (allEphVssSchemes c) (allEphSecretShares c)
    (ephSharedKeys c) (aggregatePublicKey c).

Definition set_ephBlindFactors (v : list SerializableBigInt) (c : Coordinator VSSScheme)
    : Coordinator VSSScheme :=
  mkCoordinator (session c) (parties c) (commitments c) (blindFactors c)
    (allVssSchemes c) (allSecretShares c) (sharedKeys c)
    (signingSession c) (signingPartyIndices c) (ephRPoints c) (ephCommitments c)
    (Some v) (allEphVssSchemes c) (allEphSecretShares c)
    (ephSharedKeys c) (aggregatePublicKey c).

Definition set_allEphVssSchemes (v : list VSSScheme) (c : Coordinator VSSScheme)
    : Coordinator VSSScheme :=
  mkCoordinator (session c) (parties c) (commitments c) (blindFactors c)
    (allVssSchemes c) (allSecretShares c) (sharedKeys c)
    (signingSession c) (signingPartyIndices c) (ephRPoints c) (ephCommitments c)
    (ephBlindFactors c) (Some v) (allEphSecretShares c)
    (ephSharedKeys c) (aggregatePublicKey c).

Definition set_allEphSecretShares (v : list (list SerializableBigInt))
    (c : Coordinator VSSScheme) : Coordinator VSSScheme :=
  mkCoordinator (session c) (parties c) (commitments c) (blindFactors c)
    (allVssSchemes c) (allSecretShares c) (sharedKeys c)
    (signingSession c) (signingPartyIndices c) (ephRPoints c) (ephCommitments c)
    (ephBlindFactors c) (allEphVssSchemes c) (Some v)
    (ephSharedKeys c) (aggregatePublicKey c).

(** The object returned by [collectCommitments] and by
    [getCommitDataForSharesHttp]. *)
Definition commitDataOf (s : KeyGenSession) (c : Coordinator VSSScheme) : CommitData :=
  mkCommitData (threshold s) (totalParties s)
    (map serializeForHttp (blindFactors c))
    (map (fun p => serializeForHttp (publicKey p)) (parties c))
    (map serializeForHttp (commitments c))
    (map protocolIndexOrZero (parties c)).

Definition collectCommitments (partyCommitments : list PartyCommitment)
    : Method (Coordinator VSSScheme) CommitData :=
  (assign (set_commitments []) ;;;
   assign (set_blindFactors []) ;;;
   let sorted := Array_sort (byPartyId localeCompare pc_partyId) partyCommitments in
   assign (set_commitments
             (map (fun commit => normalizeBytesToBuffer (pc_commitment commit)) sorted)) ;;;
   assign (set_blindFactors
             (map (fun commit => normalizeBytesToBuffer (pc_blindFactor commit)) sorted)) ;;;
   c <- this ;;
   match session c with
   | None => throw SessionError (messageText "Session not initialized")
   | Some s => ret (commitDataOf s c)
   end)%method.

Definition getCommitDataForSharesHttp : Method (Coordinator VSSScheme) CommitData :=
  (c <- this ;;
   match session c with
   | None => throw SessionError (messageText "Session not initialized")
   | Some s => ret (commitDataOf s c)
   end)%method.

(** The loop that fills the key construction data, one entry per party. *)
Fixpoint shareDataLoop (entryFor : Z -> ShareEntry) (ps : list Party)
    (result : ObjectMap ShareEntry) : Result (ObjectMap ShareEntry) :=
  match ps with
  | [] => Ok result
  | party :: rest =>
      match protocolIndex party with
      | None =>
          Fail (mkError PartyError
                  (messageText (String.append "Party "
                                  (String.append (partyId party) " has no protocolIndex"))))
      | Some idx =>
          shareDataLoop entryFor rest (objectSet (partyId party) (entryFor idx) result)
      end
  end.

Definition shareDataOf (s : KeyGenSession) (c : Coordinator VSSScheme)
    : Result (ObjectMap ShareEntry) :=
  let shareCount := List.length (parties c) in
  let threshold := threshold s in
  shareDataLoop
    (fun idx =>
       mkShareEntry threshold shareCount
         (map (fun p => serializeForHttp (publicKey p)) (parties c))
         (serialize2DArrayForHttp (allSecretShares c))
         (allVssSchemes c) idx)
    (parties c) [].

Definition collectShares (partyShares : list PartyShares)
    : Method (Coordinator VSSScheme) (ObjectMap ShareEntry) :=
  (assign (set_allVssSchemes []) ;;;
   assign (set_allSecretShares []) ;;;
   let sorted := Array_sort (byPartyId localeCompare ps_partyId) partyShares in
   assign (set_allVssSchemes (map ps_vss sorted)) ;;;
   assign (set_allSecretShares
             (map (fun share => map normalizeBytesToBuffer (ps_secretShares share)) sorted)) ;;;
   c <- this ;;
   match session c with
   | None => throw SessionError (messageText "Session not initialized")
   | Some s => call (shareDataOf s c)
   end)%method.

Definition getKeyConstructionDataHttp
    : Method (Coordinator VSSScheme) (ObjectMap ShareEntry) :=
  (c <- this ;;
   match session c, allSecretShares c with
   | Some s, _ :: _ => call (shareDataOf s c)
   | _, _ =>
       throw StateError
         (messageText "Shares not collected. Make sure collect-shares was called first.")
   end)%method.

(** The R points are stored as they arrive, without normalisation. *)
Definition collectEphemeralKeys (partyEphKeys : list PartyEphKey)
    : Method (Coordinator VSSScheme) EphemeralKeysResponse :=
  (let sorted := Array_sort (byPartyId localeCompare pek_partyId) partyEphKeys in
   let ephRPoints := map pek_ephR sorted in
   assign (set_ephRPoints ephRPoints) ;;;
   c <- this ;;
   match signingPartyIndices c with
   | None => throw StateError (messageText "Signing party indices not set")
   | Some indices => ret (mkEphemeralKeysResponse ephRPoints indices)
   end)%method.

(** Nothing is assigned to a field here. *)
Definition collectEphemeralCommitments (partyEphCommitments : list PartyCommitment)
    : Method (Coordinator VSSScheme) EphemeralCommitmentsResponse :=
  (let sorted := Array_sort (byPartyId localeCompare pc_partyId) partyEphCommitments in
   let ephCommitments := map pc_commitment sorted in
   let ephBlindFactors := map pc_blindFactor sorted in
   c <- this ;;
   match ephRPoints c with
   | None => throw StateError (messageText "Ephemeral R points not set")
   | Some points => ret (mkEphemeralCommitmentsResponse ephCommitments ephBlindFactors points)
   end)%method.

Definition collectEphemeralKeysAndCommitments (partyEphData : list PartyEphData)
    : Method (Coordinator VSSScheme) EphemeralCommitData :=
  (let sorted := Array_sort (byPartyId localeCompare ped_partyId) partyEphData in
   let ephRPoints := map (fun data => normalizeBytesToBuffer (ped_ephR data)) sorted in
   let ephCommitments :=
     map (fun data => normalizeBytesToBuffer (ped_commitment data)) sorted in
   let ephBlindFactors :=
     map (fun data => normalizeBytesToBuffer (ped_blindFactor data)) sorted in
   assign (set_ephRPoints ephRPoints) ;;;
   assign (set_ephCommitments ephCommitments) ;;;
   assign (set_ephBlindFactors ephBlindFactors) ;;;
   c <- this ;;
   match signingPartyIndices c with
   | None => throw StateError (messageText "Signing party indices not set")
   | Some indices =>
       ret (mkEphemeralCommitData (map serializeForHttp ephRPoints)
              (map serializeForHttp ephCommitments)
              (map serializeForHttp ephBlindFactors) indices)
   end)%method.

Definition getEphCommitDataForSharesHttp
    : Method (Coordinator VSSScheme) EphemeralCommitData :=
  (c <- this ;;
   match ephRPoints c, signingPartyIndices c with
   | Some (r :: rs), Some indices =>
       ret (mkEphemeralCommitData (map serializeForHttp (r :: rs))
              (map serializeForHttp (orEmpty (ephCommitments c)))
              (map serializeForHttp (orEmpty (ephBlindFactors c))) indices)
   | _, _ => throw StateError (messageText "Ephemeral keys not collected")
   end)%method.

(** The loop that fills the ephemeral key construction data, one entry per
    signing party index. *)
Fixpoint ephShareDataLoop (entryFor : Z -> EphShareEntry) (ps : list Party)
    (indices : list Z) (result : ObjectMap EphShareEntry)
    : Result (ObjectMap EphShareEntry) :=
  match indices with
  | [] => Ok result
  | partyIdx :: rest =>
      match arrayAt ps partyIdx with
      | None =>
          Fail (mkError StateError
                  (messageText (String.append "Party at index "
                                  (String.append (numberToString partyIdx) " is undefined"))))
      | Some party =>
          ephShareDataLoop entryFor ps rest
            (objectSet (partyId party) (entryFor partyIdx) result)
      end
  end.

Definition ephShareDataOf (s : KeyGenSession) (indices : list Z)
    (points : list SerializableBigInt) (shares : list (list SerializableBigInt))
    (schemes : list VSSScheme) (c : Coordinator VSSScheme)
    : Result (ObjectMap EphShareEntry) :=
  let shareCount := List.length indices in
  let threshold := threshold s in
  ephShareDataLoop
    (fun partyIdx =>
       mkEphShareEntry threshold shareCount (map serializeForHttp points)
         (serialize2DArrayForHttp shares) schemes partyIdx indices)
    (parties c) indices [].

Definition collectEphemeralShares (partyEphShares : list PartyShares)
    : Method (Coordinator VSSScheme) (ObjectMap EphShareEntry) :=
  (let sorted := Array_sort (byPartyId localeCompare ps_partyId) partyEphShares in
   let allEphVssSchemes := map ps_vss sorted in
   let allEphSecretShares :=
     map (fun share => map normalizeBytesToBuffer (ps_secretShares share)) sorted in
   assign (set_allEphVssSchemes allEphVssSchemes) ;;;
   assign (set_allEphSecretShares allEphSecretShares) ;;;
   c <- this ;;
   match signingPartyIndices c, session c, ephRPoints c with
   | Some indices, Some s, Some points =>
       call (ephShareDataOf s indices points allEphSecretShares allEphVssSchemes c)
   | _, _, _ => throw StateError RequiredStateNotInitialized
   end)%method.

Definition getEphKeyConstructionDataHttp
    : Method (Coordinator VSSScheme) (ObjectMap EphShareEntry) :=
  (c <- this ;;
   match allEphSecretShares c with
   | Some (row :: rows) =>
       match ephRPoints c with
       | Some (r :: rs) =>
           match signingPartyIndices c, session c, allEphVssSchemes c with
           | Some indices, Some s, Some schemes =>
               call (ephShareDataOf s indices (r :: rs) (row :: rows) schemes c)
           | _, _, _ => throw StateError RequiredStateNotInitialized
           end
       | _ =>
           throw StateError
             (messageText
                "Ephemeral R points not available. Make sure collect-ephemeral-keys was called first.")
       end
   | _ =>
       throw StateError
         (messageText
            "Ephemeral shares not collected. Make sure collect-ephemeral-shares was called first.")
   end)%method.

(** The stored message is a [Buffer], an object, so the second test of the
    guard never fails. *)
Definition getMessageForHttp : Method (Coordinator VSSScheme) (list Z) :=
  (c <- this ;;
   match signingSession c with
   | None => throw SessionError (messageText "No signing session or message available")
   | Some signing => ret (messageToArray (MsgBuffer (message signing)))
   end)%method.

End CoordinatorCollectors.

Arguments mkPartyShares {VSSScheme}.
Arguments ps_partyId {VSSScheme} p.
Arguments ps_vss {VSSScheme} p.
Arguments ps_secretShares {VSSScheme} p.
Arguments mkShareEntry {VSSScheme}.
Arguments se_threshold {VSSScheme} s.
Arguments se_shareCount {VSSScheme} s.
Arguments se_publicKeys {VSSScheme} s.
Arguments se_allSecretShares {VSSScheme} s.
Arguments se_allVssSchemes {VSSScheme} s.
Arguments se_partyIndex {VSSScheme} s.
Arguments mkEphShareEntry {VSSScheme}.
Arguments ese_threshold {VSSScheme} e.
Arguments ese_shareCount {VSSScheme} e.
Arguments ese_ephRPoints {VSSScheme} e.
Arguments ese_allEphSecretShares {VSSScheme} e.
Arguments ese_allEphVssSchemes {VSSScheme} e.
Arguments ese_partyIndex {VSSScheme} e.
Arguments ese_signingParties {VSSScheme} e.
Arguments set_commitments {VSSScheme} v c.
Arguments set_blindFactors {VSSScheme} v c.
Arguments set_allVssSchemes {VSSScheme} v c.
Arguments set_allSecretShares {VSSScheme} v c.
Arguments set_ephRPoints {VSSScheme} v c.
Arguments set_ephCommitments {VSSScheme} v c.
Arguments set_ephBlindFactors {VSSScheme} v c.
Arguments set_allEphVssSchemes {VSSScheme} v c.
Arguments set_allEphSecretShares {VSSScheme} v c.
Arguments commitDataOf {VSSScheme} s c.
Arguments collectCommitments {VSSScheme} localeCompare partyCommitments _.
Arguments getCommitDataForSharesHttp {VSSScheme} _.
Arguments shareDataLoop {VSSScheme} entryFor ps result.
Arguments shareDataOf {VSSScheme} s c.
Arguments collectShares {VSSScheme} localeCompare partyShares _.
Arguments getKeyConstructionDataHttp {VSSScheme} _.
Arguments collectEphemeralKeys {VSSScheme} localeCompare partyEphKeys _.
Arguments collectEphemeralCommitments {VSSScheme} localeCompare partyEphCommitments _.
Arguments collectEphemeralKeysAndCommitments {VSSScheme} localeCompare partyEphData _.
Arguments getEphCommitDataForSharesHttp {VSSScheme} _.
Arguments ephShareDataLoop {VSSScheme} entryFor ps indices result.
Arguments ephShareDataOf {VSSScheme} s indices points shares schemes c.
Arguments collectEphemeralShares {VSSScheme} localeCompare partyEphShares _.
Arguments getEphKeyConstructionDataHttp {VSSScheme} _.
Arguments getMessageForHttp {VSSScheme} _.

(** The party at position [i] of the list carries the protocol index [i]. *)
Definition numbered (ps : list Party) : Prop :=
  forall i p, nth_error ps i = Some p -> protocolIndex p = Some (Z.of_nat i).

(** ** A platform to run the model on

    The scenarios below run the methods on concrete inputs. They need
    values for what the platform provides:
      - [ordinalCompare] orders identifiers by their code units. On the
        identifiers of the scenarios (a common lower-case prefix followed by
        digits) every collation orders the same way;
      - [scenarioDigest] fills the [partyIndex] field, which no method reads;
      - the [counter*] functions stand in for the native module: keys are
        numbered in the order of their creation, and no cryptography is
        performed. *)

Definition ordinalCompare (a b : string) : Z := stringSortCompare a b.

Definition scenarioDigest (s : string) : Z := Z.of_nat (String.length s).

(** A collation in place of [localeCompare] for identifiers that are not
    made of digits and lower-case letters alone. [localeCompare] returns 0
    on canonically equivalent strings, and its collations compare the
    letters before they compare their case, a lower-case letter before
    its upper-case form. [collationCompare] does so on what the scenarios
    use: [decompose] writes the letter e with an acute accent (the bytes
    C3 A9) as the letter e followed by the combining accent (65 CC 81),
    [foldCase] writes the letters A to Z in lower case, and strings that
    differ in case only are put in the reverse of their code-unit order. *)
Fixpoint decompose (s : string) : string :=
  match s with
  | EmptyString => EmptyString
  | String c EmptyString => String c EmptyString
  | String c (String d s'' as s') =>
      if ((N_of_ascii c =? 195) && (N_of_ascii d =? 169))%N then
        String (ascii_of_N 101) (String (ascii_of_N 204) (String (ascii_of_N 129)
          (decompose s'')))
      else String c (decompose s')
  end.

Fixpoint foldCase (s : string) : string :=
  match s with
  | EmptyString => EmptyString
  | String c s' =>
      let n := N_of_ascii c in
      String (if ((65 <=? n) && (n <=? 90))%N then ascii_of_N (n + 32) else c)
        (foldCase s')
  end.

Definition collationCompare (a b : string) : Z :=
  let primary := stringSortCompare (foldCase (decompose a)) (foldCase (decompose b)) in
  if primary =? 0 then - stringSortCompare (decompose a) (decompose b) else primary.

(** The letter e with an acute accent, as one code point (U+00E9) and as
    the letter followed by the combining accent (U+0065 U+0301): two
    different strings that are canonically equivalent. *)
Definition composedId : string :=
  String (ascii_of_N 195) (String (ascii_of_N 169) EmptyString).

Definition decomposedId : string :=
  String (ascii_of_N 101) (String (ascii_of_N 204) (String (ascii_of_N 129) EmptyString)).

Definition counterPhase1Create (partyIndex : Z) (store : nat) : Result (string * nat) :=
  Ok (String.append "key-" (numberToString (Z.of_nat store)), S store).

(** A native key creation that throws. *)
Definition failingPhase1Create (partyIndex : Z) (store : nat) : Result (string * nat) :=
  Fail (mkError NativeError (NativeMessage "key creation failed")).

Definition counterGetPublicKey (keyId : string) (store : nat) : Result PublicKey :=
  Ok (mkBytes (ArrayBytes (Buffer_from_string keyId))).

Definition counterEphemeralKeyCreate (keyId : string) (messageArray : list Z)
    (partyIndex : Z) (store : nat) : Result (string * nat) :=
  Ok (String.append "eph-" (numberToString (Z.of_nat store)), S store).

Definition counterGetEphemeralR (ephKeyId : string) (store : nat)
    : Result SerializableBigInt :=
  Ok (mkBytes (ArrayBytes (Buffer_from_string ephKeyId))).

Definition counterVerifyLocalSigs (localSigs : list LocalSignature)
    (signingParties : list Z) (keyGenVss ephVss : list unit) : Result unit :=
  Ok tt.

Definition counterGenerateSignature (vssSum : unit) (localSigs : list LocalSignature)
    (signingParties : list Z) (aggregateR : SerializableBigInt) : Result Signature :=
  Ok (mkSignature (Some aggregateR) None
        (Some (mkBytes (ArrayBytes (flat_map (fun s => Array_from (bytes (gammaI s)))
                                              localSigs))))
        None).

Definition counterVerifySignature (signature : SignaturePair) (messageArray : list Z)
    (aggregatePublicKey : PublicKey) : Result bool :=
  Ok (Nat.eqb (List.length messageArray) 2).

Definition oneByte (b : Z) : SerializableBigInt := mkBytes (ArrayBytes [b]).

(** Scenario A: a 2-of-3 key generation with parties [p0], [p1], [p2],
    registered in the order [p2], [p0], [p1]. *)
Definition scenarioA : Coordinator unit :=
  stateAfter
    ((startKeyGeneration 2 3 ;;;
      registerAll ordinalCompare scenarioDigest
        [("p2"%string, oneByte 12); ("p0"%string, oneByte 10);
         ("p1"%string, oneByte 11)])%method
       (newCoordinator unit)).

(** Scenario B: a 2-of-11 key generation with parties [p00] to [p10]. *)
Definition scenarioB : Coordinator unit :=
  stateAfter
    ((startKeyGeneration 2 11 ;;;
      registerAll ordinalCompare scenarioDigest
        (map (fun pid => (pid, oneByte 1))
           ["p00"; "p01"; "p02"; "p03"; "p04"; "p05"; "p06"; "p07"; "p08"; "p09";
            "p10"]%string))%method
       (newCoordinator unit)).

(** Three shared-key reports for scenario A in which [p1] reports a joint
    public key different from the one [p0] and [p2] report. *)
Definition mismatchingReports : list PartySharedKey :=
  [ mkPartySharedKey "p1" (mkSharedKey (oneByte 200) (oneByte 21) None);
    mkPartySharedKey "p0" (mkSharedKey (oneByte 100) (oneByte 20) None);
    mkPartySharedKey "p2" (mkSharedKey (oneByte 100) (oneByte 22) None) ].

Definition agreeingReports : list PartySharedKey :=
  [ mkPartySharedKey "p1" (mkSharedKey (oneByte 100) (oneByte 21) None);
    mkPartySharedKey "p0" (mkSharedKey (mkBytes (BufferBytes [100])) (oneByte 20) None);
    mkPartySharedKey "p2" (mkSharedKey (oneByte 100) (oneByte 22) None) ].

(** Scenario C: scenario A after the shared keys were collected, a signing
    session for [p0] and [p2] was opened on a two-byte message, and the
    caller stored the ephemeral shared keys and VSS schemes, as the
    repository's examples and tests do by assignment to the fields. *)
Definition scenarioC : Coordinator unit :=
  let c := stateAfter
    ((collectSharedKeys ordinalCompare agreeingReports ;;;
      startSigning (MsgString "hi") ["p2"; "p0"]%string)%method scenarioA) in
  mkCoordinator (session c) (parties c) (commitments c)
    (blindFactors c) [tt; tt; tt] (allSecretShares c) (sharedKeys c)
    (signingSession c) (signingPartyIndices c) (ephRPoints c)
    (ephCommitments c) (ephBlindFactors c) (Some [tt; tt])
    (allEphSecretShares c)
    (Some [mkEphemeralSharedKey None (Some (mkBytes (BufferBytes [7; 7]))) (oneByte 1);
           mkEphemeralSharedKey None (Some (mkBytes (BufferBytes [7; 7]))) (oneByte 2)])
    (aggregatePublicKey c).

Definition scenarioLocalSigs : list PartyLocalSig :=
  [ mkPartyLocalSig "p2" (mkLocalSignature (oneByte 32) (oneByte 5));
    mkPartyLocalSig "p0" (mkLocalSignature (oneByte 30) (oneByte 5)) ].

(** An agent for party [p0] that has registered once. *)
Definition registeredAgent : Agent nat :=
  stateAfter
    (MPCService_register scenarioDigest counterPhase1Create counterGetPublicKey
       (newMPCService "p0", 0%nat)).

(** Further stand-ins for the native module: broadcasts, the
    distribution of shares, the construction of the keys and the local
    signature, again without cryptography. The share handed to the
    recipient [p] is the byte [p]. *)
Definition counterBroadcast (keyId : string) (store : nat) : Result (Broadcast * nat) :=
  Ok (mkBroadcast (oneByte 1) (oneByte 2), S store).

Definition counterDistribute (keyId : string) (t n : Z)
    (blindFactors publicKeys commitments : list SerializableBigInt) (recipients : list Z)
    (store : nat) : Result (DistributeResult unit * nat) :=
  Ok (mkDistributeResult (mkVssObject (Some n) None (Some commitments) [])
        (map oneByte recipients), S store).

Definition counterConstructKeypair (keyId : string) (t n : Z)
    (publicKeys shares : list SerializableBigInt) (schemes : list (VssObject unit))
    (vssPartyIndex : Z) (store : nat) : Result (SharedKey * nat) :=
  Ok (mkSharedKey (oneByte 100) (oneByte vssPartyIndex) None, S store).

Definition counterConstructEphemeralKeypair (ephKeyId : string) (t n : Z)
    (ephRPoints shares : list SerializableBigInt) (schemes : list (VssObject unit))
    (vssPartyIndex : Z) (store : nat) : Result (EphemeralSharedKey * nat) :=
  Ok (mkEphemeralSharedKey (Some (oneByte 7)) None (oneByte vssPartyIndex), S store).

Definition counterLocalSig (messageArray : list Z)
    (ephSharedKey : EphemeralSharedKey) (key : SharedKey) : Result LocalSignature :=
  Ok (mkLocalSignature (rI ephSharedKey) (xI key)).

(** A scheme as the native module returns it, with the share count under
    its native spelling. *)
Definition scenarioVss : VssObject unit :=
  mkVssObject (Some 3) None (Some [oneByte 40]) [("x"%string, BytesField (oneByte 9))].

Definition scenarioSchemes : list (VssObject unit) :=
  [scenarioVss; scenarioVss; scenarioVss].

Definition scenarioEphSchemes : list (VssObject unit) := [scenarioVss; scenarioVss].

(** The shares of a three-party key generation: row [j] holds what party
    [j] distributed, entry [i] of it goes to party [i]. *)
Definition scenarioShareMatrix : list (list SerializableBigInt) :=
  [ [oneByte 0; oneByte 1; oneByte 2];
    [oneByte 10; oneByte 11; oneByte 12];
    [oneByte 20; oneByte 21; oneByte 22] ].

(** The shares of a signing round of two parties. *)
Definition scenarioEphShareMatrix : list (list SerializableBigInt) :=
  [ [oneByte 0; oneByte 1]; [oneByte 20; oneByte 21] ].

(** What the parties of scenario A submit in the rounds of the key
    generation, in the order [p1], [p2], [p0]. *)
Definition scenarioCommitments : list PartyCommitment :=
  [ mkPartyCommitment "p1" (oneByte 41) (oneByte 51);
    mkPartyCommitment "p2" (oneByte 42) (oneByte 52);
    mkPartyCommitment "p0" (oneByte 40) (oneByte 50) ].

Definition scenarioPartyShares : list (PartyShares unit) :=
  [ mkPartyShares "p1" tt [oneByte 10; oneByte 11; oneByte 12];
    mkPartyShares "p2" tt [oneByte 20; oneByte 21; oneByte 22];
    mkPartyShares "p0" tt [oneByte 0; oneByte 1; oneByte 2] ].

(** What the signing parties [p0] and [p2] of scenario C submit. *)
Definition scenarioEphKeys : list PartyEphKey :=
  [ mkPartyEphKey "p2" (oneByte 62); mkPartyEphKey "p0" (oneByte 60) ].

Definition scenarioEphData : list PartyEphData :=
  [ mkPartyEphData "p2" (oneByte 62) (oneByte 72) (oneByte 82);
    mkPartyEphData "p0" (oneByte 60) (oneByte 70) (oneByte 80) ].

Definition scenarioEphCommitments : list PartyCommitment :=
  [ mkPartyCommitment "p2" (oneByte 72) (oneByte 82);
    mkPartyCommitment "p0" (oneByte 70) (oneByte 80) ].

Definition scenarioEphShares : list (PartyShares unit) :=
  [ mkPartyShares "p2" tt [oneByte 20; oneByte 21];
    mkPartyShares "p0" tt [oneByte 0; oneByte 1] ].

(** Scenario D: scenario C after the R points of the two signing parties
    were collected. *)
Definition scenarioD : Coordinator unit :=
  stateAfter (collectEphemeralKeys ordinalCompare scenarioEphKeys scenarioC).

(** The agent of [p0] after it constructed its shared key. *)
Definition keyedAgent : Agent nat :=
  stateAfter
    (MPCService_constructKeypair counterConstructKeypair 2 3
       [oneByte 10; oneByte 11; oneByte 12] scenarioShareMatrix scenarioSchemes 0
       registeredAgent).

(** * Properties *)

(** ** Sorting and traversal *)

Section ArrayLemmas.

Context {A : Type}.
Variable compareFn : A -> A -> Z.

Lemma sortInsert_perm (x : A) (l : list A) :
  Permutation (sortInsert compareFn x l) (x :: l).
Proof.
  induction l as [|y ys IH]; cbn [sortInsert].
  - apply Permutation_refl.
  - destruct (compareFn x y <=? 0).
    + apply Permutation_refl.
    + eapply perm_trans; [apply perm_skip, IH | apply perm_swap].
Qed.

Lemma Array_sort_perm (l : list A) : Permutation (Array_sort compareFn l) l.
Proof.
  induction l as [|x xs IH]; cbn.
  - constructor.
  - eapply perm_trans; [apply sortInsert_perm | apply perm_skip, IH].
Qed.

Lemma Array_sort_length (l : list A) :
  List.length (Array_sort compareFn l) = List.length l.
Proof. apply Permutation_length, Array_sort_perm. Qed.

Lemma Array_sort_nonempty (l : list A) : l <> [] -> Array_sort compareFn l <> [].
Proof.
  intros Hl Hs. apply Hl.
  apply length_zero_iff_nil. rewrite <- Array_sort_length, Hs. reflexivity.
Qed.

(** What a consistent comparator guarantees. *)
Hypothesis compare_total : forall a b, compareFn a b <= 0 \/ compareFn b a <= 0.
Hypothesis compare_trans :
  forall a b c, compareFn a b <= 0 -> compareFn b c <= 0 -> compareFn a c <= 0.

Lemma sortInsert_sorted (x : A) (l : list A) :
  StronglySorted (fun a b => compareFn a b <= 0) l ->
  StronglySorted (fun a b => compareFn a b <= 0) (sortInsert compareFn x l).
Proof.
  induction 1 as [|y ys Hs IH Hy]; cbn [sortInsert].
  - repeat constructor.
  - destruct (compareFn x y <=? 0) eqn:E.
    + apply Z.leb_le in E. constructor; [constructor; assumption|].
      constructor; [exact E|].
      eapply Forall_impl; [|exact Hy]. intros z Hz. exact (compare_trans _ _ _ E Hz).
    + apply Z.leb_gt in E. constructor; [exact IH|].
      assert (Hyx : compareFn y x <= 0).
      { destruct (compare_total x y) as [H|H]; [lia | exact H]. }
      eapply Permutation_Forall; [apply Permutation_sym, sortInsert_perm|].
      constructor; assumption.
Qed.

Lemma Array_sort_sorted (l : list A) :
  StronglySorted (fun a b => compareFn a b <= 0) (Array_sort compareFn l).
Proof.
  induction l as [|x xs IH]; cbn.
  - constructor.
  - apply sortInsert_sorted, IH.
Qed.

End ArrayLemmas.

Lemma mapResult_all_ok {A B} (f : A -> Result B) (l : list A) :
  Forall (fun x => exists y, f x = Ok y) l ->
  exists ys, mapResult f l = Ok ys /\ List.length ys = List.length l.
Proof.
  induction 1 as [|x xs [y Hy] _ [ys [IH Hlen]]]; cbn.
  - exists []. split; reflexivity.
  - rewrite Hy, IH. exists (y :: ys). cbn. split; congruence.
Qed.

Lemma mapResult_fail {A B} (f : A -> Result B) (l : list A) (e : MPCError) :
  mapResult f l = Fail e -> exists x, In x l /\ f x = Fail e.
Proof.
  induction l as [|x xs IH]; cbn; [discriminate|].
  destruct (f x) as [y|e'] eqn:Hx.
  - destruct (mapResult f xs) as [ys|e''] eqn:Hxs; [discriminate|].
    intros H. injection H as ->. destruct (IH eq_refl) as [z [Hz Hf]].
    exists z. split; [right; exact Hz | exact Hf].
  - intros H. injection H as ->. exists x. split; [left; reflexivity | exact Hx].
Qed.

Lemma mapResult_Forall2 {A B} (f : A -> Result B) (l : list A) (ys : list B) :
  mapResult f l = Ok ys -> Forall2 (fun x y => f x = Ok y) l ys.
Proof.
  revert ys. induction l as [|x xs IH]; cbn; intros ys H.
  - injection H as <-. constructor.
  - destruct (f x) as [y|e] eqn:Hx; [|discriminate].
    destruct (mapResult f xs) as [ys'|e]; [|discriminate].
    injection H as <-. constructor; [exact Hx | apply IH; reflexivity].
Qed.

(** ** Validation *)

Lemma validateThreshold_spec (t n : Z) :
  (t < 2 /\ validateThreshold t (Some n) = Fail (mkError ValidationError (ThresholdTooSmall t)))
  \/ (2 <= t /\ t > n /\
      validateThreshold t (Some n) = Fail (mkError ValidationError (ThresholdAboveTotal t n)))
  \/ (2 <= t <= n /\ validateThreshold t (Some n) = Ok tt).
Proof.
  unfold validateThreshold.
  destruct (t <? 2) eqn:E1; [apply Z.ltb_lt in E1; left; split; [lia|reflexivity]|].
  apply Z.ltb_ge in E1. right.
  destruct (t >? n) eqn:E2.
  - left. apply Z.gtb_lt in E2. repeat split; [lia | lia].
  - right. rewrite Z.gtb_ltb in E2. apply Z.ltb_ge in E2. split; [lia | reflexivity].
Qed.

Lemma validateSigningParties_below (count t : Z) (n : option Z) :
  count < t ->
  validateSigningParties count t n = Fail (mkError ValidationError (NeedAtLeastSigners t count)).
Proof.
  intros H. unfold validateSigningParties.
  apply Z.ltb_lt in H. rewrite H. reflexivity.
Qed.

(** ** Key generation and registration *)

(** C7. [startKeyGeneration(threshold, totalParties)] throws a validation
    error exactly when [threshold < 2] or [threshold > totalParties]; for
    every pair with [2 <= threshold <= totalParties] it returns the new
    session and leaves the parties, commitments, blind factors, VSS
    schemes, secret shares and shared keys empty. *)
Theorem startKeyGeneration_validates_and_clears
    (VSSScheme : Type) (t n : Z) (c : Coordinator VSSScheme) :
  ((exists e c', startKeyGeneration t n c = Thrown e c'
                 /\ errClass e = ValidationError)
   <-> (t < 2 \/ t > n))
  /\ (2 <= t <= n ->
      exists c',
        startKeyGeneration t n c = Returned (mkKeyGenSession t n) c'
        /\ session c' = Some (mkKeyGenSession t n)
        /\ parties c' = []
        /\ commitments c' = []
        /\ blindFactors c' = []
        /\ allVssSchemes c' = []
        /\ allSecretShares c' = []
        /\ sharedKeys c' = []).
Proof.
  unfold startKeyGeneration, bind, call, assign, ret.
  destruct (validateThreshold_spec t n) as [[Hlt E] | [[Hge [Hgt E]] | [Hin E]]];
    rewrite E; cbn.
  - split.
    + split; [intros _; lia|]. intros _. eexists; eexists. split; reflexivity.
    + intros H. lia.
  - split.
    + split; [intros _; lia|]. intros _. eexists; eexists. split; reflexivity.
    + intros H. lia.
  - split.
    + split; [|intros H; lia]. intros [e [c' [H _]]]. discriminate H.
    + intros _. eexists. repeat split.
Qed.

Lemma startKeyGeneration_validates_and_clears_witness :
  exists c',
    startKeyGeneration 2 3 scenarioC = Returned (mkKeyGenSession 2 3) c'
    /\ session c' = Some (mkKeyGenSession 2 3)
    /\ parties c' = []
    /\ commitments c' = []
    /\ blindFactors c' = []
    /\ allVssSchemes c' = []
    /\ allSecretShares c' = []
    /\ sharedKeys c' = [].
Proof.
  apply (proj2 (startKeyGeneration_validates_and_clears unit 2 3 scenarioC)). lia.
Defined.

Section RegistrationLemmas.

Variable VSSScheme : Type.
Variable localeCompare : string -> string -> Z.
Variable sha256_readUInt16BE : string -> Z.

Lemma assignProtocolIndex_ids (i : Z) (ps : list Party) :
  map partyId (assignProtocolIndex i ps) = map partyId ps.
Proof.
  revert i. induction ps as [|p ps IH]; intros i; cbn; [reflexivity|].
  rewrite IH. reflexivity.
Qed.

Lemma assignProtocolIndex_allIndexed (i : Z) (ps : list Party) :
  allIndexed (assignProtocolIndex i ps).
Proof.
  revert i. induction ps as [|p ps IH]; intros i; cbn; constructor.
  - cbn. discriminate.
  - apply IH.
Qed.

Lemma findParty_registered (pid : string) (ps : list Party) :
  In pid (map partyId ps) ->
  exists p, findParty pid ps = Some p /\ In p ps /\ partyId p = pid.
Proof.
  unfold findParty. induction ps as [|q ps IH]; cbn; [intros []|].
  intros H. destruct (String.eqb (partyId q) pid) eqn:E.
  - apply String.eqb_eq in E. exists q. auto.
  - destruct H as [H|H]; [apply String.eqb_neq in E; contradiction|].
    destruct (IH H) as [p [Hf [Hin Hp]]]. exists p. auto.
Qed.

Lemma findParty_unregistered (pid : string) (ps : list Party) :
  ~ In pid (map partyId ps) -> findParty pid ps = None.
Proof.
  unfold findParty. intros H.
  destruct (find (fun p => String.eqb (partyId p) pid) ps) as [p|] eqn:E; [|reflexivity].
  apply find_some in E. destruct E as [Hin Heq]. apply String.eqb_eq in Heq.
  exfalso. apply H. rewrite <- Heq. apply in_map, Hin.
Qed.

Lemma protocolIndexOf_registered (pid : string) (ps : list Party) :
  allIndexed ps -> In pid (map partyId ps) -> exists idx, protocolIndexOf ps pid = Ok idx.
Proof.
  intros Hall Hin. unfold protocolIndexOf.
  destruct (findParty_registered pid ps Hin) as [p [-> [Hp _]]].
  unfold allIndexed in Hall. rewrite Forall_forall in Hall. specialize (Hall p Hp).
  destruct (protocolIndex p) as [idx|]; [exists idx; reflexivity | contradiction].
Qed.

Lemma registrationStep_ids (pid : string) (pk : SerializableBigInt) (ps : list Party) :
  Permutation
    (map partyId (registrationStep localeCompare sha256_readUInt16BE pid pk ps))
    (pid :: map partyId ps).
Proof.
  unfold registrationStep. rewrite assignProtocolIndex_ids.
  eapply perm_trans; [apply Permutation_map, Array_sort_perm|].
  rewrite map_app. cbn. apply Permutation_sym, Permutation_cons_append.
Qed.

Lemma registrationStep_allIndexed (pid : string) (pk : SerializableBigInt)
    (ps : list Party) :
  allIndexed (registrationStep localeCompare sha256_readUInt16BE pid pk ps).
Proof. apply assignProtocolIndex_allIndexed. Qed.

(** With a session open, [registerParty] returns, whatever the identifier. *)
Lemma registerParty_returns (pid : string) (pk : SerializableBigInt)
    (c : Coordinator VSSScheme) (s : KeyGenSession) :
  session c = Some s ->
  let ps := registrationStep localeCompare sha256_readUInt16BE pid pk (parties c) in
  exists idx,
    assignedIndex (set_parties (fun _ => ps) c) pid = Some idx
    /\ registerParty localeCompare sha256_readUInt16BE pid pk c
       = Returned (mkPartyRegistrationResponse idx (List.length ps))
           (set_parties (fun _ => ps) c).
Proof.
  intros Hs ps.
  assert (Hin : In pid (map partyId ps)).
  { eapply Permutation_in; [apply Permutation_sym, registrationStep_ids|].
    left. reflexivity. }
  destruct (findParty_registered _ _ Hin) as [p [Hf [Hp _]]].
  pose proof (registrationStep_allIndexed pid pk (parties c)) as Hall.
  unfold allIndexed in Hall. rewrite Forall_forall in Hall. specialize (Hall p Hp).
  destruct (protocolIndex p) as [idx|] eqn:Hidx; [|contradiction].
  exists idx. split.
  - unfold assignedIndex. cbn [parties set_parties]. rewrite Hf. exact Hidx.
  - unfold registerParty, bind, this, assign, ret, throw. rewrite Hs.
    cbn [parties set_parties]. subst ps. unfold registrationStep in *.
    rewrite Hf, Hidx. destruct c; reflexivity.
Qed.

Lemma registerParty_no_session (pid : string) (pk : SerializableBigInt)
    (c : Coordinator VSSScheme) :
  session c = None ->
  registerParty localeCompare sha256_readUInt16BE pid pk c
  = Thrown (mkError SessionError SessionNotInitialized) c.
Proof.
  intros Hs. unfold registerParty, bind, this, throw. rewrite Hs. reflexivity.
Qed.


End RegistrationLemmas.



(** ** Index assignment *)

Lemma filter_length_perm {A} (f : A -> bool) (l l' : list A) :
  Permutation l l' -> List.length (filter f l) = List.length (filter f l').
Proof.
  induction 1 as [|x l l' _ IH|x y l|l l' l'' _ IH1 _ IH2]; cbn.
  - reflexivity.
  - destruct (f x); cbn; congruence.
  - destruct (f x), (f y); reflexivity.
  - congruence.
Qed.

Section IndexAssignment.

Variable VSSScheme : Type.
Variable localeCompare : string -> string -> Z.
Variable sha256_readUInt16BE : string -> Z.

(** [localeCompare] is a consistent comparator: antisymmetric and
    transitive. Where identifiers are to be told apart, the statements
    also ask that it returns zero on two of them only when they are the
    same string. *)
Hypothesis compare_antisym :
  forall a b, Z.sgn (localeCompare b a) = - Z.sgn (localeCompare a b).
Hypothesis compare_trans :
  forall a b c, localeCompare a b <= 0 -> localeCompare b c <= 0 -> localeCompare a c <= 0.

Lemma compare_total (a b : string) : localeCompare a b <= 0 \/ localeCompare b a <= 0.
Proof. pose proof (compare_antisym a b). lia. Qed.

Lemma compare_refl (a : string) : localeCompare a a = 0.
Proof. pose proof (compare_antisym a a). lia. Qed.

Lemma rank_perm (pid : string) (ids ids' : list string) :
  Permutation ids ids' -> rank localeCompare pid ids = rank localeCompare pid ids'.
Proof. intros H. unfold rank. f_equal. apply filter_length_perm, H. Qed.

Lemma sorted_parties_ids (ps : list Party) :
  StronglySorted (fun a b => localeCompare a b <= 0)
    (map partyId (Array_sort (compareParties localeCompare) ps)).
Proof.
  assert (H : StronglySorted (fun p q => compareParties localeCompare p q <= 0)
                (Array_sort (compareParties localeCompare) ps)).
  { apply Array_sort_sorted.
    - intros p q. apply compare_total.
    - intros p q r. apply compare_trans. }
  induction H as [|p l _ IH Hp]; cbn; constructor.
  - exact IH.
  - apply Forall_map. exact Hp.
Qed.

Lemma none_before (a : string) (l : list string) :
  Forall (fun b => localeCompare a b <= 0) l ->
  filter (fun x => localeCompare x a <? 0) l = [].
Proof.
  induction 1 as [|x xs Hx _ IH]; [reflexivity|]. cbn.
  destruct (localeCompare x a <? 0) eqn:F; [|exact IH].
  apply Z.ltb_lt in F. pose proof (compare_antisym x a). lia.
Qed.

(** In a list sorted by identifier without repetition, indices handed out
    from [i] upwards give each party [i] plus its rank. *)
Lemma assigned_index_rank (pid : string) (ps : list Party) (i : Z) :
  StronglySorted (fun a b => localeCompare a b <= 0) (map partyId ps) ->
  NoDup (map partyId ps) ->
  (forall a b, In a (map partyId ps) -> In b (map partyId ps) ->
               localeCompare a b = 0 -> a = b) ->
  In pid (map partyId ps) ->
  exists p, findParty pid (assignProtocolIndex i ps) = Some p
            /\ protocolIndex p = Some (i + rank localeCompare pid (map partyId ps)).
Proof.
  revert i. induction ps as [|q ps IH]; intros i Hs Hnd Hsep Hin; [destruct Hin|].
  cbn [map] in *. inversion Hs as [|? ? Hs' Hq]; subst. inversion Hnd as [|? ? Hnq Hnd']; subst.
  unfold findParty. cbn [assignProtocolIndex find withProtocolIndex partyId].
  destruct (String.eqb (partyId q) pid) eqn:E.
  - apply String.eqb_eq in E. subst pid. eexists. split; [reflexivity|].
    cbn [protocolIndex]. unfold rank. cbn [filter].
    rewrite compare_refl. cbn.
    rewrite (none_before (partyId q) (map partyId ps) Hq). cbn. f_equal. lia.
  - apply String.eqb_neq in E. destruct Hin as [Hin|Hin]; [contradiction|].
    destruct (IH (i + 1) Hs' Hnd') as [p [Hf Hp]]; [|exact Hin|].
    { intros a b Ha Hb. apply Hsep; right; assumption. }
    exists p. split; [exact Hf|]. rewrite Hp. f_equal.
    unfold rank. cbn [filter].
    assert (Hlt : (localeCompare (partyId q) pid <? 0) = true).
    { apply Z.ltb_lt. rewrite Forall_forall in Hq. specialize (Hq pid Hin).
      destruct (Z.eq_dec (localeCompare (partyId q) pid) 0) as [H0|H0]; [|lia].
      apply Hsep in H0; [contradiction | left; reflexivity | right; exact Hin]. }
    rewrite Hlt. cbn [List.length]. lia.
Qed.

(** After any run of registrations that starts from an empty party list,
    the list is sorted by identifier and numbered from zero. *)
Lemma registerAll_returns (regs : list (string * SerializableBigInt))
    (c0 : Coordinator VSSScheme) (s : KeyGenSession) :
  session c0 = Some s ->
  (exists l0, parties c0 = assignProtocolIndex 0 l0
              /\ StronglySorted (fun a b => localeCompare a b <= 0) (map partyId l0)) ->
  exists c l,
    registerAll localeCompare sha256_readUInt16BE regs c0 = Returned tt c
    /\ session c = Some s
    /\ parties c = assignProtocolIndex 0 l
    /\ StronglySorted (fun a b => localeCompare a b <= 0) (map partyId l)
    /\ Permutation (map partyId l) (map fst regs ++ map partyId (parties c0)).
Proof.
  revert c0. induction regs as [|[pid pk] regs IH]; intros c0 Hs [l0 [Hl0 Hsorted]].
  - exists c0, l0. cbn. repeat split; try assumption.
    rewrite Hl0, assignProtocolIndex_ids. apply Permutation_refl.
  - destruct (registerParty_returns VSSScheme localeCompare sha256_readUInt16BE
                pid pk c0 s Hs) as [idx [_ Hret]].
    cbn [registerAll]. unfold bind at 1. rewrite Hret.
    edestruct (IH (set_parties (fun _ => registrationStep localeCompare
                     sha256_readUInt16BE pid pk (parties c0)) c0))
      as [c [l [Hrun [Hsess [Hps [Hsl Hperm]]]]]].
    + destruct c0; exact Hs.
    + eexists. split; [reflexivity|]. apply sorted_parties_ids.
    + exists c, l. split; [exact Hrun|]. split; [exact Hsess|]. split; [exact Hps|].
      split; [exact Hsl|].
      eapply perm_trans; [exact Hperm|]. cbn [parties set_parties map fst].
      eapply perm_trans;
        [apply Permutation_app_head, registrationStep_ids|].
      apply Permutation_sym. cbn. apply Permutation_middle.
Qed.

Lemma registerAll_assigns (regs : list (string * SerializableBigInt))
    (c0 : Coordinator VSSScheme) (s : KeyGenSession) :
  session c0 = Some s ->
  parties c0 = [] ->
  NoDup (map fst regs) ->
  (forall a b, In a (map fst regs) -> In b (map fst regs) ->
               localeCompare a b = 0 -> a = b) ->
  exists c,
    registerAll localeCompare sha256_readUInt16BE regs c0 = Returned tt c
    /\ (forall pid, In pid (map fst regs) ->
          assignedIndex c pid = Some (rank localeCompare pid (map fst regs)))
    /\ (forall pid, ~ In pid (map fst regs) -> assignedIndex c pid = None).
Proof.
  intros Hs Hempty Hnd Hsep.
  destruct (registerAll_returns regs c0 s Hs) as [c [l [Hrun [_ [Hps [Hsl Hperm]]]]]].
  { exists []. rewrite Hempty. split; [reflexivity | constructor]. }
  rewrite Hempty, app_nil_r in Hperm.
  exists c. split; [exact Hrun|]. unfold assignedIndex. rewrite Hps. split.
  - intros pid Hin.
    destruct (assigned_index_rank pid l 0 Hsl) as [p [Hf Hp]].
    + eapply Permutation_NoDup; [apply Permutation_sym, Hperm | exact Hnd].
    + intros a b Ha Hb. apply Hsep; eapply Permutation_in; eassumption.
    + eapply Permutation_in; [apply Permutation_sym, Hperm | exact Hin].
    + rewrite Hf, Hp. rewrite (rank_perm pid _ _ Hperm). f_equal.
  - intros pid Hout. rewrite findParty_unregistered; [reflexivity|].
    rewrite assignProtocolIndex_ids. intros Hin. apply Hout.
    eapply Permutation_in; [exact Hperm | exact Hin].
Qed.

(** C9 (as amended). For distinct party identifiers that [localeCompare]
    tells apart, registered from a fresh key generation session in
    whatever order the registrations arrive, all registrations return and
    each party's protocol index is the rank of its identifier among all
    registered identifiers in the order [localeCompare] computes; a run
    that registers the same identifiers in another order assigns the same
    indices. [localeCompare] is taken as a consistent comparison:
    antisymmetric and transitive. *)
Theorem registration_order_independent (regs : list (string * SerializableBigInt))
    (c0 : Coordinator VSSScheme) (s : KeyGenSession) :
  session c0 = Some s ->
  parties c0 = [] ->
  NoDup (map fst regs) ->
  (forall a b, In a (map fst regs) -> In b (map fst regs) ->
               localeCompare a b = 0 -> a = b) ->
  exists c,
    registerAll localeCompare sha256_readUInt16BE regs c0 = Returned tt c
    /\ (forall pid, In pid (map fst regs) ->
          assignedIndex c pid = Some (rank localeCompare pid (map fst regs)))
    /\ (forall regs',
          Permutation (map fst regs) (map fst regs') ->
          exists c2,
            registerAll localeCompare sha256_readUInt16BE regs' c0 = Returned tt c2
            /\ forall pid, assignedIndex c2 pid = assignedIndex c pid).
Proof.
  intros Hs Hempty Hnd Hsep.
  destruct (registerAll_assigns regs c0 s Hs Hempty Hnd Hsep) as [c [Hrun [Hin Hout]]].
  exists c. split; [exact Hrun|]. split; [exact Hin|].
  intros regs' Hperm.
  assert (Hnd' : NoDup (map fst regs')) by (eapply Permutation_NoDup; eassumption).
  assert (Hsep' : forall a b, In a (map fst regs') -> In b (map fst regs') ->
                              localeCompare a b = 0 -> a = b).
  { intros a b Ha Hb.
    apply Hsep; eapply Permutation_in; try eassumption; apply Permutation_sym, Hperm. }
  destruct (registerAll_assigns regs' c0 s Hs Hempty Hnd' Hsep')
    as [c2 [Hrun2 [Hin2 Hout2]]].
  exists c2. split; [exact Hrun2|]. intros pid.
  destruct (in_dec string_dec pid (map fst regs)) as [H|H].
  - rewrite (Hin pid H).
    rewrite (Hin2 pid (Permutation_in _ Hperm H)).
    rewrite (rank_perm pid _ _ Hperm). reflexivity.
  - rewrite (Hout pid H). apply Hout2. intros H'. apply H.
    eapply Permutation_in; [apply Permutation_sym, Hperm | exact H'].
Qed.

End IndexAssignment.

(** The code-unit order is an order of the kind the index assignment
    needs. *)
Lemma compareUnits_antisym (x y : list N) :
  compareUnits y x = CompOpp (compareUnits x y).
Proof.
  revert y. induction x as [|a x IH]; intros [|b y]; cbn; try reflexivity.
  rewrite (N.compare_antisym a b).
  destruct (a ?= b)%N; cbn; [apply IH | reflexivity | reflexivity].
Qed.

Lemma compareUnits_not_Gt_trans (x y z : list N) :
  compareUnits x y <> Gt -> compareUnits y z <> Gt -> compareUnits x z <> Gt.
Proof.
  revert y z. induction x as [|a x IH]; intros [|b y] [|c z]; cbn; try congruence.
  destruct (N.compare_spec a b) as [Eab|Lab|Gab];
    destruct (N.compare_spec b c) as [Ebc|Lbc|Gbc];
    try congruence; intros H1 H2.
  - rewrite Eab, Ebc, N.compare_refl. eapply IH; eassumption.
  - rewrite Eab. apply N.compare_lt_iff in Lbc. rewrite Lbc. discriminate.
  - rewrite <- Ebc. apply N.compare_lt_iff in Lab. rewrite Lab. discriminate.
  - assert (L : (a < c)%N) by lia.
    apply N.compare_lt_iff in L. rewrite L. discriminate.
Qed.

Lemma compareUnits_eq (x y : list N) : compareUnits x y = Eq -> x = y.
Proof.
  revert y. induction x as [|a x IH]; intros [|b y]; cbn; try discriminate.
  - reflexivity.
  - destruct (N.compare_spec a b) as [E|L|G]; try discriminate.
    intros H. rewrite E, (IH y H). reflexivity.
Qed.

Lemma codeUnitRank_inj (a b : N) : codeUnitRank a = codeUnitRank b -> a = b.
Proof.
  unfold codeUnitRank.
  destruct (240 <=? a)%N eqn:A1; destruct (a <=? 244)%N eqn:A2;
    destruct (238 <=? a)%N eqn:A3; destruct (a <=? 239)%N eqn:A4;
    destruct (240 <=? b)%N eqn:B1; destruct (b <=? 244)%N eqn:B2;
    destruct (238 <=? b)%N eqn:B3; destruct (b <=? 239)%N eqn:B4;
    cbn [andb];
    repeat match goal with
           | H : (_ <=? _)%N = true |- _ => apply N.leb_le in H
           | H : (_ <=? _)%N = false |- _ => apply N.leb_gt in H
           end;
    lia.
Qed.

Lemma codeUnitKey_inj (a b : string) : codeUnitKey a = codeUnitKey b -> a = b.
Proof.
  revert b. induction a as [|x a IH]; intros [|y b]; cbn; try discriminate.
  - reflexivity.
  - intros H. injection H as Hxy Hab. apply codeUnitRank_inj in Hxy.
    rewrite <- (ascii_N_embedding x), <- (ascii_N_embedding y), Hxy, (IH b Hab).
    reflexivity.
Qed.

Lemma ordinalCompare_antisym (a b : string) :
  Z.sgn (ordinalCompare b a) = - Z.sgn (ordinalCompare a b).
Proof.
  unfold ordinalCompare, stringSortCompare.
  rewrite (compareUnits_antisym (codeUnitKey a) (codeUnitKey b)).
  destruct (compareUnits (codeUnitKey a) (codeUnitKey b)); reflexivity.
Qed.

Lemma ordinalCompare_trans (a b c : string) :
  ordinalCompare a b <= 0 -> ordinalCompare b c <= 0 -> ordinalCompare a c <= 0.
Proof.
  unfold ordinalCompare, stringSortCompare. intros H1 H2.
  pose proof (compareUnits_not_Gt_trans (codeUnitKey a) (codeUnitKey b) (codeUnitKey c))
    as H.
  destruct (compareUnits (codeUnitKey a) (codeUnitKey b)),
    (compareUnits (codeUnitKey b) (codeUnitKey c)),
    (compareUnits (codeUnitKey a) (codeUnitKey c));
    try lia; exfalso; apply H; congruence.
Qed.

Lemma ordinalCompare_separates (a b : string) : ordinalCompare a b = 0 -> a = b.
Proof.
  unfold ordinalCompare, stringSortCompare. intros H.
  apply codeUnitKey_inj, compareUnits_eq.
  destruct (compareUnits (codeUnitKey a) (codeUnitKey b));
    [reflexivity | discriminate | discriminate].
Qed.

(** ** The order of the code units on UTF-8

    [stringSortCompare] compares the ranks of the UTF-8 bytes. On the
    UTF-8 form of any two sequences of Unicode scalar values this is the
    comparison of their UTF-16 code units, which is what JavaScript
    compares. *)

Ltac div_lia := zify; Z.to_euclidean_division_equations; lia.

Ltac decide_tests :=
  repeat match goal with
         | |- context [(?a <? ?b)%N] => destruct (N.ltb_spec a b)
         | |- context [(?a <=? ?b)%N] => destruct (N.leb_spec a b)
         end.

Ltac decide_comparisons :=
  repeat match goal with
         | |- context [(?a ?= ?b)%N] => destruct (N.compare_spec a b)
         end.

Lemma utf16Units_order (u v : N) (x y : list N) :
  scalarValue u -> scalarValue v ->
  compareUnits (utf16Units u ++ x) (utf16Units v ++ y)
  = match (unitOrderKey u ?= unitOrderKey v)%N with
    | Eq => compareUnits x y
    | Lt => Lt
    | Gt => Gt
    end.
Proof.
  intros Hu Hv. unfold utf16Units, unitOrderKey, scalarValue in *.
  decide_tests; cbn [app compareUnits]; decide_comparisons;
    try reflexivity; try (exfalso; div_lia).
Qed.

Lemma codeUnitRank_low (b : N) : (b < 238)%N -> codeUnitRank b = b.
Proof.
  intros H. unfold codeUnitRank.
  destruct (N.leb_spec 240 b); [lia|]. destruct (N.leb_spec 238 b); [lia|]. reflexivity.
Qed.

Lemma codeUnitRank_bmp (b : N) : (238 <= b <= 239)%N -> codeUnitRank b = (b + 5)%N.
Proof.
  intros H. unfold codeUnitRank.
  destruct (N.leb_spec 240 b); [lia|]. cbn [andb].
  destruct (N.leb_spec 238 b); [|lia]. destruct (N.leb_spec b 239); [|lia]. reflexivity.
Qed.

Lemma codeUnitRank_beyond (b : N) : (240 <= b <= 244)%N -> codeUnitRank b = (b - 2)%N.
Proof.
  intros H. unfold codeUnitRank.
  destruct (N.leb_spec 240 b); [|lia]. destruct (N.leb_spec b 244); [|lia]. reflexivity.
Qed.

Lemma rankedUtf8_spec (cp : N) :
  scalarValue cp -> map codeUnitRank (utf8Bytes cp) = rankedUtf8 cp.
Proof.
  intros H. unfold utf8Bytes, rankedUtf8, scalarValue in *.
  destruct (N.ltb_spec cp 128); [cbn; rewrite codeUnitRank_low by lia; reflexivity|].
  destruct (N.ltb_spec cp 2048).
  { cbn [map]. rewrite !codeUnitRank_low by div_lia. reflexivity. }
  destruct (N.ltb_spec cp 57344).
  { destruct (N.ltb_spec cp 65536); [|lia].
    cbn [map]. rewrite !codeUnitRank_low by div_lia. reflexivity. }
  destruct (N.ltb_spec cp 65536).
  { cbn [map]. rewrite (codeUnitRank_bmp (224 + cp / 4096)) by div_lia.
    rewrite !codeUnitRank_low by div_lia. f_equal. div_lia. }
  cbn [map]. rewrite (codeUnitRank_beyond (240 + cp / 262144)) by div_lia.
  rewrite !codeUnitRank_low by div_lia. f_equal. div_lia.
Qed.

Lemma base64_digits (u : N) :
  (u = 262144 * (u / 262144) + 4096 * ((u / 4096) mod 64) + 64 * ((u / 64) mod 64)
       + u mod 64
   /\ u / 64 = 4096 * (u / 262144) + 64 * ((u / 4096) mod 64) + (u / 64) mod 64
   /\ u / 4096 = 64 * (u / 262144) + (u / 4096) mod 64
   /\ u mod 64 < 64 /\ (u / 64) mod 64 < 64 /\ (u / 4096) mod 64 < 64)%N.
Proof. div_lia. Qed.

Ltac name_digits u :=
  let H := fresh "H" in
  pose proof (base64_digits u) as H;
  generalize dependent (u mod 64)%N; intros ?d0;
  generalize dependent ((u / 64) mod 64)%N; intros ?d1;
  generalize dependent ((u / 4096) mod 64)%N; intros ?d2;
  generalize dependent (u / 262144)%N; intros ?d3;
  generalize dependent (u / 4096)%N; intros ?q2;
  generalize dependent (u / 64)%N; intros ?q1;
  intros.

Lemma rankedUtf8_order (u v : N) (x y : list N) :
  scalarValue u -> scalarValue v ->
  compareUnits (rankedUtf8 u ++ x) (rankedUtf8 v ++ y)
  = match (unitOrderKey u ?= unitOrderKey v)%N with
    | Eq => compareUnits x y
    | Lt => Lt
    | Gt => Gt
    end.
Proof.
  intros Hu Hv. unfold rankedUtf8, unitOrderKey, scalarValue in *.
  name_digits u. name_digits v.
  decide_tests; cbn [app compareUnits]; decide_comparisons;
    try reflexivity; try (exfalso; lia).
Qed.

Lemma utf8Bytes_are_bytes (cp : N) :
  scalarValue cp -> Forall (fun b => (b < 256)%N) (utf8Bytes cp).
Proof.
  intros H. unfold utf8Bytes, scalarValue in *.
  decide_tests; repeat constructor; div_lia.
Qed.

Lemma codeUnitKey_bytes (l : list N) :
  Forall (fun b => (b < 256)%N) l -> codeUnitKey (stringOfBytes l) = map codeUnitRank l.
Proof.
  induction 1 as [|b l Hb _ IH]; cbn; [reflexivity|].
  rewrite (N_ascii_embedding b Hb), IH. reflexivity.
Qed.

(** Comparing the ranks of the UTF-8 bytes of two sequences of scalar
    values compares their UTF-16 code units. *)
Lemma codeUnitRank_orders_code_units (us vs : list N) :
  Forall scalarValue us -> Forall scalarValue vs ->
  compareUnits (map codeUnitRank (flat_map utf8Bytes us))
    (map codeUnitRank (flat_map utf8Bytes vs))
  = compareUnits (flat_map utf16Units us) (flat_map utf16Units vs).
Proof.
  intros Hus. revert vs. induction Hus as [|u us Hu _ IH]; intros vs Hvs.
  - destruct Hvs as [|v vs Hv _]; [reflexivity|].
    cbn [flat_map]. rewrite map_app, (rankedUtf8_spec v Hv).
    unfold rankedUtf8, utf16Units. decide_tests; reflexivity.
  - destruct Hvs as [|v vs Hv Hvs].
    + cbn [flat_map]. rewrite map_app, (rankedUtf8_spec u Hu).
      unfold rankedUtf8, utf16Units. decide_tests; reflexivity.
    + cbn [flat_map]. rewrite !map_app, (rankedUtf8_spec u Hu), (rankedUtf8_spec v Hv).
      rewrite (rankedUtf8_order u v _ _ Hu Hv), (utf16Units_order u v _ _ Hu Hv).
      rewrite (IH vs Hvs). reflexivity.
Qed.

(** On strings that are the UTF-8 form of scalar values, the comparison
    of the default sort is the comparison of the UTF-16 code units. *)
Lemma stringSortCompare_code_units (us vs : list N) :
  Forall scalarValue us -> Forall scalarValue vs ->
  stringSortCompare (utf8String us) (utf8String vs)
  = match compareUnits (flat_map utf16Units us) (flat_map utf16Units vs) with
    | Lt => -1
    | Eq => 0
    | Gt => 1
    end.
Proof.
  intros Hus Hvs. unfold stringSortCompare, utf8String.
  assert (Hbytes : forall l, Forall scalarValue l ->
                             Forall (fun b => (b < 256)%N) (flat_map utf8Bytes l)).
  { induction 1 as [|u l Hu _ IHl]; cbn [flat_map]; [constructor|].
    apply Forall_app. split; [apply utf8Bytes_are_bytes, Hu | exact IHl]. }
  rewrite !codeUnitKey_bytes by (apply Hbytes; assumption).
  rewrite (codeUnitRank_orders_code_units us vs Hus Hvs). reflexivity.
Qed.

Lemma registration_order_independent_witness :
  let c0 := stateAfter (startKeyGeneration 2 3 (newCoordinator unit)) in
  exists c c2,
    registerAll ordinalCompare scenarioDigest
      [("p2"%string, oneByte 12); ("p0"%string, oneByte 10); ("p1"%string, oneByte 11)] c0
    = Returned tt c
    /\ registerAll ordinalCompare scenarioDigest
         [("p0"%string, oneByte 10); ("p1"%string, oneByte 11); ("p2"%string, oneByte 12)] c0
       = Returned tt c2
    /\ assignedIndex c "p0" = Some 0
    /\ assignedIndex c "p1" = Some 1
    /\ assignedIndex c "p2" = Some 2
    /\ forall pid, assignedIndex c2 pid = assignedIndex c pid.
Proof.
  intros c0.
  destruct (registration_order_independent unit ordinalCompare scenarioDigest
              ordinalCompare_antisym ordinalCompare_trans
              [("p2"%string, oneByte 12); ("p0"%string, oneByte 10);
               ("p1"%string, oneByte 11)] c0 (mkKeyGenSession 2 3))
    as [c [Hrun [Hrank Horder]]].
  - reflexivity.
  - reflexivity.
  - repeat constructor; cbn; intuition discriminate.
  - intros a b _ _. apply ordinalCompare_separates.
  - destruct (Horder [("p0"%string, oneByte 10); ("p1"%string, oneByte 11);
                      ("p2"%string, oneByte 12)]) as [c2 [Hrun2 Hsame]].
    + apply (Permutation_cons_append ["p0"; "p1"]%string "p2"%string).
    + exists c, c2. split; [exact Hrun|]. split; [exact Hrun2|].
      split; [exact (Hrank "p0"%string (or_intror (or_introl eq_refl)))|].
      split; [exact (Hrank "p1"%string (or_intror (or_intror (or_introl eq_refl))))|].
      split; [exact (Hrank "p2"%string (or_introl eq_refl))|].
      exact Hsame.
Defined.

(** C9, the claim as stated fails in two ways. [localeCompare] returns 0
    on the two spellings of one accented letter, which are distinct
    identifiers: the stable sort leaves them in their order of arrival,
    so that the index of each depends on which of them registered first.
    And the order of [localeCompare] is not the order of the code units:
    it puts [a] before [B], so that [B] receives the index 1 where its
    rank by code units is 0. *)
Lemma registration_order_decides_equivalent_ids :
  let c0 := stateAfter (startKeyGeneration 2 2 (newCoordinator unit)) in
  composedId <> decomposedId
  /\ collationCompare composedId decomposedId = 0
  /\ (exists c1 c2,
        registerAll collationCompare scenarioDigest
          [(composedId, oneByte 10); (decomposedId, oneByte 11)] c0 = Returned tt c1
        /\ registerAll collationCompare scenarioDigest
             [(decomposedId, oneByte 11); (composedId, oneByte 10)] c0 = Returned tt c2
        /\ assignedIndex c1 composedId = Some 0
        /\ assignedIndex c1 decomposedId = Some 1
        /\ assignedIndex c2 composedId = Some 1
        /\ assignedIndex c2 decomposedId = Some 0)
  /\ (exists c,
        registerAll collationCompare scenarioDigest
          [("B"%string, oneByte 10); ("a"%string, oneByte 11)] c0 = Returned tt c
        /\ assignedIndex c "a" = Some 0
        /\ assignedIndex c "B" = Some 1
        /\ rank stringSortCompare "B" ["B"; "a"]%string = 0).
Proof.
  intros c0. split; [discriminate|]. split; [reflexivity|]. split.
  - exists (stateAfter (registerAll collationCompare scenarioDigest
                         [(composedId, oneByte 10); (decomposedId, oneByte 11)] c0)),
           (stateAfter (registerAll collationCompare scenarioDigest
                         [(decomposedId, oneByte 11); (composedId, oneByte 10)] c0)).
    repeat split; vm_compute; reflexivity.
  - exists (stateAfter (registerAll collationCompare scenarioDigest
                         [("B"%string, oneByte 10); ("a"%string, oneByte 11)] c0)).
    repeat split; vm_compute; reflexivity.
Qed.

(** ** Shared keys *)

Lemma normalizeBytesToBuffer_bytes (obj : SerializableBigInt) :
  normalizeBytesToBuffer obj = mkBytes (BufferBytes (toBuffer (bytes obj))).
Proof. destruct obj as [[l|l]]; reflexivity. Qed.

Lemma serializeForHttp_bytes (obj : SerializableBigInt) :
  serializeForHttp obj = mkBytes (ArrayBytes (Array_from (bytes obj))).
Proof. destruct obj as [[l|l]]; reflexivity. Qed.

Section SharedKeyCollection.

Variable VSSScheme : Type.
Variable localeCompare : string -> string -> Z.

Lemma collectSharedKeys_empty (c : Coordinator VSSScheme) :
  collectSharedKeys localeCompare [] c
  = Thrown (mkError ValidationError NoSharedKeysProvided) (set_sharedKeys [] c).
Proof. destruct c; reflexivity. Qed.

Lemma collectSharedKeys_first (input : list PartySharedKey) (c : Coordinator VSSScheme)
    (first : PartySharedKey) (rest : list PartySharedKey) :
  Array_sort (byPartyId localeCompare psk_partyId) input = first :: rest ->
  exists r c',
    collectSharedKeys localeCompare input c = Returned r c'
    /\ skr_aggregatePublicKey r
       = mkBytes (ArrayBytes (toBuffer (bytes (y (psk_sharedKey first)))))
    /\ aggregatePublicKey c'
       = Some (mkBytes (BufferBytes (toBuffer (bytes (y (psk_sharedKey first)))))).
Proof.
  intros Hsort.
  unfold collectSharedKeys, bind, assign, this, call, ret. rewrite Hsort.
  cbn [map sharedKeys set_sharedKeys MPCClient_aggregateKey agg_aggregatePublicKey
       normalizeSharedKey y].
  eexists; eexists. split; [reflexivity|].
  cbn [skr_aggregatePublicKey aggregatePublicKey set_aggregatePublicKey].
  rewrite normalizeBytesToBuffer_bytes, serializeForHttp_bytes. split; reflexivity.
Qed.

(** C1 (as amended). [collectSharedKeys] does not compare the joint public
    keys the parties report. Every call with at least one report
    returns, and the aggregate key it returns and stores is the [y] of
    the report that sorts first by party identifier; hence when all
    reported [y] agree, it is that common value. *)
Theorem collectSharedKeys_returns_first_report (input : list PartySharedKey)
    (c : Coordinator VSSScheme) :
  input <> [] ->
  exists first r c',
    In first input
    /\ head (Array_sort (byPartyId localeCompare psk_partyId) input) = Some first
    /\ collectSharedKeys localeCompare input c = Returned r c'
    /\ skr_aggregatePublicKey r
       = mkBytes (ArrayBytes (toBuffer (bytes (y (psk_sharedKey first)))))
    /\ aggregatePublicKey c'
       = Some (mkBytes (BufferBytes (toBuffer (bytes (y (psk_sharedKey first))))))
    /\ (forall Y,
          Forall (fun p => toBuffer (bytes (y (psk_sharedKey p))) = Y) input ->
          skr_aggregatePublicKey r = mkBytes (ArrayBytes Y)
          /\ aggregatePublicKey c' = Some (mkBytes (BufferBytes Y))).
Proof.
  intros Hne.
  destruct (Array_sort (byPartyId localeCompare psk_partyId) input)
    as [|first rest] eqn:Hsort.
  - exfalso. eapply Array_sort_nonempty; eassumption.
  - destruct (collectSharedKeys_first input c first rest Hsort) as [r [c' [Hret [Hr Hc]]]].
    assert (Hin : In first input).
    { eapply Permutation_in; [apply (Array_sort_perm (byPartyId localeCompare psk_partyId))|].
      rewrite Hsort. left. reflexivity. }
    exists first, r, c'. repeat split; try assumption.
    + rewrite Hr. rewrite Forall_forall in H. rewrite (H first Hin). reflexivity.
    + rewrite Hc. rewrite Forall_forall in H. rewrite (H first Hin). reflexivity.
Qed.

End SharedKeyCollection.

Lemma collectSharedKeys_returns_first_report_witness :
  exists r c',
    collectSharedKeys ordinalCompare agreeingReports scenarioA = Returned r c'
    /\ skr_aggregatePublicKey r = mkBytes (ArrayBytes [100])
    /\ aggregatePublicKey c' = Some (mkBytes (BufferBytes [100])).
Proof.
  destruct (collectSharedKeys_returns_first_report unit ordinalCompare agreeingReports
              scenarioA) as [first [r [c' [_ [_ [Hret [_ [_ Hall]]]]]]]].
  - discriminate.
  - exists r, c'. split; [exact Hret|]. apply Hall. repeat constructor.
Defined.

(** C1, the claim as stated fails: in [mismatchingReports] party [p1]
    reports a joint public key different from the one [p0] reports, and
    the call returns the key of [p0] as the aggregate key. *)
Lemma collectSharedKeys_accepts_mismatch :
  (exists p q, In p mismatchingReports /\ In q mismatchingReports
               /\ toBuffer (bytes (y (psk_sharedKey p)))
                  <> toBuffer (bytes (y (psk_sharedKey q))))
  /\ exists r c',
      collectSharedKeys ordinalCompare mismatchingReports scenarioA = Returned r c'
      /\ skr_aggregatePublicKey r = oneByte 100
      /\ aggregatePublicKey c' = Some (mkBytes (BufferBytes [100])).
Proof.
  split.
  - exists (mkPartySharedKey "p1" (mkSharedKey (oneByte 200) (oneByte 21) None)),
           (mkPartySharedKey "p0" (mkSharedKey (oneByte 100) (oneByte 20) None)).
    split; [left; reflexivity|]. split; [right; left; reflexivity|].
    cbn. discriminate.
  - exists (mkSharedKeysResponse (oneByte 100) "64"
              (map serializeSharedKey
                 (map (fun sk => normalizeSharedKey (psk_sharedKey sk))
                    (Array_sort (byPartyId ordinalCompare psk_partyId) mismatchingReports)))),
           (stateAfter (collectSharedKeys ordinalCompare mismatchingReports scenarioA)).
    split; [vm_compute; reflexivity|]. split; vm_compute; reflexivity.
Qed.

(** ** Signing sessions *)

Lemma protocolIndexOf_assigned (VSSScheme : Type) (c : Coordinator VSSScheme)
    (pid : string) (idx : Z) :
  protocolIndexOf (parties c) pid = Ok idx <-> assignedIndex c pid = Some idx.
Proof.
  unfold protocolIndexOf, assignedIndex.
  destruct (findParty pid (parties c)) as [p|]; [destruct (protocolIndex p)|];
    split; intros H; try discriminate; injection H as ->; reflexivity.
Qed.

Section SigningSessions.

Variable VSSScheme : Type.

Lemma startSigning_no_session (msg : Message) (ids : list string)
    (c : Coordinator VSSScheme) :
  session c = None ->
  startSigning msg ids c = Thrown (mkError StateError KeyGenerationNotCompleted) c.
Proof. intros Hs. unfold startSigning, bind, this, throw. rewrite Hs. reflexivity. Qed.

Lemma startSigning_too_few (msg : Message) (ids : list string)
    (c : Coordinator VSSScheme) (s : KeyGenSession) :
  session c = Some s ->
  Z.of_nat (List.length ids) < threshold s ->
  startSigning msg ids c
  = Thrown (mkError ValidationError
              (NeedAtLeastSigners (threshold s) (Z.of_nat (List.length ids)))) c.
Proof.
  intros Hs Hlt. unfold startSigning, bind, this, call. rewrite Hs.
  rewrite (proj2 (Z.ltb_lt _ _) Hlt).
  rewrite (validateSigningParties_below _ _ _ Hlt). reflexivity.
Qed.

(** Past the threshold check, the outcome is decided by the lookup of the
    identifiers alone. *)
Lemma startSigning_enough (msg : Message) (ids : list string)
    (c : Coordinator VSSScheme) (s : KeyGenSession) :
  session c = Some s ->
  threshold s <= Z.of_nat (List.length ids) ->
  startSigning msg ids c
  = let signing := mkSigningSession (normalizeMessage msg) (defaultSortStrings ids) in
    match mapResult (protocolIndexOf (parties c)) (defaultSortStrings ids) with
    | Ok indices =>
        Returned (mkSigningResponse (normalizeMessage msg) (defaultSortNumbers indices))
          (set_signingPartyIndices (defaultSortNumbers indices)
             (set_signingSession signing c))
    | Fail e => Thrown e (set_signingSession signing c)
    end.
Proof.
  intros Hs Hge. unfold startSigning, bind, this, call, assign, ret. rewrite Hs.
  rewrite (proj2 (Z.ltb_ge _ _) Hge). cbn zeta.
  destruct (mapResult (protocolIndexOf (parties c)) (defaultSortStrings ids)); reflexivity.
Qed.

Lemma startSigning_returns (msg : Message) (ids : list string)
    (c : Coordinator VSSScheme) (s : KeyGenSession) :
  session c = Some s ->
  threshold s <= Z.of_nat (List.length ids) ->
  allIndexed (parties c) ->
  Forall (registered c) ids ->
  exists indices,
    mapResult (protocolIndexOf (parties c)) (defaultSortStrings ids) = Ok indices
    /\ List.length indices = List.length ids
    /\ startSigning msg ids c
       = Returned (mkSigningResponse (normalizeMessage msg) (defaultSortNumbers indices))
           (set_signingPartyIndices (defaultSortNumbers indices)
              (set_signingSession
                 (mkSigningSession (normalizeMessage msg) (defaultSortStrings ids)) c)).
Proof.
  intros Hs Hge Hall Hreg.
  destruct (mapResult_all_ok (protocolIndexOf (parties c)) (defaultSortStrings ids))
    as [indices [Hmap Hlen]].
  { eapply Permutation_Forall;
      [apply Permutation_sym, (Array_sort_perm stringSortCompare)|].
    eapply Forall_impl; [|exact Hreg]. intros pid Hpid.
    apply protocolIndexOf_registered; assumption. }
  exists indices. split; [exact Hmap|]. split.
  - rewrite Hlen. apply Array_sort_length.
  - rewrite (startSigning_enough msg ids c s Hs Hge). cbn zeta. rewrite Hmap. reflexivity.
Qed.


(** C10. [startSigning] never raises the error for more signing parties
    than total parties: [validateSigningParties] runs only when the count
    is below the threshold, where its first check throws. Every call with
    at least [threshold] registered identifiers returns, however long
    the list is and whether or not it repeats identifiers. *)
Theorem startSigning_never_too_many (msg : Message) (ids : list string)
    (c : Coordinator VSSScheme) :
  (forall e c' k n,
     startSigning msg ids c = Thrown e c' -> errMessage e <> MoreSignersThanParties k n)
  /\ (forall s,
        session c = Some s ->
        allIndexed (parties c) ->
        threshold s <= Z.of_nat (List.length ids) ->
        Forall (registered c) ids ->
        returned (startSigning msg ids c) = true).
Proof.
  split.
  - intros e c' k n Hthrow.
    destruct (session c) as [s|] eqn:Hs.
    + destruct (Z_lt_ge_dec (Z.of_nat (List.length ids)) (threshold s)) as [Hlt|Hge].
      * rewrite (startSigning_too_few msg ids c s Hs Hlt) in Hthrow.
        injection Hthrow as <- _. discriminate.
      * rewrite (startSigning_enough msg ids c s Hs) in Hthrow by lia. cbn zeta in Hthrow.
        destruct (mapResult (protocolIndexOf (parties c)) (defaultSortStrings ids))
          as [indices|e'] eqn:Hmap; [discriminate|].
        injection Hthrow as <- _.
        destruct (mapResult_fail _ _ _ Hmap) as [pid [_ Hpid]].
        unfold protocolIndexOf in Hpid.
        destruct (findParty pid (parties c)) as [p|];
          [destruct (protocolIndex p)|]; try discriminate;
          injection Hpid as <-; discriminate.
    + rewrite (startSigning_no_session msg ids c Hs) in Hthrow.
      injection Hthrow as <- _. discriminate.
  - intros s Hs Hall Hge Hreg.
    destruct (startSigning_returns msg ids c s Hs Hge Hall Hreg) as [indices [_ [_ Hret]]].
    rewrite Hret. reflexivity.
Qed.

End SigningSessions.

Lemma scenarioA_allIndexed : allIndexed (parties scenarioA).
Proof. repeat constructor; discriminate. Qed.


Lemma startSigning_never_too_many_witness :
  errMessage (mkError ValidationError (NeedAtLeastSigners 2 1)) <> MoreSignersThanParties 1 3
  /\ returned (startSigning (MsgString "hi") ["p1"; "p0"; "p1"; "p2"; "p0"]%string scenarioA)
     = true.
Proof.
  split.
  - apply (proj1 (startSigning_never_too_many unit (MsgString "hi") ["p0"%string] scenarioA)
             (mkError ValidationError (NeedAtLeastSigners 2 1)) scenarioA 1 3).
    vm_compute. reflexivity.
  - apply (proj2 (startSigning_never_too_many unit (MsgString "hi")
                    ["p1"; "p0"; "p1"; "p2"; "p0"]%string scenarioA)
             (mkKeyGenSession 2 3) eq_refl scenarioA_allIndexed).
    + cbn. lia.
    + repeat constructor; cbn; tauto.
Defined.

(** C2, on the code: the indices are sorted by [sort()] without a
    comparator, which orders numbers by their decimal text. In scenario B
    the parties [p02] and [p10] hold the indices 2 and 10, and the signing
    subset returned for them is [10, 2]: its first element is greater than
    the next. *)
Theorem startSigning_sorts_indices_as_text :
  assignedIndex scenarioB "p02" = Some 2
  /\ assignedIndex scenarioB "p10" = Some 10
  /\ exists c',
      startSigning (MsgString "hi") ["p02"; "p10"]%string scenarioB
      = Returned (mkSigningResponse [104; 105] [10; 2]) c'
      /\ signingPartyIndices c' = Some [10; 2].
Proof.
  split; [vm_compute; reflexivity|]. split; [vm_compute; reflexivity|].
  exists (stateAfter (startSigning (MsgString "hi") ["p02"; "p10"]%string scenarioB)).
  split; vm_compute; reflexivity.
Qed.

(** ** The party list between calls

    Every state the coordinator reaches from [newCoordinator] has all its
    parties indexed: the two methods that write the party list leave it so,
    and the other methods do not write it. *)

Lemma newCoordinator_allIndexed (VSSScheme : Type) :
  allIndexed (parties (newCoordinator VSSScheme)).
Proof. constructor. Qed.

Lemma startKeyGeneration_allIndexed (VSSScheme : Type) (t n : Z)
    (c : Coordinator VSSScheme) :
  allIndexed (parties c) ->
  allIndexed (parties (stateAfter (startKeyGeneration t n c))).
Proof.
  intros H. unfold startKeyGeneration, bind, call, assign, ret.
  destruct (validateThreshold t (Some n)); cbn; [constructor | exact H].
Qed.

Lemma registerParty_allIndexed (VSSScheme : Type) (localeCompare : string -> string -> Z)
    (sha256_readUInt16BE : string -> Z) (pid : string) (pk : SerializableBigInt)
    (c : Coordinator VSSScheme) :
  allIndexed (parties c) ->
  allIndexed (parties (stateAfter (registerParty localeCompare sha256_readUInt16BE pid pk c))).
Proof.
  intros H. destruct (session c) as [s|] eqn:Hs.
  - destruct (registerParty_returns VSSScheme localeCompare sha256_readUInt16BE
                pid pk c s Hs) as [idx [_ Hret]].
    rewrite Hret. cbn. apply registrationStep_allIndexed.
  - rewrite (registerParty_no_session VSSScheme localeCompare sha256_readUInt16BE
               pid pk c Hs). exact H.
Qed.

Lemma collectSharedKeys_parties (VSSScheme : Type) (localeCompare : string -> string -> Z)
    (input : list PartySharedKey) (c : Coordinator VSSScheme) :
  parties (stateAfter (collectSharedKeys localeCompare input c)) = parties c.
Proof.
  unfold collectSharedKeys, bind, assign, this, call, ret.
  cbn [sharedKeys set_sharedKeys].
  destruct (MPCClient_aggregateKey _); reflexivity.
Qed.

Lemma startSigning_parties (VSSScheme : Type) (msg : Message) (ids : list string)
    (c : Coordinator VSSScheme) :
  parties (stateAfter (startSigning msg ids c)) = parties c.
Proof.
  destruct (session c) as [s|] eqn:Hs.
  - destruct (Z_lt_ge_dec (Z.of_nat (List.length ids)) (threshold s)) as [Hlt|Hge].
    + rewrite (startSigning_too_few VSSScheme msg ids c s Hs Hlt). reflexivity.
    + rewrite (startSigning_enough VSSScheme msg ids c s Hs) by lia. cbn zeta.
      destruct (mapResult _ _); reflexivity.
  - rewrite (startSigning_no_session VSSScheme msg ids c Hs). reflexivity.
Qed.

Lemma collectLocalSignatures_parties (VSSScheme VssSum : Type)
    (localeCompare : string -> string -> Z)
    (verifyLocalSigs :
       list LocalSignature -> list Z -> list VSSScheme -> list VSSScheme -> Result VssSum)
    (generateSignature :
       VssSum -> list LocalSignature -> list Z -> SerializableBigInt -> Result Signature)
    (verifySignature : SignaturePair -> list Z -> PublicKey -> Result bool)
    (sigs : list PartyLocalSig) (c : Coordinator VSSScheme) :
  parties (stateAfter (collectLocalSignatures localeCompare verifyLocalSigs
                         generateSignature verifySignature sigs c)) = parties c.
Proof.
  unfold collectLocalSignatures, bind, this, call, assign, ret, throw.
  destruct (signingPartyIndices c) as [indices|]; [|reflexivity].
  destruct (signingSession c) as [signing|]; [|reflexivity].
  destruct (allEphVssSchemes c) as [ephVss|]; [|reflexivity].
  destruct (ephSharedKeys c) as [ephKeys|]; [|reflexivity].
  destruct (aggregatePublicKey c) as [aggregateKey|]; [|reflexivity].
  destruct (MPCClient_verifyLocalSignatures _ _ _ _ _) as [vssSum|e]; [|reflexivity].
  destruct (normalizeFirstAggregateR ephKeys) as [|firstEphKey rest]; [reflexivity|].
  destruct (orElse (eph_r firstEphKey) (eph_R firstEphKey)) as [aggregateR|];
    [|reflexivity].
  destruct (MPCClient_aggregateSignature _ _ _ _ _) as [signature|e]; [|reflexivity].
  destruct (MPCClient_verifySignature _ _ _ _) as [valid|e]; [|reflexivity].
  destruct (orElse (sig_r signature) (sig_R signature)) as [sigR|]; [|reflexivity].
  destruct (orElse (sig_s signature) (sig_S signature)) as [sigS|]; reflexivity.
Qed.

(** ** The message of a signing session *)

Section SignedMessage.

Variable VSSScheme : Type.
Variable KeyStore : Type.
Variable thresholdSig_ephemeralKeyCreate :
  string -> list Z -> Z -> KeyStore -> Result (string * KeyStore).
Variable thresholdSig_getEphemeralR : string -> KeyStore -> Result SerializableBigInt.

(** A signing session that opens stores the normalised message. *)
Lemma startSigning_stores_message (msg : Message) (ids : list string)
    (c c' : Coordinator VSSScheme) (r : SigningResponse) :
  startSigning msg ids c = Returned r c' ->
  sr_message r = normalizeMessage msg
  /\ option_map message (signingSession c') = Some (normalizeMessage msg).
Proof.
  intros Hret. destruct (session c) as [s|] eqn:Hs.
  - destruct (Z_lt_ge_dec (Z.of_nat (List.length ids)) (threshold s)) as [Hlt|Hge].
    + rewrite (startSigning_too_few VSSScheme msg ids c s Hs Hlt) in Hret. discriminate.
    + rewrite (startSigning_enough VSSScheme msg ids c s Hs) in Hret by lia.
      cbn zeta in Hret.
      destruct (mapResult (protocolIndexOf (parties c)) (defaultSortStrings ids));
        [|discriminate].
      injection Hret as <- <-. split; reflexivity.
  - rewrite (startSigning_no_session VSSScheme msg ids c Hs) in Hret. discriminate.
Qed.

(** An agent that holds a key hands the normalised message to the native
    key creation, which derives the nonce from it. *)
Lemma createEphemeralKey_feeds_message (msg : Message) (partyIndex : Z)
    (svc : MPCService) (store : KeyStore) (kid : string) :
  keyId svc = Some kid ->
  kid <> EmptyString ->
  MPCService_createEphemeralKey thresholdSig_ephemeralKeyCreate
    thresholdSig_getEphemeralR msg partyIndex (svc, store)
  = onStore KeyStore
      (MPCClient_createEphemeralKey thresholdSig_ephemeralKeyCreate
         thresholdSig_getEphemeralR kid (normalizeMessage msg) partyIndex)
      (svc, store).
Proof.
  intros Hk Hne. unfold MPCService_createEphemeralKey, bind, this, ret. cbn [fst snd].
  rewrite Hk. destruct kid as [|ch kid]; [contradiction|].
  cbn [missingKeyId keyIdText]. unfold onStore. cbn [fst snd Array_from].
  destruct (MPCClient_createEphemeralKey _ _ _ _ _ _) as [[eid R] store'|e store'];
    reflexivity.
Qed.

(** An agent whose key identifier is missing or empty is refused before
    the message is looked at. *)
Lemma createEphemeralKey_without_key (msg : Message) (partyIndex : Z)
    (svc : MPCService) (store : KeyStore) :
  keyId svc = None \/ keyId svc = Some EmptyString ->
  MPCService_createEphemeralKey thresholdSig_ephemeralKeyCreate
    thresholdSig_getEphemeralR msg partyIndex (svc, store)
  = Thrown (mkError ServiceError ServiceNotInitialized) (svc, store).
Proof.
  intros [Hk|Hk]; unfold MPCService_createEphemeralKey, bind, this, throw;
    cbn [fst snd]; rewrite Hk; reflexivity.
Qed.

(** C6 (as amended). For the empty [Buffer] and the empty number array,
    the message stored for the signing session and handed to the nonce
    derivation is the empty byte sequence. For the empty string it is
    the seven bytes of the text [default]. The agent hands the message to
    the nonce derivation when it holds a key identifier that is not
    empty. *)
Theorem empty_message_normalisation :
  (forall ids (c c' : Coordinator VSSScheme) r,
     startSigning (MsgBuffer []) ids c = Returned r c' ->
     sr_message r = [] /\ option_map message (signingSession c') = Some [])
  /\ (forall ids (c c' : Coordinator VSSScheme) r,
        startSigning (MsgArray []) ids c = Returned r c' ->
        sr_message r = [] /\ option_map message (signingSession c') = Some [])
  /\ (forall ids (c c' : Coordinator VSSScheme) r,
        startSigning (MsgString "") ids c = Returned r c' ->
        sr_message r = [100; 101; 102; 97; 117; 108; 116]
        /\ option_map message (signingSession c')
           = Some [100; 101; 102; 97; 117; 108; 116])
  /\ (forall partyIndex svc (store : KeyStore) kid,
        keyId svc = Some kid ->
        kid <> EmptyString ->
        MPCService_createEphemeralKey thresholdSig_ephemeralKeyCreate
          thresholdSig_getEphemeralR (MsgBuffer []) partyIndex (svc, store)
        = onStore KeyStore
            (MPCClient_createEphemeralKey thresholdSig_ephemeralKeyCreate
               thresholdSig_getEphemeralR kid [] partyIndex) (svc, store)
        /\ MPCService_createEphemeralKey thresholdSig_ephemeralKeyCreate
             thresholdSig_getEphemeralR (MsgArray []) partyIndex (svc, store)
           = onStore KeyStore
               (MPCClient_createEphemeralKey thresholdSig_ephemeralKeyCreate
                  thresholdSig_getEphemeralR kid [] partyIndex) (svc, store)
        /\ MPCService_createEphemeralKey thresholdSig_ephemeralKeyCreate
             thresholdSig_getEphemeralR (MsgString "") partyIndex (svc, store)
           = onStore KeyStore
               (MPCClient_createEphemeralKey thresholdSig_ephemeralKeyCreate
                  thresholdSig_getEphemeralR kid [100; 101; 102; 97; 117; 108; 116]
                  partyIndex) (svc, store)).
Proof.
  split; [|split; [|split]].
  - intros ids c c' r H. exact (startSigning_stores_message _ _ _ _ _ H).
  - intros ids c c' r H. exact (startSigning_stores_message _ _ _ _ _ H).
  - intros ids c c' r H. exact (startSigning_stores_message _ _ _ _ _ H).
  - intros partyIndex svc store kid Hk Hne.
    split; [|split]; exact (createEphemeralKey_feeds_message _ _ _ _ _ Hk Hne).
Qed.

End SignedMessage.

Lemma empty_message_normalisation_witness :
  (exists r c',
     startSigning (MsgBuffer []) ["p0"; "p1"]%string scenarioA = Returned r c'
     /\ sr_message r = []
     /\ option_map message (signingSession c') = Some [])
  /\ (exists r c',
        startSigning (MsgArray []) ["p0"; "p1"]%string scenarioA = Returned r c'
        /\ sr_message r = []
        /\ option_map message (signingSession c') = Some [])
  /\ (exists r c',
        startSigning (MsgString "") ["p0"; "p1"]%string scenarioA = Returned r c'
        /\ sr_message r = [100; 101; 102; 97; 117; 108; 116]
        /\ option_map message (signingSession c') = Some [100; 101; 102; 97; 117; 108; 116])
  /\ MPCService_createEphemeralKey counterEphemeralKeyCreate counterGetEphemeralR
       (MsgString "") 0 registeredAgent
     = onStore nat
         (MPCClient_createEphemeralKey counterEphemeralKeyCreate counterGetEphemeralR
            "key-0" [100; 101; 102; 97; 117; 108; 116] 0) registeredAgent.
Proof.
  pose proof (empty_message_normalisation unit nat counterEphemeralKeyCreate
                counterGetEphemeralR) as [Hbuffer [Harray [Hstring Hagent]]].
  split; [|split; [|split]].
  - exists (mkSigningResponse [] [0; 1]),
           (stateAfter (startSigning (MsgBuffer []) ["p0"; "p1"]%string scenarioA)).
    split; [vm_compute; reflexivity|].
    apply (Hbuffer ["p0"; "p1"]%string scenarioA). vm_compute. reflexivity.
  - exists (mkSigningResponse [] [0; 1]),
           (stateAfter (startSigning (MsgArray []) ["p0"; "p1"]%string scenarioA)).
    split; [vm_compute; reflexivity|].
    apply (Harray ["p0"; "p1"]%string scenarioA). vm_compute. reflexivity.
  - exists (mkSigningResponse [100; 101; 102; 97; 117; 108; 116] [0; 1]),
           (stateAfter (startSigning (MsgString "") ["p0"; "p1"]%string scenarioA)).
    split; [vm_compute; reflexivity|].
    apply (Hstring ["p0"; "p1"]%string scenarioA). vm_compute. reflexivity.
  - apply (Hagent 0 (fst registeredAgent) (snd registeredAgent) "key-0"%string eq_refl).
    discriminate.
Defined.

(** C6, the claim as stated fails for the empty string: the message stored
    for the signing session is the text [default], not the empty byte
    sequence. *)
Lemma startSigning_empty_string_is_replaced :
  exists r c',
    startSigning (MsgString "") ["p0"; "p1"]%string scenarioA = Returned r c'
    /\ sr_message r = [100; 101; 102; 97; 117; 108; 116]
    /\ option_map message (signingSession c') = Some [100; 101; 102; 97; 117; 108; 116]
    /\ sr_message r <> [].
Proof.
  exists (mkSigningResponse [100; 101; 102; 97; 117; 108; 116] [0; 1]),
         (stateAfter (startSigning (MsgString "") ["p0"; "p1"]%string scenarioA)).
  split; [vm_compute; reflexivity|]. split; [reflexivity|].
  split; [vm_compute; reflexivity|]. cbn. discriminate.
Qed.

(** ** The final signature *)

Section FinalSignature.

Variables VSSScheme VssSum : Type.
Variable localeCompare : string -> string -> Z.
Variable thresholdSig_verifyLocalSigs :
  list LocalSignature -> list Z -> list VSSScheme -> list VSSScheme -> Result VssSum.
Variable thresholdSig_generateSignature :
  VssSum -> list LocalSignature -> list Z -> SerializableBigInt -> Result Signature.
Variable thresholdSig_verifySignature :
  SignaturePair -> list Z -> PublicKey -> Result bool.

(** C5. A call of [collectLocalSignatures] that returns has verified the
    aggregated signature [(r, s)], the one the native aggregation
    produced, against the message stored for the signing session and the
    stored aggregate public key; the [isValid] flag it returns is the
    result of that verification, and it is returned together with the
    signature. *)
Theorem collectLocalSignatures_verifies (partyLocalSigs : list PartyLocalSig)
    (c c' : Coordinator VSSScheme) (result : SignatureResult) :
  collectLocalSignatures localeCompare thresholdSig_verifyLocalSigs
    thresholdSig_generateSignature thresholdSig_verifySignature partyLocalSigs c
  = Returned result c' ->
  exists signing aggregateKey signature sigR sigS,
    signingSession c = Some signing
    /\ aggregatePublicKey c = Some aggregateKey
    /\ (exists vssSum localSigs indices aggregateR,
          thresholdSig_generateSignature vssSum localSigs indices aggregateR
          = Ok signature)
    /\ sig_r signature = Some sigR
    /\ sig_s signature = Some sigS
    /\ thresholdSig_verifySignature
         (mkSignaturePair (mkBytes (ArrayBytes (Array_from (bytes sigR))))
                          (mkBytes (ArrayBytes (Array_from (bytes sigS)))))
         (message signing)
         (mkBytes (ArrayBytes (Array_from (bytes aggregateKey))))
       = Ok (isValid result)
    /\ res_signature result
       = mkSignaturePair (serializeForHttp sigR) (serializeForHttp sigS)
    /\ res_aggregatePublicKey result = serializeForHttp aggregateKey.
Proof.
  unfold collectLocalSignatures, bind, this, call, assign, ret, throw.
  intros H.
  destruct (signingPartyIndices c) as [indices|]; [|discriminate H].
  destruct (signingSession c) as [signing|]; [|discriminate H].
  destruct (allEphVssSchemes c) as [ephVss|]; [|discriminate H].
  destruct (ephSharedKeys c) as [ephKeys|]; [|discriminate H].
  destruct (aggregatePublicKey c) as [aggregateKey|]; [|discriminate H].
  destruct (MPCClient_verifyLocalSignatures _ _ _ _ _) as [vssSum|e]; [|discriminate H].
  destruct (normalizeFirstAggregateR ephKeys) as [|firstEphKey rest]; [discriminate H|].
  destruct (orElse (eph_r firstEphKey) (eph_R firstEphKey)) as [aggregateR|];
    [|discriminate H].
  destruct (MPCClient_aggregateSignature _ _ _ _ _) as [signature|e] eqn:Hsig;
    [|discriminate H].
  destruct (MPCClient_verifySignature _ _ _ _) as [valid|e] eqn:Hver; [|discriminate H].
  unfold MPCClient_verifySignature in Hver.
  destruct (sig_r signature) as [sigR|] eqn:Hr; [|discriminate Hver].
  destruct (sig_s signature) as [sigS|] eqn:Hs; [|discriminate Hver].
  cbn [orElse] in H. injection H as <- _.
  exists signing, aggregateKey, signature, sigR, sigS.
  split; [reflexivity|]. split; [reflexivity|].
  split; [unfold MPCClient_aggregateSignature in Hsig; eauto|].
  split; [exact Hr|]. split; [exact Hs|]. split; [|split; reflexivity].
  cbn [isValid]. rewrite <- Hver. unfold rustBytes, messageToArray.
  destruct (bytes aggregateKey), (bytes sigR), (bytes sigS); reflexivity.
Qed.

End FinalSignature.

Lemma collectLocalSignatures_verifies_witness :
  let result :=
    mkSignatureResult
      (mkSignaturePair (mkBytes (ArrayBytes [7; 7])) (mkBytes (ArrayBytes [30; 32])))
      "07071e20" (mkBytes (ArrayBytes [100])) "64" true in
  let run :=
    collectLocalSignatures ordinalCompare counterVerifyLocalSigs
      counterGenerateSignature counterVerifySignature scenarioLocalSigs scenarioC in
  run = Returned result (stateAfter run)
  /\ exists signing aggregateKey signature sigR sigS,
      signingSession scenarioC = Some signing
      /\ aggregatePublicKey scenarioC = Some aggregateKey
      /\ (exists vssSum localSigs indices aggregateR,
            counterGenerateSignature vssSum localSigs indices aggregateR = Ok signature)
      /\ sig_r signature = Some sigR
      /\ sig_s signature = Some sigS
      /\ counterVerifySignature
           (mkSignaturePair (mkBytes (ArrayBytes (Array_from (bytes sigR))))
                            (mkBytes (ArrayBytes (Array_from (bytes sigS)))))
           (message signing)
           (mkBytes (ArrayBytes (Array_from (bytes aggregateKey))))
         = Ok (isValid result)
      /\ res_signature result
         = mkSignaturePair (serializeForHttp sigR) (serializeForHttp sigS)
      /\ res_aggregatePublicKey result = serializeForHttp aggregateKey.
Proof.
  intros result run. split; [vm_compute; reflexivity|].
  apply (collectLocalSignatures_verifies unit unit ordinalCompare counterVerifyLocalSigs
           counterGenerateSignature counterVerifySignature scenarioLocalSigs scenarioC
           (stateAfter run) result).
  vm_compute. reflexivity.
Defined.

(** ** Registration of a party agent *)

Section AgentRegistration.

Variable KeyStore : Type.
Variable sha256_readUInt16BE : string -> Z.
Variable thresholdSig_phase1Create : Z -> KeyStore -> Result (string * KeyStore).
Variable thresholdSig_getPublicKey : string -> KeyStore -> Result PublicKey.

(** C4 (as amended). [register()] does not look at an earlier
    registration. On any agent, registered or not, it returns whenever
    the native key creation returns, and it stores the identifier of the
    fresh key in place of the one it held; when it throws, it is the
    native module that threw. *)
Theorem register_ignores_earlier_registration (svc : MPCService) (store : KeyStore) :
  (forall kid store' pk,
     thresholdSig_phase1Create (getPartyIndex sha256_readUInt16BE svc) store
     = Ok (kid, store') ->
     thresholdSig_getPublicKey kid store' = Ok pk ->
     MPCService_register sha256_readUInt16BE thresholdSig_phase1Create
       thresholdSig_getPublicKey (svc, store)
     = Returned (mkRegistrationResult (svc_partyId svc) (serializeForHttp pk)
                   (toHex (bytes pk)))
         (mkMPCService (svc_partyId svc) (Some kid) (sharedKey svc), store'))
  /\ (forall e a,
        MPCService_register sha256_readUInt16BE thresholdSig_phase1Create
          thresholdSig_getPublicKey (svc, store) = Thrown e a ->
        fst a = svc
        /\ (thresholdSig_phase1Create (getPartyIndex sha256_readUInt16BE svc) store
            = Fail e
            \/ exists kid store',
                thresholdSig_phase1Create (getPartyIndex sha256_readUInt16BE svc) store
                = Ok (kid, store')
                /\ thresholdSig_getPublicKey kid store' = Fail e)).
Proof.
  unfold MPCService_register, MPCService_initialize, bind, this, onStore, onService,
    assign, ret, MPCClient_createPubKey. cbn [fst snd].
  split.
  - intros kid store' pk Hc Hp. rewrite Hc, Hp. reflexivity.
  - intros e a.
    destruct (thresholdSig_phase1Create _ store) as [[kid store']|e'].
    + destruct (thresholdSig_getPublicKey kid store') as [pk|e''] eqn:Hp.
      * discriminate.
      * intros H. injection H as <- <-. split; [reflexivity|].
        right. exists kid, store'. split; [reflexivity | exact Hp].
    + intros H. injection H as <- <-. split; [reflexivity|]. left. reflexivity.
Qed.

End AgentRegistration.

Lemma register_ignores_earlier_registration_witness :
  keyId (fst registeredAgent) = Some "key-0"%string
  /\ MPCService_register scenarioDigest counterPhase1Create counterGetPublicKey
       registeredAgent
     = Returned (mkRegistrationResult "p0"
                   (serializeForHttp (mkBytes (ArrayBytes [107; 101; 121; 45; 49])))
                   (toHex (ArrayBytes [107; 101; 121; 45; 49])))
         (mkMPCService "p0" (Some "key-1"%string) None, 2%nat)
  /\ (fst registeredAgent = fst registeredAgent
      /\ (failingPhase1Create (getPartyIndex scenarioDigest (fst registeredAgent))
             (snd registeredAgent)
           = Fail (mkError NativeError (NativeMessage "key creation failed"))
           \/ exists kid store',
               failingPhase1Create (getPartyIndex scenarioDigest (fst registeredAgent))
                 (snd registeredAgent) = Ok (kid, store')
               /\ counterGetPublicKey kid store'
                  = Fail (mkError NativeError (NativeMessage "key creation failed")))).
Proof.
  split; [reflexivity|]. split.
  - apply (proj1 (register_ignores_earlier_registration nat scenarioDigest
                    counterPhase1Create counterGetPublicKey
                    (fst registeredAgent) (snd registeredAgent))
             "key-1"%string 2%nat (mkBytes (ArrayBytes [107; 101; 121; 45; 49]))).
    + reflexivity.
    + reflexivity.
  - apply (proj2 (register_ignores_earlier_registration nat scenarioDigest
                    failingPhase1Create counterGetPublicKey
                    (fst registeredAgent) (snd registeredAgent))
             (mkError NativeError (NativeMessage "key creation failed")) registeredAgent).
    reflexivity.
Defined.

(** C4, the claim as stated fails: an agent that has registered registers
    again without an error, and holds a fresh key afterwards. *)
Lemma register_twice_returns :
  keyId (fst registeredAgent) = Some "key-0"%string
  /\ exists r a,
      MPCService_register scenarioDigest counterPhase1Create counterGetPublicKey
        registeredAgent = Returned r a
      /\ keyId (fst a) = Some "key-1"%string.
Proof.
  split; [reflexivity|].
  exists (mkRegistrationResult "p0" (mkBytes (ArrayBytes [107; 101; 121; 45; 49]))
            "6b65792d31"),
         (mkMPCService "p0" (Some "key-1"%string) None, 2%nat).
  split; [vm_compute; reflexivity | reflexivity].
Qed.

(** * Further properties *)

(** ** Byte containers *)

Lemma Buffer_from_mod (l : list Z) : Buffer_from l = map (fun b => b mod 256) l.
Proof.
  unfold Buffer_from. apply map_ext. intros b.
  change 255 with (Z.ones 8). rewrite Z.land_ones by lia. reflexivity.
Qed.

Lemma Buffer_from_range (l : list Z) : Forall (fun b => 0 <= b < 256) (Buffer_from l).
Proof.
  rewrite Buffer_from_mod. apply Forall_map, Forall_forall. intros b _.
  apply Z.mod_pos_bound. lia.
Qed.

Lemma Buffer_from_bytes (l : list Z) :
  Forall (fun b => 0 <= b < 256) l -> Buffer_from l = l.
Proof.
  intros H. rewrite Buffer_from_mod. induction H as [|b l Hb _ IH]; cbn; [reflexivity|].
  rewrite IH, Z.mod_small by exact Hb. reflexivity.
Qed.

(** X1. Whatever numbers an array holds, [normalizeBytesToBuffer] stores
    bytes: the entry [b] becomes [b mod 256], so every stored entry lies
    in [0, 255]. *)
Theorem normalizeBytesToBuffer_stores_bytes (l : list Z) :
  bytes (normalizeBytesToBuffer (mkBytes (ArrayBytes l)))
  = BufferBytes (map (fun b => b mod 256) l)
  /\ Forall (fun b => 0 <= b < 256)
       (Array_from (bytes (normalizeBytesToBuffer (mkBytes (ArrayBytes l))))).
Proof.
  unfold normalizeBytesToBuffer. cbn [bytes isBuffer toBuffer Array_from]. split.
  - rewrite Buffer_from_mod. reflexivity.
  - apply Buffer_from_range.
Qed.

(** X2. The conversions between the HTTP form and the stored form lose
    nothing on bytes: an array of bytes survives the way to a [Buffer] and
    back, a [Buffer] survives the way to an array and back, and both
    normalisations are idempotent. *)
Theorem bytes_round_trip (l : list Z) :
  Forall (fun b => 0 <= b < 256) l ->
  serializeForHttp (normalizeBytesToBuffer (mkBytes (ArrayBytes l))) = mkBytes (ArrayBytes l)
  /\ normalizeBytesToBuffer (serializeForHttp (mkBytes (BufferBytes l)))
     = mkBytes (BufferBytes l)
  /\ (forall obj,
        normalizeBytesToBuffer (normalizeBytesToBuffer obj) = normalizeBytesToBuffer obj)
  /\ (forall obj, serializeForHttp (serializeForHttp obj) = serializeForHttp obj).
Proof.
  intros H. split; [|split; [|split]].
  - unfold serializeForHttp, normalizeBytesToBuffer.
    cbn [bytes isBuffer isArray toBuffer Array_from].
    rewrite (Buffer_from_bytes l H). reflexivity.
  - unfold serializeForHttp, normalizeBytesToBuffer.
    cbn [bytes isBuffer isArray toBuffer Array_from].
    rewrite (Buffer_from_bytes l H). reflexivity.
  - intros [[a|b]]; reflexivity.
  - intros [[a|b]]; reflexivity.
Qed.

Lemma bytes_round_trip_witness :
  serializeForHttp (normalizeBytesToBuffer (mkBytes (ArrayBytes [0; 127; 255])))
  = mkBytes (ArrayBytes [0; 127; 255]).
Proof.
  apply (proj1 (bytes_round_trip [0; 127; 255]
                  ltac:(repeat constructor; lia))).
Defined.

Lemma hexByte_length (b : Z) : String.length (hexByte b) = 2%nat.
Proof. reflexivity. Qed.

Lemma concat_hex_length (l : list Z) :
  String.length (String.concat EmptyString (map hexByte l)) = (2 * List.length l)%nat.
Proof.
  induction l as [|b l IH]; [reflexivity|].
  cbn [map List.length]. destruct l as [|b' l'].
  - reflexivity.
  - change (String.concat EmptyString (hexByte b :: map hexByte (b' :: l')))
      with (String.append (hexByte b)
              (String.append EmptyString
                 (String.concat EmptyString (map hexByte (b' :: l'))))).
    cbn [String.append hexByte String.length]. rewrite IH. cbn [List.length]. lia.
Qed.

(** X3. The hexadecimal text of a key has exactly two characters per
    byte, for an array as for a [Buffer]. *)
Theorem toHex_length (d : ByteData) :
  String.length (toHex d) = (2 * List.length (Array_from d))%nat.
Proof.
  unfold toHex. rewrite concat_hex_length. destruct d as [l|l]; cbn.
  - unfold Buffer_from. rewrite length_map. reflexivity.
  - reflexivity.
Qed.

(** X4. Serialising an ephemeral shared key for HTTP and normalising it
    again for the native module gives what normalising the key itself
    gives: the aggregate nonce is found under [r] whether the key carried
    it as [r] or as [R], with [r] taking precedence, and it is missing
    only when the key carried neither. *)
Theorem ephSharedKey_round_trip (key : EphemeralSharedKey) :
  normalizeEphSharedKey (serializeEphSharedKey key) = normalizeEphSharedKey key
  /\ eph_r (normalizeEphSharedKey key)
     = option_map normalizeBytesForRust (orElse (eph_r key) (eph_R key))
  /\ (eph_r (normalizeEphSharedKey key) = None <-> eph_r key = None /\ eph_R key = None).
Proof.
  destruct key as [[r|] [R|] [[i|i]]]; cbn.
  all: repeat split; try discriminate; try reflexivity; try tauto.
  all: try (destruct r as [[a|a]]; reflexivity).
  all: try (destruct R as [[a|a]]; reflexivity).
  all: intros [H1 H2]; discriminate.
Qed.

(** ** Thresholds *)

(** X5. [validateSigningParties] accepts exactly the counts between the
    threshold and the number of parties; without a number of parties,
    exactly the counts that reach the threshold. Below the threshold the
    error is the one that asks for more signers, also when the count
    exceeds the number of parties. *)
Theorem validateSigningParties_accepts (count t n : Z) :
  (validateSigningParties count t (Some n) = Ok tt <-> t <= count <= n)
  /\ (validateSigningParties count t None = Ok tt <-> t <= count)
  /\ (count < t ->
      validateSigningParties count t (Some n)
      = Fail (mkError ValidationError (NeedAtLeastSigners t count)))
  /\ (t <= count -> n < count ->
      validateSigningParties count t (Some n)
      = Fail (mkError ValidationError (MoreSignersThanParties count n))).
Proof.
  unfold validateSigningParties.
  destruct (count <? t) eqn:E1; [apply Z.ltb_lt in E1 | apply Z.ltb_ge in E1].
  - repeat split; try discriminate; try lia.
  - destruct (count >? n) eqn:E2.
    + apply Z.gtb_lt in E2. repeat split; try discriminate; try lia.
    + rewrite Z.gtb_ltb in E2. apply Z.ltb_ge in E2. repeat split; try lia.
Qed.

Lemma validateSigningParties_accepts_witness :
  validateSigningParties 1 2 (Some 0)
  = Fail (mkError ValidationError (NeedAtLeastSigners 2 1))
  /\ validateSigningParties 4 2 (Some 3)
     = Fail (mkError ValidationError (MoreSignersThanParties 4 3)).
Proof.
  split.
  - apply (proj1 (proj2 (proj2 (validateSigningParties_accepts 1 2 0)))). lia.
  - apply (proj2 (proj2 (proj2 (validateSigningParties_accepts 4 2 3)))); lia.
Defined.

Lemma adjustThresholdForRust_spec (t : Z) :
  (t < 2 /\ adjustThresholdForRust t = Fail (mkError ValidationError (ThresholdTooSmall t)))
  \/ (2 <= t /\ adjustThresholdForRust t = Ok (t - 1)).
Proof.
  unfold adjustThresholdForRust. destruct (t <? 2) eqn:E.
  - apply Z.ltb_lt in E. left. split; [exact E | reflexivity].
  - apply Z.ltb_ge in E. right. split; [exact E | reflexivity].
Qed.

(** X6. A threshold that [startKeyGeneration] accepted is one the client
    accepts in every later round: the session's threshold [t] is turned
    into the polynomial degree [t - 1], which lies between 1 and the
    number of parties minus one. *)
Theorem session_threshold_fits_client (VSSScheme : Type) (t n : Z)
    (c c' : Coordinator VSSScheme) (s : KeyGenSession) :
  startKeyGeneration t n c = Returned s c' ->
  adjustThresholdForRust (threshold s) = Ok (threshold s - 1)
  /\ 1 <= threshold s - 1 <= totalParties s - 1.
Proof.
  unfold startKeyGeneration, bind, call, assign, ret.
  destruct (validateThreshold_spec t n) as [[_ E] | [[_ [_ E]] | [Hin E]]];
    rewrite E; try discriminate.
  intros H. injection H as <- _. cbn.
  destruct (adjustThresholdForRust_spec t) as [[Hlt _] | [_ ->]]; [lia|].
  split; [reflexivity | lia].
Qed.

Lemma session_threshold_fits_client_witness :
  adjustThresholdForRust 2 = Ok 1 /\ 1 <= 2 - 1 <= 3 - 1.
Proof.
  apply (session_threshold_fits_client unit 2 3 (newCoordinator unit)
           (stateAfter (startKeyGeneration 2 3 (newCoordinator unit)))
           (mkKeyGenSession 2 3)).
  reflexivity.
Defined.

(** ** The rounds of the client *)

Lemma mapResult_map {A B C} (f : B -> Result C) (g : A -> B) (l : list A) :
  mapResult f (map g l) = mapResult (fun x => f (g x)) l.
Proof.
  induction l as [|x xs IH]; cbn; [reflexivity|]. rewrite IH. reflexivity.
Qed.

Lemma mapResult_ext {A B} (f g : A -> Result B) (l : list A) :
  (forall x, f x = g x) -> mapResult f l = mapResult g l.
Proof.
  intros H. induction l as [|x xs IH]; cbn; [reflexivity|]. rewrite H, IH. reflexivity.
Qed.

Lemma sharesForParty_cons (row : list SerializableBigInt)
    (all : list (list SerializableBigInt)) (idx : Z) (n : nat) :
  sharesForParty (row :: all) idx (S n)
  = match sharesForParty all idx n with
    | Ok rest => Ok (arrayAt row idx :: rest)
    | Fail e => Fail e
    end.
Proof.
  unfold sharesForParty. cbn [seq mapResult nth_error].
  rewrite <- seq_shift, mapResult_map. reflexivity.
Qed.

(** The shares of a party: the entries at [idx] of the first [n] rows. *)
Lemma sharesForParty_rows (all : list (list SerializableBigInt)) (idx : Z) (n : nat) :
  (n <= List.length all)%nat ->
  sharesForParty all idx n = Ok (map (fun row => arrayAt row idx) (firstn n all)).
Proof.
  revert n. induction all as [|row all IH]; intros [|n] Hn; cbn in Hn; try reflexivity.
  - lia.
  - rewrite sharesForParty_cons, IH by lia. reflexivity.
Qed.

Lemma sharesForParty_missing_row (all : list (list SerializableBigInt)) (idx : Z) (n : nat) :
  (List.length all < n)%nat -> sharesForParty all idx n = Fail undefinedProperty.
Proof.
  revert n. induction all as [|row all IH]; intros [|n] Hn; cbn in Hn; try lia.
  - reflexivity.
  - rewrite sharesForParty_cons, IH by lia. reflexivity.
Qed.

Lemma sharesToRust_present (rows : list (list SerializableBigInt)) (idx : Z) :
  Forall (fun row => arrayAt row idx <> None) rows ->
  exists shares,
    Forall2 (fun row s => arrayAt row idx = Some s) rows shares
    /\ sharesToRust (map (fun row => arrayAt row idx) rows) = Ok (map rustBytes shares).
Proof.
  induction 1 as [|row rows Hrow _ [shares [Hall Hok]]].
  - exists []. split; [constructor | reflexivity].
  - destruct (arrayAt row idx) as [s|] eqn:E; [|contradiction].
    exists (s :: shares). split; [constructor; assumption|].
    unfold sharesToRust in *. cbn [map mapResult]. rewrite E, Hok. reflexivity.
Qed.

Lemma sharesToRust_missing (rows : list (list SerializableBigInt)) (idx : Z) :
  Exists (fun row => arrayAt row idx = None) rows ->
  sharesToRust (map (fun row => arrayAt row idx) rows) = Fail undefinedProperty.
Proof.
  unfold sharesToRust. induction 1 as [row rows Hrow | row rows _ IH]; cbn [map mapResult].
  - rewrite Hrow. reflexivity.
  - rewrite IH. destruct (arrayAt row idx); reflexivity.
Qed.

Lemma oneIndexedParties_nth (n : Z) (i : nat) :
  (i < Z.to_nat n)%nat -> nth_error (oneIndexedParties n) i = Some (Z.of_nat i + 1).
Proof.
  intros H. unfold oneIndexedParties.
  rewrite nth_error_map, nth_error_seq.
  destruct (Nat.ltb_spec i (Z.to_nat n)); [reflexivity | lia].
Qed.

Section ClientRoundProperties.

Variable Opaque : Type.
Variable KeyStore : Type.
Variable thresholdSig_phase1VerifyComPhase2Distribute :
  string -> Z -> Z -> list SerializableBigInt -> list SerializableBigInt ->
  list SerializableBigInt -> list Z -> KeyStore ->
  Result (DistributeResult Opaque * KeyStore).
Variable thresholdSig_phase2VerifyVssConstructKeypair :
  string -> Z -> Z -> list SerializableBigInt -> list SerializableBigInt ->
  list (VssObject Opaque) -> Z -> KeyStore -> Result (SharedKey * KeyStore).
Variable thresholdSig_ephemeralPhase2VerifyVssConstructKeypair :
  string -> Z -> Z -> list SerializableBigInt -> list SerializableBigInt ->
  list (VssObject Opaque) -> Z -> KeyStore -> Result (EphemeralSharedKey * KeyStore).

(** X7. [MPCClient.distributeShares] rejects a threshold below 2 before
    the native module is called. From 2 on, what it returns comes from
    one native call with the degree [t - 1] and the recipients
    [1, ..., shareCount]; the shares are the native ones, and the scheme
    carries [shareCount] whenever the native scheme carried either
    spelling of it. *)
Theorem distributeShares_calls_native (keyId : string) (t n : Z)
    (blindFactors publicKeys commitments : list SerializableBigInt) (partyIndex : Z)
    (store : KeyStore) :
  (t < 2 ->
     MPCClient_distributeShares thresholdSig_phase1VerifyComPhase2Distribute keyId t n
       blindFactors publicKeys commitments partyIndex store
     = Thrown (mkError ValidationError (ThresholdTooSmall t)) store)
  /\ (2 <= t ->
      forall r store',
        MPCClient_distributeShares thresholdSig_phase1VerifyComPhase2Distribute keyId t n
          blindFactors publicKeys commitments partyIndex store
        = Returned r store' ->
        exists native,
          thresholdSig_phase1VerifyComPhase2Distribute keyId (t - 1) n
            (map rustBytes blindFactors) (map rustBytes publicKeys)
            (map rustBytes commitments) (oneIndexedParties n) store
          = Ok (native, store')
          /\ (forall i, (i < Z.to_nat n)%nat ->
                nth_error (oneIndexedParties n) i = Some (Z.of_nat i + 1))
          /\ secretShares r = secret_shares native
          /\ shareCount (sd_vss r)
             = orElse (shareCount (vss native)) (share_count (vss native))
          /\ share_count (sd_vss r) = share_count (vss native)
          /\ vss_commitments (sd_vss r) = vss_commitments (vss native)
          /\ vss_fields (sd_vss r) = vss_fields (vss native)).
Proof.
  unfold MPCClient_distributeShares, bind, call, nativeCall. split.
  - intros Hlt. destruct (adjustThresholdForRust_spec t) as [[_ ->] | [Hge _]]; [|lia].
    reflexivity.
  - intros Hge r store'.
    destruct (adjustThresholdForRust_spec t) as [[Hlt _] | [_ ->]]; [lia|].
    destruct (thresholdSig_phase1VerifyComPhase2Distribute _ _ _ _ _ _ _ _)
      as [[native store'']|e] eqn:E; [|discriminate].
    intros H. injection H as <- <-. exists native. split; [reflexivity|].
    split; [intros i Hi; apply oneIndexedParties_nth, Hi|].
    cbn [secretShares sd_vss]. unfold normalizeShareCount.
    destruct (vss native) as [[sc|] [sC|] cs fs]; cbn; repeat split.
Qed.

(** X8. With a threshold of at least 2, [MPCClient.constructKeypair]
    reaches the native module exactly when each of the first [shareCount]
    rows of the share matrix exists and has an entry at [partyIndex]. It
    then passes that column, the degree [t - 1] and the one-based index
    [partyIndex + 1]; otherwise it throws a [TypeError] and the native
    module is not called. *)
Theorem constructKeypair_reads_column (keyId : string) (t n : Z)
    (publicKeys : list SerializableBigInt)
    (allSecretShares : list (list SerializableBigInt))
    (allVssSchemes : list (VssObject Opaque)) (partyIndex : Z) (store : KeyStore) :
  2 <= t ->
  ((Z.to_nat n <= List.length allSecretShares)%nat ->
   Forall (fun row => arrayAt row partyIndex <> None)
     (firstn (Z.to_nat n) allSecretShares) ->
   exists shares,
     Forall2 (fun row s => arrayAt row partyIndex = Some s)
       (firstn (Z.to_nat n) allSecretShares) shares
     /\ MPCClient_constructKeypair thresholdSig_phase2VerifyVssConstructKeypair keyId t n
          publicKeys allSecretShares allVssSchemes partyIndex store
        = nativeCall
            (thresholdSig_phase2VerifyVssConstructKeypair keyId (t - 1) n
               (map rustBytes publicKeys) (map rustBytes shares) allVssSchemes
               (partyIndex + 1))
            (fun sharedKey => sharedKey) store)
  /\ ((List.length allSecretShares < Z.to_nat n)%nat
      \/ Exists (fun row => arrayAt row partyIndex = None)
           (firstn (Z.to_nat n) allSecretShares) ->
      MPCClient_constructKeypair thresholdSig_phase2VerifyVssConstructKeypair keyId t n
        publicKeys allSecretShares allVssSchemes partyIndex store
      = Thrown undefinedProperty store).
Proof.
  intros Hge. unfold MPCClient_constructKeypair, bind, call.
  destruct (adjustThresholdForRust_spec t) as [[Hlt _] | [_ ->]]; [lia|]. split.
  - intros Hrows Hall. rewrite (sharesForParty_rows _ _ _ Hrows).
    destruct (sharesToRust_present _ _ Hall) as [shares [Hcol ->]].
    exists shares. split; [exact Hcol | reflexivity].
  - intros [Hshort | Hmissing].
    + rewrite (sharesForParty_missing_row _ _ _ Hshort). reflexivity.
    + destruct (Nat.le_gt_cases (Z.to_nat n) (List.length allSecretShares)) as [Hle|Hgt].
      * rewrite (sharesForParty_rows _ _ _ Hle), (sharesToRust_missing _ _ Hmissing).
        reflexivity.
      * rewrite (sharesForParty_missing_row _ _ _ Hgt). reflexivity.
Qed.

Lemma existsb_eqb_In (x : Z) (l : list Z) : existsb (Z.eqb x) l = true <-> In x l.
Proof.
  rewrite existsb_exists. split.
  - intros [z [Hz E]]. apply Z.eqb_eq in E. subst z. exact Hz.
  - intros H. exists x. split; [exact H | apply Z.eqb_refl].
Qed.

(** X9. With a threshold of at least 2,
    [MPCClient.constructEphemeralKeypair] throws a validation error for a
    party that is not in the signing parties list. For a party in the
    list it reads the entry at [partyIndex], the protocol index of the
    party, from one row per signing party: when every row exists and has
    that entry, the native module receives this column and
    [partyIndex + 1]; when the rows hold one entry per signing party and
    [partyIndex] is not below the number of signing parties, the call
    throws a [TypeError]. *)
Theorem constructEphemeralKeypair_reads_column (ephKeyId : string) (t n : Z)
    (ephRPoints : list SerializableBigInt)
    (allEphSecretShares : list (list SerializableBigInt))
    (allEphVssSchemes : list (VssObject Opaque)) (partyIndex : Z)
    (signingParties : list Z) (store : KeyStore) :
  2 <= t ->
  (~ In partyIndex signingParties ->
     MPCClient_constructEphemeralKeypair
       thresholdSig_ephemeralPhase2VerifyVssConstructKeypair ephKeyId t n ephRPoints
       allEphSecretShares allEphVssSchemes partyIndex signingParties store
     = Thrown (mkError ValidationError
                 (messageText (String.append "Party "
                                 (String.append (numberToString partyIndex)
                                    " is not in the signing parties list")))) store)
  /\ (In partyIndex signingParties ->
      (List.length signingParties <= List.length allEphSecretShares)%nat ->
      Forall (fun row => arrayAt row partyIndex <> None)
        (firstn (List.length signingParties) allEphSecretShares) ->
      exists shares,
        Forall2 (fun row s => arrayAt row partyIndex = Some s)
          (firstn (List.length signingParties) allEphSecretShares) shares
        /\ MPCClient_constructEphemeralKeypair
             thresholdSig_ephemeralPhase2VerifyVssConstructKeypair ephKeyId t n
             ephRPoints allEphSecretShares allEphVssSchemes partyIndex signingParties store
           = nativeCall
               (thresholdSig_ephemeralPhase2VerifyVssConstructKeypair ephKeyId (t - 1) n
                  (map rustBytes ephRPoints) (map rustBytes shares) allEphVssSchemes
                  (partyIndex + 1))
               (fun ephSharedKey => ephSharedKey) store)
  /\ (In partyIndex signingParties ->
      Forall (fun row => List.length row = List.length signingParties)
        allEphSecretShares ->
      Z.of_nat (List.length signingParties) <= partyIndex ->
      MPCClient_constructEphemeralKeypair
        thresholdSig_ephemeralPhase2VerifyVssConstructKeypair ephKeyId t n ephRPoints
        allEphSecretShares allEphVssSchemes partyIndex signingParties store
      = Thrown undefinedProperty store).
Proof.
  intros Hge. unfold MPCClient_constructEphemeralKeypair, bind, call, throw.
  destruct (adjustThresholdForRust_spec t) as [[Hlt _] | [_ ->]]; [lia|].
  split; [|split].
  - intros Hout.
    destruct (existsb (Z.eqb partyIndex) signingParties) eqn:E.
    + apply existsb_eqb_In in E. contradiction.
    + reflexivity.
  - intros Hin Hrows Hall.
    rewrite (proj2 (existsb_eqb_In _ _) Hin). cbn [negb].
    rewrite (sharesForParty_rows _ _ _ Hrows).
    destruct (sharesToRust_present _ _ Hall) as [shares [Hcol ->]].
    exists shares. split; [exact Hcol | reflexivity].
  - intros Hin Hlen Hbig.
    rewrite (proj2 (existsb_eqb_In _ _) Hin). cbn [negb].
    destruct (Nat.le_gt_cases (List.length signingParties)
                (List.length allEphSecretShares)) as [Hle|Hgt].
    + rewrite (sharesForParty_rows _ _ _ Hle).
      rewrite sharesToRust_missing; [reflexivity|].
      destruct signingParties as [|p ps]; [destruct Hin|].
      destruct allEphSecretShares as [|row rows]; [cbn in Hle; lia|].
      cbn [List.length firstn]. apply Exists_cons_hd.
      inversion Hlen as [|? ? Hrow _]; subst.
      unfold arrayAt. destruct (partyIndex <? 0) eqn:En; [reflexivity|].
      apply nth_error_None. rewrite Hrow. cbn [List.length] in *. lia.
    + rewrite (sharesForParty_missing_row _ _ _ Hgt). reflexivity.
Qed.

End ClientRoundProperties.

Lemma distributeShares_calls_native_witness :
  MPCClient_distributeShares counterDistribute "key-0" 1 3
    [oneByte 50] [oneByte 10] [oneByte 40] 0 0%nat
  = Thrown (mkError ValidationError (ThresholdTooSmall 1)) 0%nat
  /\ exists native,
       counterDistribute "key-0" 1 3 [oneByte 50] [oneByte 10] [oneByte 40] [1; 2; 3] 0%nat
       = Ok (native, 1%nat)
       /\ secret_shares native = [oneByte 1; oneByte 2; oneByte 3]
       /\ orElse (shareCount (vss native)) (share_count (vss native)) = Some 3.
Proof.
  split.
  - apply (proj1 (distributeShares_calls_native unit nat counterDistribute "key-0" 1 3
                    [oneByte 50] [oneByte 10] [oneByte 40] 0 0%nat)). lia.
  - destruct (proj2 (distributeShares_calls_native unit nat counterDistribute "key-0" 2 3
                       [oneByte 50] [oneByte 10] [oneByte 40] 0 0%nat)
                ltac:(lia)
                (mkShareDistributionResult
                   (mkVssObject (Some 3) (Some 3) (Some [oneByte 40]) [])
                   [oneByte 1; oneByte 2; oneByte 3])
                1%nat eq_refl)
      as [native [Hcall [_ [Hshares [Hcount _]]]]].
    exists native. split; [exact Hcall|]. split; [symmetry; exact Hshares|].
    symmetry. exact Hcount.
Defined.

Lemma constructKeypair_reads_column_witness :
  (exists shares,
     Forall2 (fun row s => arrayAt row 1 = Some s) scenarioShareMatrix shares
     /\ MPCClient_constructKeypair counterConstructKeypair "key-0" 2 3
          [oneByte 10; oneByte 11; oneByte 12] scenarioShareMatrix scenarioSchemes 1 0%nat
        = Returned (mkSharedKey (oneByte 100) (oneByte 2) None) 1%nat)
  /\ MPCClient_constructKeypair counterConstructKeypair "key-0" 2 3
       [oneByte 10; oneByte 11; oneByte 12] scenarioShareMatrix scenarioSchemes 3 0%nat
     = Thrown undefinedProperty 0%nat.
Proof.
  split.
  - destruct (proj1 (constructKeypair_reads_column unit nat counterConstructKeypair
                       "key-0" 2 3 [oneByte 10; oneByte 11; oneByte 12]
                       scenarioShareMatrix scenarioSchemes 1 0%nat ltac:(lia)))
      as [shares [Hcol Hcall]].
    + cbn. lia.
    + repeat constructor; discriminate.
    + exists shares. split; [exact Hcol|]. rewrite Hcall. reflexivity.
  - apply (proj2 (constructKeypair_reads_column unit nat counterConstructKeypair
                    "key-0" 2 3 [oneByte 10; oneByte 11; oneByte 12]
                    scenarioShareMatrix scenarioSchemes 3 0%nat ltac:(lia))).
    right. apply Exists_cons_hd. reflexivity.
Defined.

Lemma constructEphemeralKeypair_reads_column_witness :
  MPCClient_constructEphemeralKeypair counterConstructEphemeralKeypair "eph-1" 2 2
    [oneByte 60; oneByte 62] scenarioEphShareMatrix scenarioEphSchemes 1 [0; 2] 0%nat
  = Thrown (mkError ValidationError
              (messageText "Party 1 is not in the signing parties list")) 0%nat
  /\ (exists shares,
        Forall2 (fun row s => arrayAt row 0 = Some s) scenarioEphShareMatrix shares
        /\ MPCClient_constructEphemeralKeypair counterConstructEphemeralKeypair "eph-1" 2 2
             [oneByte 60; oneByte 62] scenarioEphShareMatrix scenarioEphSchemes 0 [0; 2] 0%nat
           = Returned (mkEphemeralSharedKey (Some (oneByte 7)) None (oneByte 1)) 1%nat)
  /\ MPCClient_constructEphemeralKeypair counterConstructEphemeralKeypair "eph-1" 2 2
       [oneByte 60; oneByte 62] scenarioEphShareMatrix scenarioEphSchemes 2 [0; 2] 0%nat
     = Thrown undefinedProperty 0%nat.
Proof.
  split; [|split].
  - apply (proj1 (constructEphemeralKeypair_reads_column unit nat
                    counterConstructEphemeralKeypair "eph-1" 2 2 [oneByte 60; oneByte 62]
                    scenarioEphShareMatrix scenarioEphSchemes 1 [0; 2] 0%nat ltac:(lia))).
    cbn. intros [H|[H|[]]]; discriminate H.
  - destruct (proj1 (proj2 (constructEphemeralKeypair_reads_column unit nat
                              counterConstructEphemeralKeypair "eph-1" 2 2
                              [oneByte 60; oneByte 62] scenarioEphShareMatrix scenarioEphSchemes
                              0 [0; 2] 0%nat ltac:(lia))))
      as [shares [Hcol Hcall]].
    + left. reflexivity.
    + cbn. lia.
    + repeat constructor; discriminate.
    + exists shares. split; [exact Hcol|]. rewrite Hcall. reflexivity.
  - apply (proj2 (proj2 (constructEphemeralKeypair_reads_column unit nat
                           counterConstructEphemeralKeypair "eph-1" 2 2
                           [oneByte 60; oneByte 62] scenarioEphShareMatrix scenarioEphSchemes
                           2 [0; 2] 0%nat ltac:(lia)))).
    + right. left. reflexivity.
    + repeat constructor.
    + cbn. lia.
Defined.

(** ** The rounds of the party agent *)

Section AgentRoundProperties.

Variable Opaque : Type.
Variable KeyStore : Type.
Variable sha256_readUInt16BE : string -> Z.
Variable thresholdSig_phase1Create : Z -> KeyStore -> Result (string * KeyStore).
Variable thresholdSig_getPublicKey : string -> KeyStore -> Result PublicKey.
Variable thresholdSig_phase1Broadcast : string -> KeyStore -> Result (Broadcast * KeyStore).
Variable thresholdSig_phase1VerifyComPhase2Distribute :
  string -> Z -> Z -> list SerializableBigInt -> list SerializableBigInt ->
  list SerializableBigInt -> list Z -> KeyStore ->
  Result (DistributeResult Opaque * KeyStore).
Variable thresholdSig_phase2VerifyVssConstructKeypair :
  string -> Z -> Z -> list SerializableBigInt -> list SerializableBigInt ->
  list (VssObject Opaque) -> Z -> KeyStore -> Result (SharedKey * KeyStore).
Variable thresholdSig_ephemeralKeyCreate :
  string -> list Z -> Z -> KeyStore -> Result (string * KeyStore).
Variable thresholdSig_getEphemeralR : string -> KeyStore -> Result SerializableBigInt.
Variable thresholdSig_ephemeralPhase1Broadcast :
  string -> KeyStore -> Result (Broadcast * KeyStore).
Variable thresholdSig_ephemeralPhase1VerifyComPhase2Distribute :
  string -> Z -> Z -> list SerializableBigInt -> list SerializableBigInt ->
  list SerializableBigInt -> list Z -> KeyStore ->
  Result (DistributeResult Opaque * KeyStore).
Variable thresholdSig_ephemeralPhase2VerifyVssConstructKeypair :
  string -> Z -> Z -> list SerializableBigInt -> list SerializableBigInt ->
  list (VssObject Opaque) -> Z -> KeyStore -> Result (EphemeralSharedKey * KeyStore).
Variable thresholdSig_computeLocalSig :
  list Z -> EphemeralSharedKey -> SharedKey -> Result LocalSignature.

(** X10. On an agent that holds no key, the five methods that work on the
    long-lived key throw the service error for a service that is not
    initialised, and leave the agent and the native store as they were. *)
Theorem agent_without_key_refuses (a : Agent KeyStore) (t n idx : Z)
    (bfs pks cs : list SerializableBigInt) (shares : list (list SerializableBigInt))
    (schemes : list (VssObject Opaque)) (msg : Message) :
  keyId (fst a) = None ->
  MPCService_generateCommitment thresholdSig_phase1Broadcast a
  = Thrown (mkError ServiceError ServiceNotInitialized) a
  /\ MPCService_distributeShares thresholdSig_phase1VerifyComPhase2Distribute
       t n bfs pks cs idx a
     = Thrown (mkError ServiceError ServiceNotInitialized) a
  /\ MPCService_constructKeypair thresholdSig_phase2VerifyVssConstructKeypair
       t n pks shares schemes idx a
     = Thrown (mkError ServiceError ServiceNotInitialized) a
  /\ MPCService_createEphemeralKey thresholdSig_ephemeralKeyCreate
       thresholdSig_getEphemeralR msg idx a
     = Thrown (mkError ServiceError ServiceNotInitialized) a
  /\ MPCService_startEphemeralKeyGeneration thresholdSig_ephemeralKeyCreate
       thresholdSig_getEphemeralR thresholdSig_ephemeralPhase1Broadcast msg idx a
     = Thrown (mkError ServiceError ServiceNotInitialized) a.
Proof.
  intros Hk.
  unfold MPCService_generateCommitment, MPCService_distributeShares,
    MPCService_constructKeypair, MPCService_createEphemeralKey,
    MPCService_startEphemeralKeyGeneration, bind, this, throw.
  rewrite Hk. cbn. repeat split.
Qed.

Lemma onStore_agent {A} (m : Method KeyStore A) (a : Agent KeyStore) :
  fst (stateAfter (onStore KeyStore m a)) = fst a.
Proof. unfold onStore. destruct (m (snd a)); reflexivity. Qed.

(** X11. Every method of the agent writes at most one of its fields:
    [initialize] and [register] write the key identifier,
    [constructKeypair] writes the shared key, and the other eight rounds
    write none. Returning or throwing, each leaves every other field as
    it was; the party identifier is never written. *)
Theorem agent_rounds_keep_key (a : Agent KeyStore) (t n idx : Z)
    (bfs pks cs : list SerializableBigInt) (shares : list (list SerializableBigInt))
    (schemes : list (VssObject Opaque)) (msg : Message) (eid : string)
    (signing : list Z) (eph : EphemeralSharedKey) :
  (svc_partyId (fst (stateAfter (MPCService_initialize sha256_readUInt16BE
                                   thresholdSig_phase1Create thresholdSig_getPublicKey a)))
   = svc_partyId (fst a)
   /\ sharedKey (fst (stateAfter (MPCService_initialize sha256_readUInt16BE
                                    thresholdSig_phase1Create thresholdSig_getPublicKey a)))
      = sharedKey (fst a))
  /\ (svc_partyId (fst (stateAfter (MPCService_register sha256_readUInt16BE
                                      thresholdSig_phase1Create thresholdSig_getPublicKey a)))
      = svc_partyId (fst a)
      /\ sharedKey (fst (stateAfter (MPCService_register sha256_readUInt16BE
                                       thresholdSig_phase1Create thresholdSig_getPublicKey
                                       a)))
         = sharedKey (fst a))
  /\ fst (stateAfter (MPCService_generateCommitment thresholdSig_phase1Broadcast a)) = fst a
  /\ fst (stateAfter (MPCService_distributeShares
                        thresholdSig_phase1VerifyComPhase2Distribute
                        t n bfs pks cs idx a)) = fst a
  /\ (svc_partyId (fst (stateAfter (MPCService_constructKeypair
                                      thresholdSig_phase2VerifyVssConstructKeypair
                                      t n pks shares schemes idx a)))
      = svc_partyId (fst a)
      /\ keyId (fst (stateAfter (MPCService_constructKeypair
                                   thresholdSig_phase2VerifyVssConstructKeypair
                                   t n pks shares schemes idx a)))
         = keyId (fst a))
  /\ fst (stateAfter (MPCService_createEphemeralKey thresholdSig_ephemeralKeyCreate
                        thresholdSig_getEphemeralR msg idx a)) = fst a
  /\ fst (stateAfter (MPCService_startEphemeralKeyGeneration
                        thresholdSig_ephemeralKeyCreate thresholdSig_getEphemeralR
                        thresholdSig_ephemeralPhase1Broadcast msg idx a)) = fst a
  /\ fst (stateAfter (MPCService_generateEphemeralCommitment
                        thresholdSig_ephemeralPhase1Broadcast eid a)) = fst a
  /\ fst (stateAfter (MPCService_distributeEphemeralShares
                        thresholdSig_ephemeralPhase1VerifyComPhase2Distribute
                        eid t n bfs pks cs signing a)) = fst a
  /\ fst (stateAfter (MPCService_constructEphemeralKeypair
                        thresholdSig_ephemeralPhase2VerifyVssConstructKeypair
                        eid t n pks shares schemes idx signing a)) = fst a
  /\ fst (stateAfter (MPCService_computeLocalSignature thresholdSig_computeLocalSig
                        msg eph a)) = fst a.
Proof.
  destruct a as [svc store].
  unfold MPCService_register, MPCService_initialize,
    MPCService_generateCommitment, MPCService_distributeShares,
    MPCService_constructKeypair, MPCService_createEphemeralKey,
    MPCService_startEphemeralKeyGeneration, MPCService_generateEphemeralCommitment,
    MPCService_distributeEphemeralShares, MPCService_constructEphemeralKeypair,
    MPCService_computeLocalSignature, bind, this, throw, ret, call, onStore, onService,
    assign.
  cbn [fst snd].
  repeat split.
  - destruct (MPCClient_createPubKey _ _ _ _); reflexivity.
  - destruct (MPCClient_createPubKey _ _ _ _); reflexivity.
  - destruct (MPCClient_createPubKey _ _ _ _); reflexivity.
  - destruct (MPCClient_createPubKey _ _ _ _); reflexivity.
  - destruct (missingKeyId (keyId svc)); [reflexivity|].
    destruct (MPCClient_generateCommitment _ _ _); reflexivity.
  - destruct (missingKeyId (keyId svc)); [reflexivity|].
    destruct (MPCClient_distributeShares _ _ _ _ _ _ _ _ _); reflexivity.
  - destruct (missingKeyId (keyId svc)); [reflexivity|].
    destruct (MPCClient_constructKeypair _ _ _ _ _ _ _ _ _); reflexivity.
  - destruct (missingKeyId (keyId svc)); [reflexivity|].
    destruct (MPCClient_constructKeypair _ _ _ _ _ _ _ _ _); reflexivity.
  - destruct (missingKeyId (keyId svc)); [reflexivity|].
    destruct (MPCClient_createEphemeralKey _ _ _ _ _ _); reflexivity.
  - destruct (missingKeyId (keyId svc)); [reflexivity|].
    destruct (MPCClient_createEphemeralKey _ _ _ _ _ _); [|reflexivity]. cbn [fst snd].
    destruct (MPCClient_generateEphemeralCommitment _ _ _); reflexivity.
  - destruct (MPCClient_generateEphemeralCommitment _ _ _); reflexivity.
  - destruct (MPCClient_distributeEphemeralShares _ _ _ _ _ _ _ _ _); reflexivity.
  - destruct (MPCClient_constructEphemeralKeypair _ _ _ _ _ _ _ _ _ _); reflexivity.
  - destruct (sharedKey svc); [|reflexivity].
    destruct (MPCClient_computeLocalSignature _ _ _ _); reflexivity.
Qed.

(** X12. [computeLocalSignature] asks for the shared key, not for the key
    identifier: without a shared key it throws the service error for a
    shared key that is not constructed. With one, an ephemeral key that
    carries its aggregate nonce as [r] or as [R] reaches the native
    signing with the nonce under [r] as an array of the same bytes, and
    the local signature comes back in HTTP form; an ephemeral key that
    carries neither is a [TypeError]. *)
Theorem computeLocalSignature_accepts_either_spelling (msg : Message)
    (eph : EphemeralSharedKey) (a : Agent KeyStore) :
  (sharedKey (fst a) = None ->
     MPCService_computeLocalSignature thresholdSig_computeLocalSig msg eph a
     = Thrown (mkError ServiceError (messageText "Shared key not constructed")) a)
  /\ (forall key,
        sharedKey (fst a) = Some key ->
        eph_r eph = None -> eph_R eph = None ->
        MPCService_computeLocalSignature thresholdSig_computeLocalSig msg eph a
        = Thrown undefinedProperty a)
  /\ (forall key nonce,
        sharedKey (fst a) = Some key ->
        orElse (eph_r eph) (eph_R eph) = Some nonce ->
        MPCService_computeLocalSignature thresholdSig_computeLocalSig msg eph a
        = match thresholdSig_computeLocalSig (normalizeMessage msg)
                  (mkEphemeralSharedKey
                     (Some (mkBytes (ArrayBytes (Array_from (bytes nonce))))) None
                     (mkBytes (ArrayBytes (Array_from (bytes (rI eph))))))
                  (mkSharedKey (rustBytes (y key)) (rustBytes (xI key))
                     (option_map rustBytes (prefix key))) with
          | Ok localSig =>
              Returned (mkLocalSignature (serializeForHttp (gammaI localSig))
                          (serializeForHttp (k localSig))) a
          | Fail e => Thrown e a
          end).
Proof.
  unfold MPCService_computeLocalSignature, bind, this, throw, call, ret,
    MPCClient_computeLocalSignature.
  split; [|split].
  - intros ->. reflexivity.
  - intros key -> Hr HR. cbn. rewrite Hr, HR. reflexivity.
  - intros key nonce -> Hn. cbn [normalizeEphSharedKey eph_r rI]. rewrite Hn.
    cbn [option_map Array_from].
    replace (rustBytes (normalizeBytesForRust nonce))
      with (mkBytes (ArrayBytes (Array_from (bytes nonce))))
      by (destruct nonce as [[l|l]]; reflexivity).
    replace (rustBytes (normalizeBytesForRust (rI eph)))
      with (mkBytes (ArrayBytes (Array_from (bytes (rI eph)))))
      by (destruct (rI eph) as [[l|l]]; reflexivity).
    destruct (thresholdSig_computeLocalSig _ _ _); reflexivity.
Qed.

(** X13. [startEphemeralKeyGeneration] does what [createEphemeralKey]
    followed by [generateEphemeralCommitment] on the new ephemeral key do:
    the same refusal of an agent without a key, the same native calls in
    the same order, the same ephemeral key identifier, and the R point,
    the commitment and the blind factor in HTTP form. *)
Theorem startEphemeralKeyGeneration_composes (msg : Message) (idx : Z)
    (a : Agent KeyStore) :
  MPCService_startEphemeralKeyGeneration thresholdSig_ephemeralKeyCreate
    thresholdSig_getEphemeralR thresholdSig_ephemeralPhase1Broadcast msg idx a
  = (ephKey <- MPCService_createEphemeralKey thresholdSig_ephemeralKeyCreate
                 thresholdSig_getEphemeralR msg idx ;;
     commit <- MPCService_generateEphemeralCommitment
                 thresholdSig_ephemeralPhase1Broadcast (ephKeyId ephKey) ;;
     ret (mkStartEphemeralResult (ephKeyId ephKey) (serializeForHttp (ephR ephKey))
            (serializeForHttp (commitment commit))
            (serializeForHttp (blindFactor commit))))%method a.
Proof.
  destruct a as [svc store].
  unfold MPCService_startEphemeralKeyGeneration, MPCService_createEphemeralKey,
    MPCService_generateEphemeralCommitment, bind, this, throw, ret, onStore.
  cbn [fst snd].
  destruct (missingKeyId (keyId svc)); [reflexivity|].
  destruct (MPCClient_createEphemeralKey _ _ _ _ _ _) as [ephKey store'|e store'];
    [|reflexivity].
  cbn [fst snd].
  destruct (MPCClient_generateEphemeralCommitment _ _ _) as [commit store''|e store''];
    reflexivity.
Qed.

(** X14. When [constructKeypair] returns, the agent holds the shared key
    the native module constructed, as the native module gave it, and the
    caller receives the same key with its three byte fields in HTTP form;
    the native module was given the degree [t - 1]. When it throws, the
    shared key the agent held is unchanged. *)
Theorem constructKeypair_stores_shared_key (t n idx : Z)
    (pks : list SerializableBigInt) (shares : list (list SerializableBigInt))
    (schemes : list (VssObject Opaque)) (a : Agent KeyStore) :
  (forall r a',
     MPCService_constructKeypair thresholdSig_phase2VerifyVssConstructKeypair
       t n pks shares schemes idx a = Returned r a' ->
     2 <= t
     /\ exists key kid column,
         keyId (fst a) = Some kid
         /\ thresholdSig_phase2VerifyVssConstructKeypair kid (t - 1) n
              (map rustBytes (map normalizeBytesForRust pks)) column schemes (idx + 1)
              (snd a)
            = Ok (key, snd a')
         /\ sharedKey (fst a') = Some key
         /\ r = sharedKeyForHttp key)
  /\ (forall e a',
        MPCService_constructKeypair thresholdSig_phase2VerifyVssConstructKeypair
          t n pks shares schemes idx a = Thrown e a' ->
        fst a' = fst a).
Proof.
  destruct a as [svc store].
  unfold MPCService_constructKeypair, bind, this, throw, ret, onStore, onService, assign.
  cbn [fst snd]. split.
  - intros r a'. destruct (keyId svc) as [[|ch kid]|] eqn:Hk; cbn [missingKeyId];
      try discriminate.
    cbn [keyIdText].
    unfold MPCClient_constructKeypair, bind, call, nativeCall.
    destruct (adjustThresholdForRust_spec t) as [[_ ->] | [Hge ->]]; [discriminate|].
    destruct (sharesForParty _ _ _) as [col|e]; [|discriminate].
    destruct (sharesToRust col) as [column|e]; [|discriminate].
    destruct (thresholdSig_phase2VerifyVssConstructKeypair _ _ _ _ _ _ _ _)
      as [[key store']|e] eqn:E; [|discriminate].
    cbn [fst snd]. intros H. injection H as <- <-.
    split; [exact Hge|]. exists key, (String ch kid), column.
    cbn [fst snd sharedKey set_sharedKey]. repeat split. exact E.
  - intros e a'. destruct (missingKeyId (keyId svc)).
    + intros H. injection H as _ <-. reflexivity.
    + destruct (MPCClient_constructKeypair _ _ _ _ _ _ _ _ _) as [key store'|e' store'];
        [discriminate|].
      intros H. injection H as _ <-. reflexivity.
Qed.

End AgentRoundProperties.

Lemma agent_without_key_refuses_witness :
  MPCService_generateCommitment counterBroadcast (newMPCService "p0", 0%nat)
  = Thrown (mkError ServiceError ServiceNotInitialized) (newMPCService "p0", 0%nat)
  /\ MPCService_constructKeypair counterConstructKeypair 2 3
       [oneByte 10; oneByte 11; oneByte 12] scenarioShareMatrix scenarioSchemes 0
       (newMPCService "p0", 0%nat)
     = Thrown (mkError ServiceError ServiceNotInitialized) (newMPCService "p0", 0%nat).
Proof.
  destruct (agent_without_key_refuses unit nat counterBroadcast counterDistribute
              counterConstructKeypair counterEphemeralKeyCreate counterGetEphemeralR
              counterBroadcast (newMPCService "p0", 0%nat) 2 3 0
              [oneByte 50] [oneByte 10; oneByte 11; oneByte 12] [oneByte 40]
              scenarioShareMatrix scenarioSchemes (MsgString "hi") eq_refl)
    as [Hcommit [_ [Hconstruct _]]].
  split; [exact Hcommit | exact Hconstruct].
Defined.

Lemma computeLocalSignature_accepts_either_spelling_witness :
  MPCService_computeLocalSignature counterLocalSig (MsgString "hi")
    (mkEphemeralSharedKey None (Some (mkBytes (BufferBytes [7; 7]))) (oneByte 1))
    registeredAgent
  = Thrown (mkError ServiceError (messageText "Shared key not constructed")) registeredAgent
  /\ MPCService_computeLocalSignature counterLocalSig (MsgString "hi")
       (mkEphemeralSharedKey None (Some (mkBytes (BufferBytes [7; 7]))) (oneByte 1))
       keyedAgent
     = Returned (mkLocalSignature (oneByte 1) (oneByte 1)) keyedAgent.
Proof.
  split.
  - apply (proj1 (computeLocalSignature_accepts_either_spelling nat
                    counterLocalSig (MsgString "hi")
                    (mkEphemeralSharedKey None (Some (mkBytes (BufferBytes [7; 7])))
                       (oneByte 1))
                    registeredAgent)).
    reflexivity.
  - exact (proj2 (proj2 (computeLocalSignature_accepts_either_spelling nat
                           counterLocalSig (MsgString "hi")
                           (mkEphemeralSharedKey None (Some (mkBytes (BufferBytes [7; 7])))
                              (oneByte 1))
                           keyedAgent))
             (mkSharedKey (oneByte 100) (oneByte 1) None) (mkBytes (BufferBytes [7; 7]))
             eq_refl eq_refl).
Defined.

Lemma startEphemeralKeyGeneration_composes_witness :
  MPCService_startEphemeralKeyGeneration counterEphemeralKeyCreate counterGetEphemeralR
    counterBroadcast (MsgString "hi") 0 registeredAgent
  = (ephKey <- MPCService_createEphemeralKey counterEphemeralKeyCreate
                 counterGetEphemeralR (MsgString "hi") 0 ;;
     commit <- MPCService_generateEphemeralCommitment counterBroadcast (ephKeyId ephKey) ;;
     ret (mkStartEphemeralResult (ephKeyId ephKey) (serializeForHttp (ephR ephKey))
            (serializeForHttp (commitment commit))
            (serializeForHttp (blindFactor commit))))%method registeredAgent.
Proof.
  exact (startEphemeralKeyGeneration_composes nat counterEphemeralKeyCreate
           counterGetEphemeralR counterBroadcast (MsgString "hi") 0 registeredAgent).
Defined.

Lemma constructKeypair_stores_shared_key_witness :
  exists key,
    sharedKey (fst keyedAgent) = Some key
    /\ sharedKeyForHttp key = mkSharedKey (oneByte 100) (oneByte 1) None.
Proof.
  destruct (proj1 (constructKeypair_stores_shared_key unit nat counterConstructKeypair
                     2 3 0 [oneByte 10; oneByte 11; oneByte 12] scenarioShareMatrix
                     scenarioSchemes registeredAgent)
              (mkSharedKey (oneByte 100) (oneByte 1) None) keyedAgent eq_refl)
    as [_ [key [kid [column [_ [_ [Hheld Hret]]]]]]].
  exists key. split; [exact Hheld | symmetry; exact Hret].
Defined.

(** ** The collectors of the coordinator *)

Section CollectorProperties.

Variable VSSScheme : Type.
Variable localeCompare : string -> string -> Z.

(** X15. [collectCommitments] and [collectShares] look for the session
    only after they have stored what was submitted: without a session
    they throw the session error, and the coordinator then holds the
    submitted commitments and blind factors, respectively the submitted
    VSS schemes and secret shares, sorted by party identifier. *)
Theorem collectors_store_before_session_check
    (partyCommitments : list PartyCommitment) (partyShares : list (PartyShares VSSScheme))
    (c : Coordinator VSSScheme) :
  session c = None ->
  (exists c',
     collectCommitments localeCompare partyCommitments c
     = Thrown (mkError SessionError (messageText "Session not initialized")) c'
     /\ commitments c'
        = map (fun commit => normalizeBytesToBuffer (pc_commitment commit))
            (Array_sort (byPartyId localeCompare pc_partyId) partyCommitments)
     /\ blindFactors c'
        = map (fun commit => normalizeBytesToBuffer (pc_blindFactor commit))
            (Array_sort (byPartyId localeCompare pc_partyId) partyCommitments))
  /\ (exists c',
        collectShares localeCompare partyShares c
        = Thrown (mkError SessionError (messageText "Session not initialized")) c'
        /\ allVssSchemes c'
           = map ps_vss (Array_sort (byPartyId localeCompare ps_partyId) partyShares)
        /\ allSecretShares c'
           = map (fun share => map normalizeBytesToBuffer (ps_secretShares share))
               (Array_sort (byPartyId localeCompare ps_partyId) partyShares)).
Proof.
  intros Hs. split.
  - unfold collectCommitments, bind, assign, this, throw, ret. cbn [session set_commitments
      set_blindFactors]. rewrite Hs. eexists. split; [reflexivity|]. split; reflexivity.
  - unfold collectShares, bind, assign, this, throw, ret, call. cbn [session
      set_allVssSchemes set_allSecretShares]. rewrite Hs.
    eexists. split; [reflexivity|]. split; reflexivity.
Qed.

Lemma collectCommitments_returns (partyCommitments : list PartyCommitment)
    (c : Coordinator VSSScheme) (s : KeyGenSession) :
  session c = Some s ->
  let sorted := Array_sort (byPartyId localeCompare pc_partyId) partyCommitments in
  let c' :=
    set_blindFactors
      (map (fun commit => normalizeBytesToBuffer (pc_blindFactor commit)) sorted)
      (set_commitments
         (map (fun commit => normalizeBytesToBuffer (pc_commitment commit)) sorted) c) in
  collectCommitments localeCompare partyCommitments c = Returned (commitDataOf s c') c'.
Proof.
  intros Hs sorted c'.
  unfold collectCommitments, bind, assign, this, throw, ret. cbn [session set_commitments
    set_blindFactors]. rewrite Hs. reflexivity.
Qed.

Lemma numbered_indices (ps : list Party) :
  numbered ps ->
  map protocolIndexOrZero ps = map Z.of_nat (seq 0 (List.length ps)).
Proof.
  intros H. apply nth_error_ext. intros i.
  rewrite !nth_error_map, nth_error_seq.
  destruct (nth_error ps i) as [p|] eqn:E.
  - assert (Hi : (i < List.length ps)%nat) by (apply nth_error_Some; congruence).
    destruct (Nat.ltb_spec i (List.length ps)); [|lia].
    cbn. unfold protocolIndexOrZero. rewrite (H i p E). reflexivity.
  - apply nth_error_None in E. destruct (Nat.ltb_spec i (List.length ps)); [lia|].
    reflexivity.
Qed.

(** X16. With a session open [collectCommitments] returns whatever is
    submitted: it compares neither the number of commitments nor their
    party identifiers with the registered parties. The share count it
    reports is the session's number of parties, the lists of commitments
    and blind factors are as long as the submission, the list of public
    keys is as long as the list of registered parties, and, the parties
    being numbered by position, the party vector is [0, 1, ..., n - 1]. *)
Theorem collectCommitments_reports (partyCommitments : list PartyCommitment)
    (c : Coordinator VSSScheme) (s : KeyGenSession) :
  session c = Some s ->
  numbered (parties c) ->
  exists data c',
    collectCommitments localeCompare partyCommitments c = Returned data c'
    /\ cd_threshold data = threshold s
    /\ cd_shareCount data = totalParties s
    /\ List.length (cd_commitments data) = List.length partyCommitments
    /\ List.length (cd_blindFactors data) = List.length partyCommitments
    /\ List.length (cd_publicKeys data) = List.length (parties c)
    /\ cd_parties data = map Z.of_nat (seq 0 (List.length (parties c)))
    /\ parties c' = parties c.
Proof.
  intros Hs Hnum. eexists; eexists.
  split; [apply (collectCommitments_returns partyCommitments c s Hs)|].
  cbn. rewrite !length_map, Array_sort_length.
  repeat split. apply numbered_indices, Hnum.
Qed.

(** X17. What [collectCommitments] returned is what
    [getCommitDataForSharesHttp] returns afterwards, and the second call
    changes nothing. *)
Theorem getCommitDataForSharesHttp_after_collect
    (partyCommitments : list PartyCommitment) (c c' : Coordinator VSSScheme)
    (data : CommitData) :
  collectCommitments localeCompare partyCommitments c = Returned data c' ->
  getCommitDataForSharesHttp c' = Returned data c'.
Proof.
  intros H. destruct (session c) as [s|] eqn:Hs.
  - rewrite (collectCommitments_returns partyCommitments c s Hs) in H.
    injection H as <- <-.
    unfold getCommitDataForSharesHttp, bind, this, ret.
    cbn [session set_blindFactors set_commitments]. rewrite Hs. reflexivity.
  - unfold collectCommitments, bind, assign, this, throw, ret in H.
    cbn [session set_commitments set_blindFactors] in H. rewrite Hs in H. discriminate.
Qed.

(** X18. What [collectShares] returned is what
    [getKeyConstructionDataHttp] returns afterwards, provided at least one
    party submitted shares; after a collection of no shares at all the
    getter throws the state error for shares that are not collected. *)
Theorem getKeyConstructionDataHttp_after_collect (partyShares : list (PartyShares VSSScheme))
    (c c' : Coordinator VSSScheme) (data : ObjectMap (ShareEntry VSSScheme)) :
  collectShares localeCompare partyShares c = Returned data c' ->
  (partyShares <> [] -> getKeyConstructionDataHttp c' = Returned data c')
  /\ (partyShares = [] ->
      getKeyConstructionDataHttp c'
      = Thrown (mkError StateError
                  (messageText
                     "Shares not collected. Make sure collect-shares was called first."))
          c').
Proof.
  unfold collectShares, getKeyConstructionDataHttp, bind, assign, this, throw, ret, call.
  cbn [session set_allVssSchemes set_allSecretShares allSecretShares].
  destruct (session c) as [s|] eqn:Hs; [|discriminate].
  destruct (shareDataOf s _) as [result|e] eqn:E; [|discriminate].
  intros H. injection H as <- <-.
  cbn [session allSecretShares set_allVssSchemes set_allSecretShares]. rewrite Hs. split.
  - intros Hne.
    destruct (Array_sort (byPartyId localeCompare ps_partyId) partyShares)
      as [|first rest] eqn:Hsort.
    + exfalso. eapply Array_sort_nonempty; eassumption.
    + cbn [map]. cbn [map] in E. rewrite E. reflexivity.
  - intros ->. reflexivity.
Qed.

(** X19. The message [getMessageForHttp] returns after a signing session
    was opened is the message [startSigning] returned and stored, byte for
    byte; before any signing session it throws the session error. *)
Theorem getMessageForHttp_after_startSigning (msg : Message) (ids : list string)
    (c : Coordinator VSSScheme) :
  (forall r c',
     startSigning msg ids c = Returned r c' ->
     getMessageForHttp c' = Returned (normalizeMessage msg) c'
     /\ sr_message r = normalizeMessage msg)
  /\ (signingSession c = None ->
      getMessageForHttp c
      = Thrown (mkError SessionError
                  (messageText "No signing session or message available")) c).
Proof.
  split.
  - intros r c' H.
    destruct (startSigning_stores_message VSSScheme msg ids c c' r H) as [Hr Hm].
    split; [|exact Hr].
    unfold getMessageForHttp, bind, this, ret, throw.
    destruct (signingSession c') as [signing|]; [|discriminate].
    cbn in Hm. injection Hm as ->. reflexivity.
  - intros Hs. unfold getMessageForHttp, bind, this, throw. rewrite Hs. reflexivity.
Qed.

(** X20. [collectEphemeralCommitments] stores nothing: returning or
    throwing, it leaves the coordinator as it was. A signing round run
    through [collectEphemeralKeys] and [collectEphemeralCommitments]
    therefore leaves no commitments behind: where no commitments were
    stored before, [getEphCommitDataForSharesHttp] afterwards returns
    the R points with empty lists of commitments and blind factors. *)
Theorem collectEphemeralCommitments_stores_nothing
    (partyEphKeys : list PartyEphKey) (partyEphCommitments : list PartyCommitment)
    (c : Coordinator VSSScheme) :
  stateAfter (collectEphemeralCommitments localeCompare partyEphCommitments c) = c
  /\ (forall r1 c1 r2 c2 indices,
        partyEphKeys <> [] ->
        signingPartyIndices c = Some indices ->
        ephCommitments c = None ->
        ephBlindFactors c = None ->
        collectEphemeralKeys localeCompare partyEphKeys c = Returned r1 c1 ->
        collectEphemeralCommitments localeCompare partyEphCommitments c1 = Returned r2 c2 ->
        ecr_ephCommitments r2
        = map pc_commitment
            (Array_sort (byPartyId localeCompare pc_partyId) partyEphCommitments)
        /\ getEphCommitDataForSharesHttp c2
           = Returned (mkEphemeralCommitData (map serializeForHttp (ekr_ephRPoints r1))
                         [] [] indices) c2).
Proof.
  split.
  - unfold collectEphemeralCommitments, bind, this, throw, ret.
    destruct (ephRPoints c); reflexivity.
  - intros r1 c1 r2 c2 indices Hne Hidx Hc Hb.
    unfold collectEphemeralKeys, collectEphemeralCommitments, getEphCommitDataForSharesHttp,
      bind, assign, this, throw, ret.
    cbn [signingPartyIndices set_ephRPoints]. rewrite Hidx.
    intros H1. injection H1 as <- <-.
    cbn [ephRPoints set_ephRPoints]. intros H2. injection H2 as <- <-.
    split; [reflexivity|].
    cbn [ephRPoints signingPartyIndices ephCommitments ephBlindFactors set_ephRPoints
         ekr_ephRPoints].
    rewrite Hidx, Hc, Hb.
    destruct (Array_sort (byPartyId localeCompare pek_partyId) partyEphKeys)
      as [|first rest] eqn:Hsort.
    + exfalso. eapply Array_sort_nonempty; eassumption.
    + reflexivity.
Qed.

(** X21. The combined collector stores what it collects: what
    [collectEphemeralKeysAndCommitments] returned for a submission that
    is not empty is what [getEphCommitDataForSharesHttp] returns
    afterwards. *)
Theorem getEphCommitDataForSharesHttp_after_collect (partyEphData : list PartyEphData)
    (c c' : Coordinator VSSScheme) (data : EphemeralCommitData) :
  partyEphData <> [] ->
  collectEphemeralKeysAndCommitments localeCompare partyEphData c = Returned data c' ->
  getEphCommitDataForSharesHttp c' = Returned data c'
  /\ List.length (ecd_ephRPoints data) = List.length partyEphData
  /\ List.length (ecd_ephCommitments data) = List.length partyEphData
  /\ List.length (ecd_ephBlindFactors data) = List.length partyEphData.
Proof.
  intros Hne.
  unfold collectEphemeralKeysAndCommitments, getEphCommitDataForSharesHttp,
    bind, assign, this, throw, ret.
  cbn [signingPartyIndices set_ephRPoints set_ephCommitments set_ephBlindFactors].
  destruct (signingPartyIndices c) as [indices|] eqn:Hidx; [|discriminate].
  intros H. injection H as <- <-.
  cbn [ephRPoints signingPartyIndices ephCommitments ephBlindFactors set_ephRPoints
       set_ephCommitments set_ephBlindFactors orEmpty ecd_ephRPoints ecd_ephCommitments
       ecd_ephBlindFactors].
  rewrite Hidx, !length_map, Array_sort_length.
  destruct (Array_sort (byPartyId localeCompare ped_partyId) partyEphData)
    as [|first rest] eqn:Hsort.
  - exfalso. eapply Array_sort_nonempty; eassumption.
  - cbn [map]. repeat split.
Qed.

End CollectorProperties.

Lemma scenarioA_numbered : numbered (parties scenarioA).
Proof.
  intros i p. let ps := eval vm_compute in (parties scenarioA) in
              change (parties scenarioA) with ps.
  destruct i as [|[|[|i]]]; cbn [nth_error]; intros H;
    try (injection H as <-; reflexivity).
  destruct i; discriminate H.
Qed.

Lemma collectors_store_before_session_check_witness :
  exists c',
    collectCommitments ordinalCompare scenarioCommitments (newCoordinator unit)
    = Thrown (mkError SessionError (messageText "Session not initialized")) c'
    /\ commitments c'
       = [mkBytes (BufferBytes [40]); mkBytes (BufferBytes [41]); mkBytes (BufferBytes [42])].
Proof.
  destruct (proj1 (collectors_store_before_session_check unit ordinalCompare
                     scenarioCommitments scenarioPartyShares (newCoordinator unit)
                     eq_refl))
    as [c' [Hthrow [Hstored _]]].
  exists c'. split; [exact Hthrow | exact Hstored].
Defined.

Lemma collectCommitments_reports_witness :
  exists data c',
    collectCommitments ordinalCompare scenarioCommitments scenarioA = Returned data c'
    /\ cd_threshold data = 2
    /\ cd_shareCount data = 3
    /\ List.length (cd_commitments data) = 3%nat
    /\ List.length (cd_blindFactors data) = 3%nat
    /\ List.length (cd_publicKeys data) = 3%nat
    /\ cd_parties data = [0; 1; 2]
    /\ parties c' = parties scenarioA.
Proof.
  exact (collectCommitments_reports unit ordinalCompare scenarioCommitments scenarioA
           (mkKeyGenSession 2 3) eq_refl scenarioA_numbered).
Defined.

Lemma getCommitDataForSharesHttp_after_collect_witness :
  exists data c',
    collectCommitments ordinalCompare scenarioCommitments scenarioA = Returned data c'
    /\ getCommitDataForSharesHttp c' = Returned data c'.
Proof.
  destruct (collectCommitments ordinalCompare scenarioCommitments scenarioA)
    as [data c'|e c'] eqn:E; [|vm_compute in E; discriminate E].
  exists data, c'. split; [reflexivity|].
  apply (getCommitDataForSharesHttp_after_collect unit ordinalCompare
           scenarioCommitments scenarioA c' data E).
Defined.

Lemma getKeyConstructionDataHttp_after_collect_witness :
  (exists data c',
     collectShares ordinalCompare scenarioPartyShares scenarioA = Returned data c'
     /\ getKeyConstructionDataHttp c' = Returned data c')
  /\ (exists data c',
        collectShares ordinalCompare [] scenarioA = Returned data c'
        /\ getKeyConstructionDataHttp c'
           = Thrown (mkError StateError
                       (messageText
                          "Shares not collected. Make sure collect-shares was called first."))
               c').
Proof.
  split.
  - destruct (collectShares ordinalCompare scenarioPartyShares scenarioA)
      as [data c'|e c'] eqn:E; [|vm_compute in E; discriminate E].
    exists data, c'. split; [reflexivity|].
    apply (proj1 (getKeyConstructionDataHttp_after_collect unit ordinalCompare
                    scenarioPartyShares scenarioA c' data E)).
    discriminate.
  - destruct (collectShares ordinalCompare [] scenarioA)
      as [data c'|e c'] eqn:E; [|vm_compute in E; discriminate E].
    exists data, c'. split; [reflexivity|].
    apply (proj2 (getKeyConstructionDataHttp_after_collect unit ordinalCompare
                    [] scenarioA c' data E)).
    reflexivity.
Defined.

Lemma getMessageForHttp_after_startSigning_witness :
  getMessageForHttp
    (stateAfter (startSigning (MsgString "hi") ["p2"; "p0"]%string scenarioA))
  = Returned [104; 105]
      (stateAfter (startSigning (MsgString "hi") ["p2"; "p0"]%string scenarioA))
  /\ getMessageForHttp scenarioA
     = Thrown (mkError SessionError
                 (messageText "No signing session or message available")) scenarioA.
Proof.
  split.
  - exact (proj1 (proj1 (getMessageForHttp_after_startSigning unit (MsgString "hi")
                           ["p2"; "p0"]%string scenarioA)
                    (mkSigningResponse [104; 105] [0; 2])
                    (stateAfter (startSigning (MsgString "hi") ["p2"; "p0"]%string
                                   scenarioA))
                    eq_refl)).
  - apply (proj2 (getMessageForHttp_after_startSigning unit (MsgString "hi")
                    ["p2"; "p0"]%string scenarioA)).
    reflexivity.
Defined.

Lemma collectEphemeralCommitments_stores_nothing_witness :
  getEphCommitDataForSharesHttp scenarioD
  = Returned (mkEphemeralCommitData [oneByte 60; oneByte 62] [] [] [0; 2]) scenarioD.
Proof.
  exact (proj2 (proj2 (collectEphemeralCommitments_stores_nothing unit ordinalCompare
                         scenarioEphKeys scenarioEphCommitments scenarioC)
                  (mkEphemeralKeysResponse [oneByte 60; oneByte 62] [0; 2]) scenarioD
                  (mkEphemeralCommitmentsResponse [oneByte 70; oneByte 72]
                     [oneByte 80; oneByte 82] [oneByte 60; oneByte 62])
                  scenarioD [0; 2]
                  ltac:(discriminate) eq_refl eq_refl eq_refl eq_refl eq_refl)).
Defined.

Lemma getEphCommitDataForSharesHttp_after_collect_witness :
  exists data c',
    collectEphemeralKeysAndCommitments ordinalCompare scenarioEphData scenarioC
    = Returned data c'
    /\ getEphCommitDataForSharesHttp c' = Returned data c'
    /\ List.length (ecd_ephRPoints data) = 2%nat.
Proof.
  destruct (collectEphemeralKeysAndCommitments ordinalCompare scenarioEphData scenarioC)
    as [data c'|e c'] eqn:E; [|vm_compute in E; discriminate E].
  exists data, c'. split; [reflexivity|].
  destruct (getEphCommitDataForSharesHttp_after_collect unit ordinalCompare
              scenarioEphData scenarioC c' data ltac:(discriminate) E)
    as [Hget [Hlen _]].
  split; [exact Hget | exact Hlen].
Defined.

(** ** The signing subset *)

(** Two lists sorted by an order that tells their elements apart are equal
    as soon as they hold the same elements. *)
Lemma sorted_perm_unique {A} (compareFn : A -> A -> Z) (l1 l2 : list A) :
  (forall a b, compareFn a b <= 0 -> compareFn b a <= 0 -> a = b) ->
  StronglySorted (fun a b => compareFn a b <= 0) l1 ->
  StronglySorted (fun a b => compareFn a b <= 0) l2 ->
  Permutation l1 l2 ->
  l1 = l2.
Proof.
  intros Hanti H1. revert l2.
  induction H1 as [|a l1 _ IH Ha]; intros l2 H2 Hperm.
  - apply Permutation_nil in Hperm. congruence.
  - destruct H2 as [|b l2 H2 Hb].
    + apply Permutation_sym, Permutation_nil in Hperm. discriminate.
    + assert (Hab : a = b).
      { assert (Ha2 : In a (b :: l2)) by (eapply Permutation_in; [exact Hperm | left; reflexivity]).
        assert (Hb1 : In b (a :: l1))
          by (eapply Permutation_in; [apply Permutation_sym, Hperm | left; reflexivity]).
        destruct Ha2 as [->|Ha2]; [reflexivity|].
        destruct Hb1 as [->|Hb1]; [reflexivity|].
        rewrite Forall_forall in Ha, Hb. apply Hanti; [apply Ha, Hb1 | apply Hb, Ha2]. }
      subst b. f_equal. apply IH; [exact H2|].
      eapply Permutation_cons_inv, Hperm.
Qed.

Lemma stringSortCompare_total (a b : string) :
  stringSortCompare a b <= 0 \/ stringSortCompare b a <= 0.
Proof. pose proof (ordinalCompare_antisym a b) as H. unfold ordinalCompare in H. lia. Qed.

Lemma defaultSortStrings_perm_eq (ids ids' : list string) :
  Permutation ids ids' -> defaultSortStrings ids = defaultSortStrings ids'.
Proof.
  intros Hperm. unfold defaultSortStrings.
  apply (sorted_perm_unique stringSortCompare).
  - intros a b Hab Hba. apply ordinalCompare_separates.
    pose proof (ordinalCompare_antisym a b) as H. unfold ordinalCompare in *. lia.
  - apply Array_sort_sorted; [apply stringSortCompare_total | apply ordinalCompare_trans].
  - apply Array_sort_sorted; [apply stringSortCompare_total | apply ordinalCompare_trans].
  - eapply perm_trans; [apply Array_sort_perm|].
    eapply perm_trans; [exact Hperm | apply Permutation_sym, Array_sort_perm].
Qed.

Section SigningSubset.

Variable VSSScheme : Type.

(** X22. The outcome of [startSigning] does not depend on the order in
    which the caller lists the signing parties: two lists with the same
    identifiers give the same result, the same error and the same state. *)
Theorem startSigning_order_independent (msg : Message) (ids ids' : list string)
    (c : Coordinator VSSScheme) :
  Permutation ids ids' ->
  startSigning msg ids c = startSigning msg ids' c.
Proof.
  intros Hperm. unfold startSigning.
  rewrite (defaultSortStrings_perm_eq ids ids' Hperm).
  rewrite (Permutation_length Hperm). reflexivity.
Qed.

(** What a successful [startSigning] computed: the indices of the
    identifiers in sorted order, then the default sort of these. *)
Lemma startSigning_indices (msg : Message) (ids : list string)
    (c c' : Coordinator VSSScheme) (r : SigningResponse) :
  startSigning msg ids c = Returned r c' ->
  exists sortedIndices,
    mapResult (protocolIndexOf (parties c)) (defaultSortStrings ids) = Ok sortedIndices
    /\ sr_signingParties r = defaultSortNumbers sortedIndices.
Proof.
  intros Hret. destruct (session c) as [s|] eqn:Hs.
  - destruct (Z_lt_ge_dec (Z.of_nat (List.length ids)) (threshold s)) as [Hlt|Hge].
    + rewrite (startSigning_too_few VSSScheme msg ids c s Hs Hlt) in Hret. discriminate.
    + rewrite (startSigning_enough VSSScheme msg ids c s Hs) in Hret by lia.
      cbn zeta in Hret.
      destruct (mapResult (protocolIndexOf (parties c)) (defaultSortStrings ids))
        as [sortedIndices|e]; [|discriminate].
      injection Hret as <- _. exists sortedIndices. split; reflexivity.
  - rewrite (startSigning_no_session VSSScheme msg ids c Hs) in Hret. discriminate.
Qed.

(** X23. The signing subset [startSigning] returns holds exactly the
    protocol indices assigned to the named parties, one for each
    identifier listed, repetitions included: it is a rearrangement of the
    list of their indices. *)
Theorem startSigning_returns_assigned_indices (msg : Message) (ids : list string)
    (c c' : Coordinator VSSScheme) (r : SigningResponse) :
  startSigning msg ids c = Returned r c' ->
  exists indices,
    Forall2 (fun pid idx => assignedIndex c pid = Some idx) ids indices
    /\ Permutation (sr_signingParties r) indices.
Proof.
  intros Hret.
  destruct (startSigning_indices msg ids c c' r Hret) as [sortedIndices [Hmap ->]].
  apply mapResult_Forall2 in Hmap.
  destruct (Permutation_Forall2 (Array_sort_perm stringSortCompare ids) Hmap)
    as [indices [Hperm Hall]].
  exists indices. split.
  - eapply Forall2_impl; [|exact Hall]. intros pid idx H.
    apply protocolIndexOf_assigned, H.
  - eapply perm_trans; [apply Array_sort_perm | exact Hperm].
Qed.

End SigningSubset.

Lemma startSigning_order_independent_witness :
  startSigning (MsgString "hi") ["p2"; "p0"]%string scenarioA
  = startSigning (MsgString "hi") ["p0"; "p2"]%string scenarioA.
Proof.
  apply (startSigning_order_independent unit (MsgString "hi") ["p2"; "p0"]%string
           ["p0"; "p2"]%string scenarioA).
  apply perm_swap.
Defined.

Lemma startSigning_returns_assigned_indices_witness :
  exists indices,
    Forall2 (fun pid idx => assignedIndex scenarioA pid = Some idx) ["p2"; "p0"]%string
      indices
    /\ Permutation [0; 2] indices.
Proof.
  exact (startSigning_returns_assigned_indices unit (MsgString "hi") ["p2"; "p0"]%string
           scenarioA
           (stateAfter (startSigning (MsgString "hi") ["p2"; "p0"]%string scenarioA))
           (mkSigningResponse [104; 105] [0; 2]) eq_refl).
Defined.

(** ** Numbering of the parties *)

Lemma assignProtocolIndex_nth (k : Z) (l : list Party) (i : nat) :
  nth_error (assignProtocolIndex k l) i
  = option_map (withProtocolIndex (k + Z.of_nat i)) (nth_error l i).
Proof.
  revert k i. induction l as [|p l IH]; intros k [|i]; cbn [assignProtocolIndex nth_error
    option_map]; try reflexivity.
  - rewrite Z.add_0_r. reflexivity.
  - rewrite IH. replace (k + 1 + Z.of_nat i) with (k + Z.of_nat (S i)) by lia. reflexivity.
Qed.

Lemma assignProtocolIndex_numbered (l : list Party) : numbered (assignProtocolIndex 0 l).
Proof.
  intros i p H. rewrite assignProtocolIndex_nth in H.
  destruct (nth_error l i) as [q|]; [|discriminate].
  cbn in H. injection H as <-. reflexivity.
Qed.

Lemma numbered_allIndexed (ps : list Party) : numbered ps -> allIndexed ps.
Proof.
  intros H. apply Forall_forall. intros p Hp.
  apply In_nth_error in Hp. destruct Hp as [i Hi]. rewrite (H i p Hi). discriminate.
Qed.

Lemma numbered_position (ps : list Party) (p : Party) (idx : Z) :
  numbered ps -> In p ps -> protocolIndex p = Some idx ->
  arrayAt ps idx = Some p /\ 0 <= idx < Z.of_nat (List.length ps).
Proof.
  intros Hnum Hp Hidx. apply In_nth_error in Hp. destruct Hp as [i Hi].
  pose proof (Hnum i p Hi) as H. rewrite Hidx in H. injection H as ->.
  assert (Hlt : (i < List.length ps)%nat) by (apply nth_error_Some; congruence).
  unfold arrayAt. destruct (Z.of_nat i <? 0) eqn:E; [apply Z.ltb_lt in E; lia|].
  rewrite Nat2Z.id. split; [exact Hi | lia].
Qed.

Section PartyNumbering.

Variable VSSScheme : Type.
Variable localeCompare : string -> string -> Z.
Variable sha256_readUInt16BE : string -> Z.

(** X24. The party list is numbered by position: after every
    [startKeyGeneration] and every [registerParty], returning or
    throwing, the party at position [i] carries the protocol index [i],
    provided this held before the call; and it holds in a new
    coordinator. A registration that returns establishes it whatever the
    list was. *)
Theorem parties_numbered_by_position (c : Coordinator VSSScheme) :
  numbered (parties (newCoordinator VSSScheme))
  /\ (forall t n,
        numbered (parties c) ->
        numbered (parties (stateAfter (startKeyGeneration t n c))))
  /\ (forall pid pk,
        numbered (parties c) ->
        numbered (parties (stateAfter
                             (registerParty localeCompare sha256_readUInt16BE pid pk c))))
  /\ (forall pid pk r c',
        registerParty localeCompare sha256_readUInt16BE pid pk c = Returned r c' ->
        numbered (parties c')).
Proof.
  split; [|split; [|split]].
  - intros [|i] p H; discriminate H.
  - intros t n H. unfold startKeyGeneration, bind, call, assign, ret.
    destruct (validateThreshold t (Some n)); cbn; [|exact H].
    intros [|i] p Hp; discriminate Hp.
  - intros pid pk H. destruct (session c) as [s|] eqn:Hs.
    + destruct (registerParty_returns VSSScheme localeCompare sha256_readUInt16BE
                  pid pk c s Hs) as [idx [_ Hret]].
      rewrite Hret. cbn. apply assignProtocolIndex_numbered.
    + rewrite (registerParty_no_session VSSScheme localeCompare sha256_readUInt16BE
                 pid pk c Hs). exact H.
  - intros pid pk r c' Hret. destruct (session c) as [s|] eqn:Hs.
    + destruct (registerParty_returns VSSScheme localeCompare sha256_readUInt16BE
                  pid pk c s Hs) as [idx [_ Hret']].
      rewrite Hret' in Hret. injection Hret as _ <-. cbn.
      apply assignProtocolIndex_numbered.
    + rewrite (registerParty_no_session VSSScheme localeCompare sha256_readUInt16BE
                 pid pk c Hs) in Hret. discriminate.
Qed.

End PartyNumbering.

Lemma digit_order (a b : Z) :
  0 <= a < 10 -> 0 <= b < 10 ->
  stringSortCompare (numberToString a) (numberToString b) <= 0 -> a <= b.
Proof.
  intros Ha Hb.
  assert (Ea : a = 0 \/ a = 1 \/ a = 2 \/ a = 3 \/ a = 4 \/ a = 5 \/ a = 6 \/ a = 7
               \/ a = 8 \/ a = 9) by lia.
  assert (Eb : b = 0 \/ b = 1 \/ b = 2 \/ b = 3 \/ b = 4 \/ b = 5 \/ b = 6 \/ b = 7
               \/ b = 8 \/ b = 9) by lia.
  clear Ha Hb.
  repeat (destruct Ea as [->|Ea]); try subst a;
    repeat (destruct Eb as [->|Eb]); try subst b;
    vm_compute; intros H; try discriminate; exfalso; apply H; reflexivity.
Qed.

Section SmallSessions.

Variable VSSScheme : Type.

(** X25. With at most ten parties in a list numbered by position, the
    signing subset [startSigning] returns is in ascending numeric order:
    the indices have one digit, on which the order of the decimal texts
    is the order of the numbers. *)
Theorem startSigning_ascending_up_to_ten (msg : Message) (ids : list string)
    (c c' : Coordinator VSSScheme) (r : SigningResponse) :
  numbered (parties c) ->
  (List.length (parties c) <= 10)%nat ->
  startSigning msg ids c = Returned r c' ->
  StronglySorted Z.le (sr_signingParties r).
Proof.
  intros Hnum Hlen Hret.
  destruct (startSigning_indices VSSScheme msg ids c c' r Hret)
    as [sortedIndices [Hmap ->]].
  assert (Hrange : Forall (fun idx => 0 <= idx < 10) (defaultSortNumbers sortedIndices)).
  { eapply Permutation_Forall; [apply Permutation_sym, Array_sort_perm|].
    apply mapResult_Forall2 in Hmap. clear Hret.
    induction Hmap as [|pid idx ids' indices' Hidx _ IH]; constructor.
    - apply protocolIndexOf_assigned in Hidx. unfold assignedIndex in Hidx.
      destruct (findParty pid (parties c)) as [p|] eqn:Hf; [|discriminate].
      apply find_some in Hf. destruct Hf as [Hp _].
      destruct (numbered_position (parties c) p idx Hnum Hp Hidx) as [_ Hb]. lia.
    - exact IH. }
  assert (Hsorted : StronglySorted
            (fun a b => stringSortCompare (numberToString a) (numberToString b) <= 0)
            (defaultSortNumbers sortedIndices)).
  { unfold defaultSortNumbers.
    apply (Array_sort_sorted
             (fun x y => stringSortCompare (numberToString x) (numberToString y))).
    - intros x y. apply stringSortCompare_total.
    - intros x y z. apply ordinalCompare_trans. }
  clear Hret Hmap.
  induction Hsorted as [|x l _ IH Hx]; [constructor|].
  inversion Hrange as [|? ? Hrx Hrl]; subst.
  constructor; [apply IH, Hrl|].
  rewrite Forall_forall in *. intros z Hz.
  apply digit_order; [exact Hrx | apply Hrl, Hz | apply Hx, Hz].
Qed.

End SmallSessions.

Lemma parties_numbered_by_position_witness :
  numbered
    (parties (stateAfter (registerParty ordinalCompare scenarioDigest "p3" (oneByte 13)
                            scenarioA))).
Proof.
  apply (proj1 (proj2 (proj2 (parties_numbered_by_position unit ordinalCompare
                                scenarioDigest scenarioA)))).
  exact scenarioA_numbered.
Defined.

Lemma startSigning_ascending_up_to_ten_witness : StronglySorted Z.le [0; 2].
Proof.
  apply (startSigning_ascending_up_to_ten unit (MsgString "hi") ["p2"; "p0"]%string
           scenarioA
           (stateAfter (startSigning (MsgString "hi") ["p2"; "p0"]%string scenarioA))
           (mkSigningResponse [104; 105] [0; 2])).
  - exact scenarioA_numbered.
  - vm_compute. repeat constructor.
  - reflexivity.
Defined.

(** ** Key construction data *)

Lemma objectGet_set_same {V} (key : string) (v : V) (obj : ObjectMap V) :
  objectGet key (objectSet key v obj) = Some v.
Proof.
  induction obj as [|[key' v'] rest IH]; cbn.
  - rewrite String.eqb_refl. reflexivity.
  - destruct (String.eqb key' key) eqn:E; cbn.
    + rewrite String.eqb_refl. reflexivity.
    + rewrite E. exact IH.
Qed.

Lemma objectGet_set_other {V} (key other : string) (v : V) (obj : ObjectMap V) :
  key <> other -> objectGet other (objectSet key v obj) = objectGet other obj.
Proof.
  intros Hne. induction obj as [|[key' v'] rest IH]; cbn.
  - destruct (String.eqb key other) eqn:E; [apply String.eqb_eq in E; contradiction|].
    reflexivity.
  - destruct (String.eqb key' key) eqn:E; cbn.
    + apply String.eqb_eq in E. subst key'.
      destruct (String.eqb key other) eqn:E'; [apply String.eqb_eq in E'; contradiction|].
      reflexivity.
    + destruct (String.eqb key' other); [reflexivity | exact IH].
Qed.

Lemma nth_error_ids_inj (ps : list Party) (i j : nat) (p q : Party) :
  NoDup (map partyId ps) ->
  nth_error ps i = Some p -> nth_error ps j = Some q -> partyId p = partyId q -> i = j.
Proof.
  intros Hnd Hi Hj Heq.
  apply (proj1 (NoDup_nth_error (map partyId ps)) Hnd).
  - rewrite length_map. apply nth_error_Some. congruence.
  - rewrite !nth_error_map, Hi, Hj. cbn. congruence.
Qed.

Section KeyConstructionData.

Variable VSSScheme : Type.
Variable localeCompare : string -> string -> Z.

Lemma shareDataLoop_lookup (entryFor : Z -> ShareEntry VSSScheme) (ps : list Party)
    (acc : ObjectMap (ShareEntry VSSScheme)) :
  allIndexed ps ->
  NoDup (map partyId ps) ->
  exists result,
    shareDataLoop entryFor ps acc = Ok result
    /\ forall pid,
         objectGet pid result
         = match findParty pid ps with
           | Some p => option_map entryFor (protocolIndex p)
           | None => objectGet pid acc
           end.
Proof.
  revert acc. induction ps as [|p ps IH]; intros acc Hall Hnd.
  - exists acc. split; reflexivity.
  - inversion Hall as [|? ? Hp Hall']; subst. inversion Hnd as [|? ? Hnp Hnd']; subst.
    cbn [shareDataLoop]. destruct (protocolIndex p) as [idx|] eqn:Hidx; [|contradiction].
    destruct (IH (objectSet (partyId p) (entryFor idx) acc) Hall' Hnd')
      as [result [Hloop Hget]].
    exists result. split; [exact Hloop|]. intros pid. rewrite Hget.
    unfold findParty. cbn [find]. fold (findParty pid ps).
    destruct (String.eqb (partyId p) pid) eqn:E.
    + apply String.eqb_eq in E. subst pid.
      rewrite (findParty_unregistered _ _ Hnp), objectGet_set_same, Hidx. reflexivity.
    + apply String.eqb_neq in E.
      destruct (findParty pid ps); [reflexivity|].
      apply objectGet_set_other, E.
Qed.

(** X26. With a session open and every party listed once and indexed,
    [collectShares] returns an object that holds, under the identifier of
    each registered party, an entry with that party's protocol index, the
    session's threshold, the number of registered parties as share count,
    the registered public keys in HTTP form, and the submitted schemes and
    shares sorted by party identifier, the shares in HTTP form. Under an
    identifier that is not registered nothing was assigned, and a read
    there finds no entry: it finds what the prototype chain holds under
    that name, and it is undefined when the name is not a property of
    [Object.prototype] and no party is called [__proto__]. *)
Theorem collectShares_entries (partyShares : list (PartyShares VSSScheme))
    (c : Coordinator VSSScheme) (s : KeyGenSession) :
  session c = Some s ->
  allIndexed (parties c) ->
  NoDup (map partyId (parties c)) ->
  exists data c',
    collectShares localeCompare partyShares c = Returned data c'
    /\ (forall pid idx,
          assignedIndex c pid = Some idx ->
          exists entry,
            objectGet pid data = Some entry
            /\ se_partyIndex entry = idx
            /\ se_threshold entry = threshold s
            /\ se_shareCount entry = List.length (parties c)
            /\ se_publicKeys entry
               = map (fun p => serializeForHttp (publicKey p)) (parties c)
            /\ se_allVssSchemes entry
               = map ps_vss (Array_sort (byPartyId localeCompare ps_partyId) partyShares)
            /\ se_allSecretShares entry
               = map (fun share =>
                        map (fun b => serializeForHttp (normalizeBytesToBuffer b))
                          (ps_secretShares share))
                   (Array_sort (byPartyId localeCompare ps_partyId) partyShares)
            /\ List.length (se_allSecretShares entry) = List.length partyShares
            /\ List.length (se_publicKeys entry) = List.length (parties c))
    /\ (forall pid,
          ~ registered c pid ->
          objectGet pid data = None
          /\ forall onObjectPrototype,
               (forall entry,
                  objectRead onObjectPrototype shareEntryFields pid data
                  <> ReadEntry entry)
               /\ (~ registered c "__proto__" ->
                   onObjectPrototype pid = false ->
                   objectRead onObjectPrototype shareEntryFields pid data
                   = ReadUndefined)).
Proof.
  intros Hs Hall Hnd.
  unfold collectShares, bind, assign, this, throw, ret, call.
  cbn [session set_allVssSchemes set_allSecretShares]. rewrite Hs.
  unfold shareDataOf. cbn [parties allSecretShares allVssSchemes set_allVssSchemes
    set_allSecretShares].
  match goal with
  | |- context [shareDataLoop ?f (parties c) []] =>
      destruct (shareDataLoop_lookup f (parties c) [] Hall Hnd) as [result [Hloop Hget]]
  end.
  rewrite Hloop. eexists; eexists. split; [reflexivity|]. split.
  - intros pid idx Hidx. unfold assignedIndex in Hidx. rewrite Hget.
    destruct (findParty pid (parties c)) as [p|]; [|discriminate].
    rewrite Hidx. cbn [option_map]. eexists. split; [reflexivity|].
    cbn [se_partyIndex se_threshold se_shareCount se_publicKeys se_allVssSchemes
         se_allSecretShares].
    unfold serialize2DArrayForHttp. rewrite !length_map, Array_sort_length.
    repeat split.
    rewrite map_map. apply map_ext. intros share. rewrite map_map. reflexivity.
  - intros pid Hout.
    assert (Hnone : objectGet pid result = None).
    { rewrite Hget. rewrite (findParty_unregistered pid (parties c) Hout). reflexivity. }
    split; [exact Hnone|]. intros onObjectPrototype. unfold objectRead. rewrite Hnone.
    split.
    + intros entry.
      destruct (objectGet "__proto__" result);
        [destruct (existsb _ _); [discriminate|]|];
        destruct (onObjectPrototype pid); discriminate.
    + intros Hproto Hkey.
      rewrite Hget, (findParty_unregistered "__proto__" (parties c) Hproto).
      cbn [option_map]. rewrite Hkey. reflexivity.
Qed.

Lemma ephShareDataLoop_lookup (entryFor : Z -> EphShareEntry VSSScheme)
    (ps : list Party) (indices : list Z) (acc : ObjectMap (EphShareEntry VSSScheme)) :
  NoDup (map partyId ps) ->
  Forall (fun idx => arrayAt ps idx <> None) indices ->
  exists result,
    ephShareDataLoop entryFor ps indices acc = Ok result
    /\ forall idx p,
         arrayAt ps idx = Some p ->
         (In idx indices -> objectGet (partyId p) result = Some (entryFor idx))
         /\ (~ In idx indices -> objectGet (partyId p) result = objectGet (partyId p) acc).
Proof.
  intros Hnd. revert acc. induction indices as [|j rest IH]; intros acc Hall.
  - exists acc. split; [reflexivity|]. intros idx p _. split; [intros [] | reflexivity].
  - inversion Hall as [|? ? Hj Hall']; subst.
    cbn [ephShareDataLoop]. destruct (arrayAt ps j) as [q|] eqn:Hq; [|contradiction].
    destruct (IH (objectSet (partyId q) (entryFor j) acc) Hall') as [result [Hloop Hget]].
    exists result. split; [exact Hloop|]. intros idx p Hp.
    destruct (Hget idx p Hp) as [Hin Hout].
    destruct (in_dec Z.eq_dec idx rest) as [Hr|Hr].
    + split; [intros _; apply Hin, Hr | intros H; exfalso; apply H; right; exact Hr].
    + destruct (Z.eq_dec j idx) as [->|Hne].
      * split; [|intros H; exfalso; apply H; left; reflexivity].
        intros _. rewrite (Hout Hr).
        assert (q = p) by congruence. subst q. apply objectGet_set_same.
      * split; [intros [H|H]; [contradiction | contradiction]|].
        intros _. rewrite (Hout Hr). apply objectGet_set_other.
        intros Heq. apply Hne.
        unfold arrayAt in Hq, Hp.
        destruct (j <? 0) eqn:Ej; [discriminate|].
        destruct (idx <? 0) eqn:Ei; [discriminate|].
        apply Z.ltb_ge in Ej, Ei.
        pose proof (nth_error_ids_inj ps _ _ q p Hnd Hq Hp Heq). lia.
Qed.

Lemma ephShareDataLoop_missing (entryFor : Z -> EphShareEntry VSSScheme)
    (ps : list Party) (indices : list Z) (acc : ObjectMap (EphShareEntry VSSScheme)) :
  Exists (fun idx => arrayAt ps idx = None) indices ->
  exists e, ephShareDataLoop entryFor ps indices acc = Fail e /\ errClass e = StateError.
Proof.
  intros H. revert acc. induction H as [j rest Hj | j rest _ IH]; intros acc;
    cbn [ephShareDataLoop].
  - rewrite Hj. eexists. split; reflexivity.
  - destruct (arrayAt ps j); [apply IH|]. eexists. split; reflexivity.
Qed.

(** X27. In a signing session whose R points are stored, with every party
    listed once, [collectEphemeralShares] returns an entry under the
    identifier of each signing party, found at the position its index
    names: the entry carries that index, the list of signing indices, their
    number as share count and the session's threshold. If a signing index
    names no position of the party list, the call throws a state error. *)
Theorem collectEphemeralShares_entries (partyEphShares : list (PartyShares VSSScheme))
    (c : Coordinator VSSScheme) (s : KeyGenSession) (indices : list Z)
    (points : list SerializableBigInt) :
  session c = Some s ->
  signingPartyIndices c = Some indices ->
  ephRPoints c = Some points ->
  NoDup (map partyId (parties c)) ->
  (Forall (fun idx => arrayAt (parties c) idx <> None) indices ->
   exists data c',
     collectEphemeralShares localeCompare partyEphShares c = Returned data c'
     /\ forall idx p,
          In idx indices ->
          arrayAt (parties c) idx = Some p ->
          exists entry,
            objectGet (partyId p) data = Some entry
            /\ ese_partyIndex entry = idx
            /\ ese_signingParties entry = indices
            /\ ese_shareCount entry = List.length indices
            /\ ese_threshold entry = threshold s
            /\ ese_ephRPoints entry = map serializeForHttp points)
  /\ (Exists (fun idx => arrayAt (parties c) idx = None) indices ->
      exists e c',
        collectEphemeralShares localeCompare partyEphShares c = Thrown e c'
        /\ errClass e = StateError).
Proof.
  intros Hs Hidx Hpts Hnd.
  unfold collectEphemeralShares, bind, assign, this, throw, ret, call.
  cbn [session signingPartyIndices ephRPoints set_allEphVssSchemes set_allEphSecretShares].
  rewrite Hs, Hidx, Hpts. unfold ephShareDataOf.
  cbn [parties set_allEphVssSchemes set_allEphSecretShares]. split.
  - intros Hall.
    match goal with
    | |- context [ephShareDataLoop ?f (parties c) indices []] =>
        destruct (ephShareDataLoop_lookup f (parties c) indices [] Hnd Hall)
          as [result [Hloop Hget]]
    end.
    rewrite Hloop. eexists; eexists. split; [reflexivity|].
    intros idx p Hin Hp. destruct (Hget idx p Hp) as [Hfound _].
    eexists. split; [apply Hfound, Hin|]. cbn. repeat split.
  - intros Hmiss.
    match goal with
    | |- context [ephShareDataLoop ?f (parties c) indices []] =>
        destruct (ephShareDataLoop_missing f (parties c) indices [] Hmiss) as [e [Hloop He]]
    end.
    rewrite Hloop. eexists; eexists. split; [reflexivity | exact He].
Qed.

(** X28. What [collectEphemeralShares] returned is what
    [getEphKeyConstructionDataHttp] returns afterwards, provided shares
    were submitted and the stored list of R points is not empty. *)
Theorem getEphKeyConstructionDataHttp_after_collect
    (partyEphShares : list (PartyShares VSSScheme)) (c c' : Coordinator VSSScheme)
    (data : ObjectMap (EphShareEntry VSSScheme)) (points : list SerializableBigInt) :
  partyEphShares <> [] ->
  ephRPoints c = Some points ->
  points <> [] ->
  collectEphemeralShares localeCompare partyEphShares c = Returned data c' ->
  getEphKeyConstructionDataHttp c' = Returned data c'.
Proof.
  intros Hne Hpts Hpne.
  unfold collectEphemeralShares, getEphKeyConstructionDataHttp, bind, assign, this, throw,
    ret, call.
  cbn [session signingPartyIndices ephRPoints set_allEphVssSchemes set_allEphSecretShares].
  rewrite Hpts.
  destruct (signingPartyIndices c) as [indices|] eqn:Hidx; [|discriminate].
  destruct (session c) as [s|] eqn:Hs; [|discriminate].
  destruct (ephShareDataOf s indices points _ _ _) as [result|e] eqn:E; [|discriminate].
  intros H. injection H as <- <-.
  cbn [session signingPartyIndices ephRPoints allEphSecretShares allEphVssSchemes
       set_allEphVssSchemes set_allEphSecretShares].
  rewrite Hpts, Hidx, Hs.
  destruct (Array_sort (byPartyId localeCompare ps_partyId) partyEphShares)
    as [|first rest] eqn:Hsort.
  - exfalso. exact (Array_sort_nonempty _ _ Hne Hsort).
  - destruct points as [|pt pts]; [exfalso; apply Hpne; reflexivity|].
    cbn [map]. cbn [map] in E.
    unfold ephShareDataOf in *.
    cbn [parties set_allEphVssSchemes set_allEphSecretShares] in *.
    rewrite E. reflexivity.
Qed.

End KeyConstructionData.

Lemma scenarioA_ids : map partyId (parties scenarioA) = ["p0"; "p1"; "p2"]%string.
Proof. reflexivity. Qed.

Lemma scenario_ids_NoDup : NoDup ["p0"; "p1"; "p2"]%string.
Proof. repeat constructor; cbn; intuition discriminate. Qed.

Lemma collectShares_entries_witness :
  exists data c' entry,
    collectShares ordinalCompare scenarioPartyShares scenarioA = Returned data c'
    /\ objectGet "p1"%string data = Some entry
    /\ se_partyIndex entry = 1
    /\ se_threshold entry = 2
    /\ se_shareCount entry = 3%nat
    /\ se_publicKeys entry = [oneByte 10; oneByte 11; oneByte 12]
    /\ se_allSecretShares entry = scenarioShareMatrix
    /\ objectRead (fun key => String.eqb key "toString") shareEntryFields "p7" data
       = ReadUndefined.
Proof.
  destruct (collectShares_entries unit ordinalCompare scenarioPartyShares scenarioA
              (mkKeyGenSession 2 3) eq_refl scenarioA_allIndexed)
    as [data [c' [Hret [Hentries Hnone]]]].
  - rewrite scenarioA_ids. exact scenario_ids_NoDup.
  - destruct (Hentries "p1"%string 1 eq_refl)
      as [entry [Hget [Hidx [Ht [Hcount [Hkeys [_ [Hshares _]]]]]]]].
    exists data, c', entry.
    split; [exact Hret|]. split; [exact Hget|]. split; [exact Hidx|].
    split; [exact Ht|]. split; [exact Hcount|]. split; [exact Hkeys|].
    split; [exact Hshares|].
    assert (Hout : forall pid, ~ In pid ["p0"; "p1"; "p2"]%string ->
                               ~ registered scenarioA pid).
    { intros pid H. unfold registered. rewrite scenarioA_ids. exact H. }
    apply (proj2 (proj2 (Hnone "p7"%string
                           ltac:(apply Hout; cbn; intuition discriminate))
                    (fun key => String.eqb key "toString"))).
    + apply Hout. cbn. intuition discriminate.
    + reflexivity.
Defined.

Lemma collectEphemeralShares_entries_witness :
  exists data c' entry,
    collectEphemeralShares ordinalCompare scenarioEphShares scenarioD = Returned data c'
    /\ objectGet "p2"%string data = Some entry
    /\ ese_partyIndex entry = 2
    /\ ese_signingParties entry = [0; 2]
    /\ ese_shareCount entry = 2%nat.
Proof.
  destruct (proj1 (collectEphemeralShares_entries unit ordinalCompare scenarioEphShares
                     scenarioD (mkKeyGenSession 2 3) [0; 2] [oneByte 60; oneByte 62]
                     eq_refl eq_refl eq_refl
                     ltac:(change (NoDup ["p0"; "p1"; "p2"]%string);
                           exact scenario_ids_NoDup)))
    as [data [c' [Hret Hentries]]].
  - repeat constructor; discriminate.
  - destruct (Hentries 2 (mkParty "p2" (mkBytes (BufferBytes [12])) 2 (Some 2)))
      as [entry [Hget [Hidx [Hsigning [Hcount _]]]]].
    + right. left. reflexivity.
    + reflexivity.
    + exists data, c', entry.
      split; [exact Hret|]. split; [exact Hget|]. split; [exact Hidx|].
      split; [exact Hsigning | exact Hcount].
Defined.

Lemma getEphKeyConstructionDataHttp_after_collect_witness :
  exists data c',
    collectEphemeralShares ordinalCompare scenarioEphShares scenarioD = Returned data c'
    /\ getEphKeyConstructionDataHttp c' = Returned data c'.
Proof.
  destruct (collectEphemeralShares ordinalCompare scenarioEphShares scenarioD)
    as [data c'|e c'] eqn:E; [|vm_compute in E; discriminate E].
  exists data, c'. split; [reflexivity|].
  apply (getEphKeyConstructionDataHttp_after_collect unit ordinalCompare
           scenarioEphShares scenarioD c' data [oneByte 60; oneByte 62]).
  - discriminate.
  - reflexivity.
  - discriminate.
  - exact E.
Defined.

(** ** What the collectors leave alone *)

Section CollectorFrame.

Variable VSSScheme : Type.
Variable localeCompare : string -> string -> Z.

Lemma frame_Returned {A} (a : A) (c c0 : Coordinator VSSScheme) :
  parties c = parties c0 /\ session c = session c0 ->
  parties (stateAfter (Returned a c)) = parties c0
  /\ session (stateAfter (Returned a c)) = session c0.
Proof. intros H. exact H. Qed.

(** X29. No collector and no getter writes the session or the party
    list: whatever they are given and whether they return or throw, the
    eleven methods leave both as they were. Only [startKeyGeneration] and
    [registerParty] write them. *)
Theorem collectors_keep_parties (c : Coordinator VSSScheme)
    (commits : list PartyCommitment) (shares : list (PartyShares VSSScheme))
    (keys : list PartyEphKey) (ephData : list PartyEphData) :
  let kept (c' : Coordinator VSSScheme) :=
    parties c' = parties c /\ session c' = session c in
  kept (stateAfter (collectCommitments localeCompare commits c))
  /\ kept (stateAfter (collectShares localeCompare shares c))
  /\ kept (stateAfter (collectEphemeralKeys localeCompare keys c))
  /\ kept (stateAfter (collectEphemeralCommitments localeCompare commits c))
  /\ kept (stateAfter (collectEphemeralKeysAndCommitments localeCompare ephData c))
  /\ kept (stateAfter (collectEphemeralShares localeCompare shares c))
  /\ kept (stateAfter (getMessageForHttp c))
  /\ kept (stateAfter (getCommitDataForSharesHttp c))
  /\ kept (stateAfter (getKeyConstructionDataHttp c))
  /\ kept (stateAfter (getEphCommitDataForSharesHttp c))
  /\ kept (stateAfter (getEphKeyConstructionDataHttp c)).
Proof.
  intros kept. unfold kept.
  unfold collectCommitments, collectShares, collectEphemeralKeys,
    collectEphemeralCommitments, collectEphemeralKeysAndCommitments,
    collectEphemeralShares, getMessageForHttp, getCommitDataForSharesHttp,
    getKeyConstructionDataHttp, getEphCommitDataForSharesHttp,
    getEphKeyConstructionDataHttp, bind, assign, this, throw, ret, call.
  cbn [session parties signingPartyIndices ephRPoints allSecretShares allEphSecretShares
       allEphVssSchemes signingSession
       set_commitments set_blindFactors set_allVssSchemes set_allSecretShares
       set_ephRPoints set_ephCommitments set_ephBlindFactors set_allEphVssSchemes
       set_allEphSecretShares].
  repeat split.
  all: repeat match goal with
       | |- context [match ?x with _ => _ end] => destruct x eqn:?
       end;
    cbn [stateAfter session parties
         set_commitments set_blindFactors set_allVssSchemes set_allSecretShares
         set_ephRPoints set_ephCommitments set_ephBlindFactors set_allEphVssSchemes
         set_allEphSecretShares];
    congruence.
Qed.

End CollectorFrame.

(** ** Alignment of the collected data *)

Section Alignment.

Variable VSSScheme : Type.
Variable localeCompare : string -> string -> Z.
Variable sha256_readUInt16BE : string -> Z.

Hypothesis compare_antisym :
  forall a b, Z.sgn (localeCompare b a) = - Z.sgn (localeCompare a b).
Hypothesis compare_trans :
  forall a b c, localeCompare a b <= 0 -> localeCompare b c <= 0 -> localeCompare a c <= 0.

(** In a list sorted by identifier without repetition, an element stands
    at the position its rank names. *)
Lemma sorted_position {A} (id : A -> string) (l : list A) (x : A) :
  StronglySorted (fun a b => localeCompare a b <= 0) (map id l) ->
  NoDup (map id l) ->
  (forall a b, In a (map id l) -> In b (map id l) -> localeCompare a b = 0 -> a = b) ->
  In x l ->
  nth_error l (List.length (filter (fun z => localeCompare z (id x) <? 0) (map id l)))
  = Some x.
Proof.
  induction l as [|q l IH]; intros Hs Hnd Hsep Hin; [destruct Hin|].
  cbn [map] in *.
  inversion Hs as [|? ? Hs' Hq]; subst.
  inversion Hnd as [|? ? Hnq Hnd']; subst. cbn [filter].
  destruct Hin as [->|Hin].
  - pose proof (compare_antisym (id x) (id x)) as Hxx.
    assert (E : (localeCompare (id x) (id x) <? 0) = false) by (apply Z.ltb_ge; lia).
    rewrite E.
    rewrite (none_before localeCompare compare_antisym (id x) (map id l) Hq).
    reflexivity.
  - assert (Hlt : (localeCompare (id q) (id x) <? 0) = true).
    { apply Z.ltb_lt. rewrite Forall_forall in Hq.
      specialize (Hq (id x) (in_map id _ _ Hin)).
      destruct (Z.eq_dec (localeCompare (id q) (id x)) 0) as [H0|H0]; [|lia].
      apply Hsep in H0; [|left; reflexivity | right; apply in_map, Hin].
      exfalso. apply Hnq. rewrite H0. apply in_map, Hin. }
    rewrite Hlt. cbn [List.length nth_error]. apply IH; try assumption.
    intros a b Ha Hb. apply Hsep; right; assumption.
Qed.

Lemma sorted_by_id {A} (id : A -> string) (l : list A) :
  StronglySorted (fun a b => localeCompare a b <= 0)
    (map id (Array_sort (byPartyId localeCompare id) l)).
Proof.
  assert (H : StronglySorted (fun p q => byPartyId localeCompare id p q <= 0)
                (Array_sort (byPartyId localeCompare id) l)).
  { apply Array_sort_sorted.
    - intros p q. unfold byPartyId. pose proof (compare_antisym (id p) (id q)). lia.
    - intros p q r. unfold byPartyId. apply compare_trans. }
  induction H as [|p l' _ IH Hp]; cbn; constructor.
  - exact IH.
  - apply Forall_map. exact Hp.
Qed.

(** The identifiers and keys of the parties are those of the
    registrations, the keys as [Buffer]s. *)
Lemma assignProtocolIndex_keys (i : Z) (ps : list Party) :
  map (fun p => (partyId p, publicKey p)) (assignProtocolIndex i ps)
  = map (fun p => (partyId p, publicKey p)) ps.
Proof.
  revert i. induction ps as [|p ps IH]; intros i; cbn; [reflexivity|].
  rewrite IH. reflexivity.
Qed.

Lemma registerAll_keys (regs : list (string * SerializableBigInt))
    (c0 c : Coordinator VSSScheme) :
  registerAll localeCompare sha256_readUInt16BE regs c0 = Returned tt c ->
  Permutation (map (fun p => (partyId p, publicKey p)) (parties c))
    (map (fun reg => (fst reg, normalizeBytesToBuffer (snd reg))) regs
     ++ map (fun p => (partyId p, publicKey p)) (parties c0)).
Proof.
  revert c0. induction regs as [|[pid pk] regs IH]; intros c0 Hrun.
  - cbn in Hrun. injection Hrun as <-. apply Permutation_refl.
  - cbn [registerAll] in Hrun. unfold bind at 1 in Hrun.
    destruct (session c0) as [s|] eqn:Hs.
    + destruct (registerParty_returns VSSScheme localeCompare sha256_readUInt16BE
                  pid pk c0 s Hs) as [idx [_ Hret]].
      rewrite Hret in Hrun. apply IH in Hrun.
      eapply perm_trans; [exact Hrun|]. cbn [parties set_parties map fst snd].
      unfold registrationStep. rewrite assignProtocolIndex_keys.
      eapply perm_trans;
        [apply Permutation_app_head, Permutation_map, Array_sort_perm|].
      rewrite map_app. cbn [map partyId publicKey].
      apply Permutation_sym. cbn [app fst snd]. rewrite app_assoc.
      apply Permutation_cons_append.
    + rewrite (registerParty_no_session VSSScheme localeCompare sha256_readUInt16BE
                 pid pk c0 Hs) in Hrun.
      discriminate.
Qed.

(** X30. When the parties of a fresh session have registered under
    distinct identifiers and each of them submits a commitment, in any
    order, [collectCommitments] returns the data party by party: at the
    position [i] of a submitting party's protocol index stand that
    party's commitment and blind factor, in HTTP form, the public key it
    was registered with, in HTTP form, and the number [i] in the party
    vector. *)
Theorem collectCommitments_aligned (regs : list (string * SerializableBigInt))
    (partyCommitments : list PartyCommitment) (c0 c : Coordinator VSSScheme)
    (s : KeyGenSession) :
  session c0 = Some s ->
  parties c0 = [] ->
  NoDup (map fst regs) ->
  (forall a b, In a (map fst regs) -> In b (map fst regs) ->
               localeCompare a b = 0 -> a = b) ->
  registerAll localeCompare sha256_readUInt16BE regs c0 = Returned tt c ->
  Permutation (map pc_partyId partyCommitments) (map fst regs) ->
  exists data c',
    collectCommitments localeCompare partyCommitments c = Returned data c'
    /\ forall commit,
         In commit partyCommitments ->
         exists i p pk,
           assignedIndex c (pc_partyId commit) = Some (Z.of_nat i)
           /\ nth_error (parties c) i = Some p
           /\ partyId p = pc_partyId commit
           /\ In (pc_partyId commit, pk) regs
           /\ publicKey p = normalizeBytesToBuffer pk
           /\ nth_error (cd_publicKeys data) i
              = Some (serializeForHttp (normalizeBytesToBuffer pk))
           /\ nth_error (cd_publicKeys data) i = Some (serializeForHttp (publicKey p))
           /\ nth_error (cd_commitments data) i
              = Some (serializeForHttp (normalizeBytesToBuffer (pc_commitment commit)))
           /\ nth_error (cd_blindFactors data) i
              = Some (serializeForHttp (normalizeBytesToBuffer (pc_blindFactor commit)))
           /\ nth_error (cd_parties data) i = Some (Z.of_nat i).
Proof.
  intros Hs Hempty Hnd Hsep Hrun Hperm.
  destruct (registerAll_returns VSSScheme localeCompare sha256_readUInt16BE
              compare_antisym compare_trans regs c0 s Hs)
    as [c1 [l [Hrun1 [Hs1 [Hps [Hsl Hpl]]]]]].
  { exists []. rewrite Hempty. split; [reflexivity | constructor]. }
  rewrite Hrun in Hrun1. injection Hrun1 as <-.
  rewrite Hempty, app_nil_r in Hpl.
  destruct (registerAll_assigns VSSScheme localeCompare sha256_readUInt16BE
              compare_antisym compare_trans regs c0 s Hs Hempty Hnd Hsep)
    as [c2 [Hrun2 [Hassigned _]]].
  rewrite Hrun in Hrun2. injection Hrun2 as <-.
  pose proof (registerAll_keys regs c0 c Hrun) as Hkeys.
  rewrite Hempty in Hkeys. cbn [map] in Hkeys. rewrite app_nil_r in Hkeys.
  eexists; eexists.
  split; [apply (collectCommitments_returns VSSScheme localeCompare partyCommitments c s Hs1)|].
  intros commit Hin.
  set (sorted := Array_sort (byPartyId localeCompare pc_partyId) partyCommitments).
  set (pid := pc_partyId commit).
  set (i := List.length (filter (fun z => localeCompare z pid <? 0) (map fst regs))).
  assert (Hpid : In pid (map fst regs)).
  { eapply Permutation_in; [exact Hperm|]. apply in_map, Hin. }
  assert (Hsorted_perm : Permutation (map pc_partyId sorted) (map fst regs)).
  { eapply perm_trans; [apply Permutation_map, Array_sort_perm | exact Hperm]. }
  assert (Hcommit : nth_error sorted i = Some commit).
  { unfold i. rewrite <- (filter_length_perm _ _ _ Hsorted_perm).
    apply (sorted_position pc_partyId).
    - apply sorted_by_id.
    - eapply Permutation_NoDup; [apply Permutation_sym, Hsorted_perm | exact Hnd].
    - intros a b Ha Hb.
      apply Hsep; [exact (Permutation_in _ Hsorted_perm Ha)
                  | exact (Permutation_in _ Hsorted_perm Hb)].
    - eapply Permutation_in; [apply Permutation_sym, Array_sort_perm | exact Hin]. }
  assert (Hq : exists q, In q l /\ partyId q = pid).
  { assert (H : In pid (map partyId l))
      by (eapply Permutation_in; [apply Permutation_sym, Hpl | exact Hpid]).
    apply in_map_iff in H. destruct H as [q [Hq1 Hq2]]. exists q. auto. }
  destruct Hq as [q [Hql Hqid]].
  assert (Hparty : nth_error l i = Some q).
  { unfold i. rewrite <- (filter_length_perm _ _ _ Hpl). rewrite <- Hqid.
    apply (sorted_position partyId).
    - exact Hsl.
    - eapply Permutation_NoDup; [apply Permutation_sym, Hpl | exact Hnd].
    - intros a b Ha Hb.
      apply Hsep; [exact (Permutation_in _ Hpl Ha) | exact (Permutation_in _ Hpl Hb)].
    - exact Hql. }
  assert (Hnth : nth_error (parties c) i = Some (withProtocolIndex (Z.of_nat i) q)).
  { rewrite Hps, assignProtocolIndex_nth, Hparty. reflexivity. }
  assert (Hreg : exists pk, In (pid, pk) regs /\ publicKey q = normalizeBytesToBuffer pk).
  { assert (H : In (pid, publicKey q)
                  (map (fun reg => (fst reg, normalizeBytesToBuffer (snd reg))) regs)).
    { eapply Permutation_in; [exact Hkeys|].
      apply in_map_iff. exists (withProtocolIndex (Z.of_nat i) q).
      split; [cbn; rewrite Hqid; reflexivity | exact (nth_error_In _ _ Hnth)]. }
    apply in_map_iff in H. destruct H as [[pid' pk] [Heq Hinr]].
    cbn [fst snd] in Heq. injection Heq as -> Hpk.
    exists pk. split; [exact Hinr | symmetry; exact Hpk]. }
  destruct Hreg as [pk [Hinr Hpk]].
  exists i, (withProtocolIndex (Z.of_nat i) q), pk.
  split; [rewrite (Hassigned pid Hpid); reflexivity|].
  split; [exact Hnth|]. split; [exact Hqid|]. split; [exact Hinr|].
  split; [exact Hpk|].
  cbn [commitDataOf cd_publicKeys cd_commitments cd_blindFactors cd_parties parties
       commitments blindFactors set_commitments set_blindFactors].
  rewrite !nth_error_map. fold sorted. rewrite Hnth, Hcommit. cbn [option_map].
  cbn [withProtocolIndex publicKey]. rewrite Hpk.
  repeat split.
Qed.

End Alignment.

Lemma scenario_ids_NoDup_registration : NoDup ["p2"; "p0"; "p1"]%string.
Proof. repeat constructor; cbn; intuition discriminate. Qed.

Lemma collectCommitments_aligned_witness :
  exists data c',
    collectCommitments ordinalCompare scenarioCommitments scenarioA = Returned data c'
    /\ assignedIndex scenarioA "p1" = Some 1
    /\ nth_error (cd_commitments data) 1 = Some (oneByte 41)
    /\ nth_error (cd_blindFactors data) 1 = Some (oneByte 51)
    /\ nth_error (cd_publicKeys data) 1 = Some (oneByte 11).
Proof.
  destruct (collectCommitments_aligned unit ordinalCompare scenarioDigest
              ordinalCompare_antisym ordinalCompare_trans
              [("p2"%string, oneByte 12); ("p0"%string, oneByte 10);
               ("p1"%string, oneByte 11)]
              scenarioCommitments
              (stateAfter (startKeyGeneration 2 3 (newCoordinator unit))) scenarioA
              (mkKeyGenSession 2 3))
    as [data [c' [Hret Haligned]]].
  - reflexivity.
  - reflexivity.
  - exact scenario_ids_NoDup_registration.
  - intros a b _ _. apply ordinalCompare_separates.
  - vm_compute. reflexivity.
  - apply (Permutation_cons_append ["p2"; "p0"]%string "p1"%string).
  - destruct (Haligned (mkPartyCommitment "p1" (oneByte 41) (oneByte 51)))
      as [i [p [pk [Hidx [Hparty [Hid [Hreg [_ [Hkey [_ [Hcommit [Hblind _]]]]]]]]]]]].
    + left. reflexivity.
    + assert (Hi : i = 1%nat).
      { apply Nat2Z.inj. change (assignedIndex scenarioA "p1" = Some (Z.of_nat i)) in Hidx.
        assert (E : assignedIndex scenarioA "p1" = Some 1) by (vm_compute; reflexivity).
        rewrite E in Hidx. injection Hidx as <-. reflexivity. }
      subst i.
      assert (Hpk : pk = oneByte 11).
      { cbn [pc_partyId] in Hreg.
        destruct Hreg as [H|[H|[H|[]]]]; try discriminate H.
        injection H as <-. reflexivity. }
      subst pk.
      exists data, c'.
      split; [exact Hret|]. split; [exact Hidx|]. split; [exact Hcommit|].
      split; [exact Hblind | exact Hkey].
Defined.
